(** * cloud-instance-github-runner: the selector, the provisioner and the
    user-data writer, embedded from the three Python scripts under
    [src/scripts/].

    Conventions of the embedding.
    - A Python [str] is a [string]; each [ascii] stands for the code point
      of the same number, so the model covers the texts whose code points
      are below 256.  Every character the scripts test for (digits, the
      letters a-z, the bar, the quote, white space) lies in that range.
    - A Python [int] is a [Z]; a Python [float] is a binary64 [float].
    - [os.environ] is a [gmap string string].
    - What a script prints, runs and writes is recorded as a list of
      [event]s in program order; [sys.exit] and an uncaught exception end
      the run with an [outcome]. *)

From Stdlib Require Import ZArith NArith Ascii String List Bool Lia.
From Stdlib Require Import Strings.Byte PrimFloat FloatOps SpecFloat.
From stdpp Require Import base option list strings gmap.

Local Open Scope Z_scope.
Set Warnings "-register-all".

(** Text concatenation computes on its first argument. *)
Arguments String.append !s1 s2 : simpl nomatch.

(** ** The Python primitives the scripts call *)
Module Py.

Definition code (c : ascii) : N := N_of_ascii c.

(** [str.isspace] on one character below 256 (also the class [\s]). *)
Definition isspace (c : ascii) : bool :=
  let n := code c in
  ((9 <=? n) && (n <=? 13) || (28 <=? n) && (n <=? 32)
   || (n =? 133) || (n =? 160))%N.

(** The class [\d] below 256 and the digits [int] reads. *)
Definition isdigit (c : ascii) : bool :=
  let n := code c in ((48 <=? n) && (n <=? 57))%N.

(** The class [[a-z]]. *)
Definition islower_az (c : ascii) : bool :=
  let n := code c in ((97 <=? n) && (n <=? 122))%N.

(** [str.upper] on a character of [[a-z]]; other characters are not
    passed to it by the scripts and are left as they are. *)
Definition upper_az (c : ascii) : ascii :=
  if islower_az c then ascii_of_N (code c - 32) else c.

(** [str.lower] on one character below 256: A-Z and the Latin-1 capitals
    (0xC0-0xDE but for the multiplication sign) move up by 32. *)
Definition lower_char (c : ascii) : ascii :=
  let n := code c in
  if ((65 <=? n) && (n <=? 90)
      || (192 <=? n) && (n <=? 222) && negb (n =? 215))%N
  then ascii_of_N (n + 32) else c.

Fixpoint lower (s : string) : string :=
  match s with
  | EmptyString => EmptyString
  | String c r => String (lower_char c) (lower r)
  end.

(** Truth value of a string: non-empty. *)
Definition nonempty (s : string) : bool :=
  match s with EmptyString => false | _ => true end.

Fixpoint startswith (p s : string) : bool :=
  match p, s with
  | EmptyString, _ => true
  | String a p', String b s' => Ascii.eqb a b && startswith p' s'
  | String _ _, EmptyString => false
  end.

(** [s.endswith(suf)]: some tail of [s] is [suf]. *)
Fixpoint endswith (suf s : string) : bool :=
  String.eqb s suf ||
  match s with
  | EmptyString => false
  | String _ r => endswith suf r
  end.

(** [sub in s]. *)
Fixpoint contains (sub s : string) : bool :=
  startswith sub s ||
  match s with
  | EmptyString => false
  | String _ r => contains sub r
  end.

Fixpoint drop (n : nat) (s : string) : string :=
  match n, s with
  | O, _ => s
  | S n', String _ r => drop n' r
  | S _, EmptyString => EmptyString
  end.

(** [s[:n]]. *)
Fixpoint take (n : nat) (s : string) : string :=
  match n, s with
  | S n', String c r => String c (take n' r)
  | _, _ => EmptyString
  end.

(** The longest prefix whose characters satisfy [p], and the rest. *)
Fixpoint span (p : ascii -> bool) (s : string) : string * string :=
  match s with
  | String c r =>
      if p c then let '(a, b) := span p r in (String c a, b)
      else (EmptyString, s)
  | EmptyString => (EmptyString, EmptyString)
  end.

Fixpoint lstrip (s : string) : string :=
  match s with
  | String c r => if isspace c then lstrip r else s
  | EmptyString => EmptyString
  end.

Fixpoint rstrip (s : string) : string :=
  match s with
  | String c r =>
      match rstrip r with
      | EmptyString => if isspace c then EmptyString else String c EmptyString
      | r' => String c r'
      end
  | EmptyString => EmptyString
  end.

(** [s.strip()]. *)
Definition strip (s : string) : string := rstrip (lstrip s).

(** [s.split(sep)] for a one-character separator: the fields between the
    separators, at least one. *)
Fixpoint split (sep : ascii) (s : string) : list string :=
  match s with
  | EmptyString => [EmptyString]
  | String c r =>
      if Ascii.eqb c sep then EmptyString :: split sep r
      else match split sep r with
           | f :: fs => String c f :: fs
           | [] => [String c EmptyString]
           end
  end.

Definition digit_value (c : ascii) : Z := Z.of_N (code c) - 48.

(** The number a run of decimal digits denotes, most significant first. *)
Fixpoint digits_value_from (acc : Z) (s : string) : Z :=
  match s with
  | EmptyString => acc
  | String c r => digits_value_from (10 * acc + digit_value c) r
  end.

Definition digits_value (s : string) : Z := digits_value_from 0 s.

(** The body of an integer literal for [int]: decimal digits, where a
    single underscore may stand between two digits.  [prev] tells whether
    the previous character was a digit. *)
Fixpoint int_body (prev : bool) (acc : Z) (s : string) : option Z :=
  match s with
  | EmptyString => if prev then Some acc else None
  | String c r =>
      if isdigit c then int_body true (10 * acc + digit_value c) r
      else if Ascii.eqb c "_" then
        if prev then
          match r with
          | String d _ => if isdigit d then int_body false acc r else None
          | EmptyString => None
          end
        else None
      else None
  end.

(** The white space [int] skips around a literal: the characters of
    [isspace] but for the four separators 0x1c to 0x1f, which [int]
    refuses. *)
Definition isspace_int (c : ascii) : bool :=
  let n := code c in
  ((9 <=? n) && (n <=? 13) || (n =? 32) || (n =? 133) || (n =? 160))%N.

Fixpoint lstrip_int (s : string) : string :=
  match s with
  | String c r => if isspace_int c then lstrip_int r else s
  | EmptyString => EmptyString
  end.

Fixpoint rstrip_int (s : string) : string :=
  match s with
  | String c r =>
      match rstrip_int r with
      | EmptyString => if isspace_int c then EmptyString else String c EmptyString
      | r' => String c r'
      end
  | EmptyString => EmptyString
  end.

(** The number of decimal digits of a text. *)
Fixpoint digit_count (s : string) : nat :=
  match s with
  | EmptyString => O
  | String c r => if isdigit c then S (digit_count r) else digit_count r
  end.

(** The most digits CPython converts between [int] and [str] unless it
    is configured otherwise ([sys.int_max_str_digits]); beyond them
    [int(s)], [str(n)] and the formatting of [n] raise [ValueError].
    The conversions below are the ones within this limit, and the
    statements about numbers and literals that come from outside bound
    their digits by it. *)
Definition int_max_str_digits : nat := 4300.

(** [int(s)] in base ten for a text of at most [int_max_str_digits]
    digits; [None] stands for [ValueError]. *)
Definition int (s : string) : option Z :=
  match rstrip_int (lstrip_int s) with
  | String "-" r => Z.opp <$> int_body false 0 r
  | String "+" r => int_body false 0 r
  | r => int_body false 0 r
  end.

Definition digit_char (d : Z) : ascii := ascii_of_N (Z.to_N (48 + d)).

(** Decimal digits of a non-negative number; [fuel] bounds the number of
    digits. *)
Fixpoint digits_of (fuel : nat) (n : Z) (acc : string) : string :=
  match fuel with
  | O => acc
  | S f =>
      let acc' := String (digit_char (n mod 10)) acc in
      if n <? 10 then acc' else digits_of f (n / 10) acc'
  end.

(** [str(n)] of an [int]. *)
Definition str_of_int (n : Z) : string :=
  let m := Z.abs n in
  let ds := digits_of (S (Z.to_nat (Z.log2 m))) m EmptyString in
  if n <? 0 then String "-" ds else ds.

(** [re.search]: the leftmost position at which the pattern matches;
    [m] matches the pattern at the start of its argument. *)
Fixpoint re_search {A} (m : string -> option A) (s : string) : option A :=
  match m s with
  | Some r => Some r
  | None =>
      match s with
      | EmptyString => None
      | String _ r => re_search m r
      end
  end.

(** Every character of [s] satisfies [p]. *)
Fixpoint all (p : ascii -> bool) (s : string) : bool :=
  match s with
  | EmptyString => true
  | String c r => p c && all p r
  end.

(** The line feed. *)
Definition LF : ascii := "010".
Definition lf : string := String LF EmptyString.

(** The anchor [$] without MULTILINE: the end of the text, or just
    before a line feed that is its last character. *)
Definition at_dollar (s : string) : bool :=
  match s with
  | EmptyString => true
  | String c EmptyString => Ascii.eqb c LF
  | _ => false
  end.

End Py.

(** ** Facts about the primitives *)
Module PyFacts.
Import Py.

Definition chars := list_ascii_of_string.

Lemma chars_app a b : chars (a +:+ b) = chars a ++ chars b.
Proof. induction a as [|c a IH]; simpl; [done|]. by rewrite IH. Qed.

Lemma chars_inj a b : chars a = chars b -> a = b.
Proof.
  unfold chars. intros E. rewrite <- (string_of_list_ascii_of_string a),
    <- (string_of_list_ascii_of_string b). by rewrite E.
Qed.

Lemma append_assoc a b c : (a +:+ b) +:+ c = a +:+ (b +:+ c).
Proof. induction a as [|x a IH]; simpl; [done|]. by rewrite IH. Qed.


Lemma length_append a b :
  String.length (a +:+ b) = (String.length a + String.length b)%nat.
Proof. induction a as [|x a IH]; simpl; [done|]. by rewrite IH. Qed.

Lemma eqb_true_iff a b : String.eqb a b = true <-> a = b.
Proof. apply String.eqb_eq. Qed.

Lemma endswith_nil suf : endswith suf "" = String.eqb "" suf.
Proof. unfold endswith. apply orb_false_r. Qed.

Lemma endswith_cons suf c s :
  endswith suf (String c s) = String.eqb (String c s) suf || endswith suf s.
Proof. reflexivity. Qed.

(** [endswith] holds exactly of the texts that end in [suf]. *)
Lemma endswith_spec suf s :
  endswith suf s = true <-> exists p, s = p +:+ suf.
Proof.
  induction s as [|c s IH].
  - rewrite endswith_nil, String.eqb_eq. split.
    + intros <-. by exists "".
    + intros [p E]. destruct p; simpl in E; [done | discriminate].
  - rewrite endswith_cons, orb_true_iff, String.eqb_eq, IH. split.
    + intros [<- | [p ->]]; [by exists "" | by exists (String c p)].
    + intros [p E]. destruct p as [|x p]; simpl in E.
      * by left.
      * injection E as -> ->. right. by exists p.
Qed.

Lemma endswith_false suf s :
  endswith suf s = false <-> forall p, s <> p +:+ suf.
Proof.
  rewrite <- not_true_iff_false, endswith_spec. split.
  - intros N p E. apply N. by exists p.
  - intros N [p E]. by apply (N p).
Qed.

(** A successful search matched at some tail. *)
Lemma re_search_some {A} (m : string -> option A) s r :
  re_search m s = Some r -> exists p t, s = p +:+ t /\ m t = Some r.
Proof.
  induction s as [|c s IH]; simpl.
  - destruct (m "") eqn:E; [|done]. intros [= <-]. by exists "", "".
  - destruct (m (String c s)) eqn:E.
    + intros [= <-]. by exists "", (String c s).
    + intros (p & t & -> & Ht)%IH. by exists (String c p), t.
Qed.

(** The search finds the match at [t] when no longer tail matches. *)
Lemma re_search_app {A} (m : string -> option A) p t r :
  m t = Some r ->
  (forall q c u, p = q +:+ String c u -> m (String c u +:+ t) = None) ->
  re_search m (p +:+ t) = Some r.
Proof.
  intros Ht. induction p as [|c p IH]; intros Hp; simpl.
  - destruct t; simpl; by rewrite Ht.
  - pose proof (Hp "" c p eq_refl) as E. simpl in E. rewrite E. apply IH.
    intros q d u ->. by apply (Hp (String c q) d u).
Qed.



(** The white space of [int] is white space of [strip]. *)
Lemma isspace_int_isspace c : isspace_int c = true -> isspace c = true.
Proof. destruct c as [[] [] [] [] [] [] [] []]; by vm_compute. Qed.

(** A text without white space at either end is handed to the literal
    as it is. *)
Lemma lstrip_int_head s :
  match s with String c _ => isspace c = false | EmptyString => True end ->
  lstrip_int s = s.
Proof.
  destruct s as [|c s]; [done|]. cbn [lstrip_int]. intros Hc.
  destruct (isspace_int c) eqn:E; [|done].
  apply isspace_int_isspace in E. congruence.
Qed.

Lemma rstrip_int_all s :
  all (fun c => negb (isspace c)) s = true -> rstrip_int s = s.
Proof.
  induction s as [|c s IH]; [done|]. cbn [all rstrip_int].
  intros [Hc Hs]%andb_true_iff. rewrite (IH Hs).
  destruct (isspace_int c) eqn:E.
  { apply isspace_int_isspace in E. apply negb_true_iff in Hc. congruence. }
  by destruct s.
Qed.

Lemma int_of_literal s :
  all (fun c => negb (isspace c)) s = true ->
  int s = match s with
          | String "-" r => Z.opp <$> int_body false 0 r
          | String "+" r => int_body false 0 r
          | r => int_body false 0 r
          end.
Proof.
  intros Hs. unfold int.
  assert (lstrip_int s = s) as ->.
  { apply lstrip_int_head. destruct s as [|c s]; [done|]. cbn [all] in Hs.
    by apply andb_true_iff in Hs as [Hc%negb_true_iff _]. }
  rewrite (rstrip_int_all _ Hs).
  destruct s as [|[[] [] [] [] [] [] [] []] r]; reflexivity.
Qed.

End PyFacts.


(** ** [base64] and the UTF-8 codec, as the scripts use them *)
Module Base64.

(** The character of a six-bit value in the standard alphabet. *)
Definition enc_char (n : N) : ascii :=
  ascii_of_N (if n <? 26 then n + 65
              else if n <? 52 then n + 71
              else if n <? 62 then n - 4
              else if n =? 62 then 43
              else 47)%N.

(** The six-bit value of a character of the alphabet; [None] for every
    other character. *)
Definition dec_char (c : ascii) : option N :=
  let n := Py.code c in
  (if (65 <=? n) && (n <=? 90) then Some (n - 65)
   else if (97 <=? n) && (n <=? 122) then Some (n - 71)
   else if (48 <=? n) && (n <=? 57) then Some (n + 4)
   else if n =? 43 then Some 62
   else if n =? 47 then Some 63
   else None)%N.

(** The low eight bits of a number, as a byte. *)
Definition low_byte (n : N) : byte :=
  match Byte.of_N (n mod 256) with
  | Some b => b
  | None => x00
  end.

(** [base64.b64encode(bs).decode("ascii")]. *)
Fixpoint b64encode (bs : list byte) : string :=
  match bs with
  | [] => EmptyString
  | [a] =>
      let a := Byte.to_N a in
      String (enc_char (N.shiftr a 2))
        (String (enc_char (N.shiftl (N.land a 3) 4)) "==")
  | [a; b] =>
      let a := Byte.to_N a in
      let b := Byte.to_N b in
      String (enc_char (N.shiftr a 2))
        (String (enc_char (N.lor (N.shiftl (N.land a 3) 4) (N.shiftr b 4)))
           (String (enc_char (N.shiftl (N.land b 15) 2)) "="))
  | a :: b :: c :: rest =>
      let a := Byte.to_N a in
      let b := Byte.to_N b in
      let c := Byte.to_N c in
      String (enc_char (N.shiftr a 2))
        (String (enc_char (N.lor (N.shiftl (N.land a 3) 4) (N.shiftr b 4)))
           (String (enc_char (N.lor (N.shiftl (N.land b 15) 2) (N.shiftr c 6)))
              (String (enc_char (N.land c 63)) (b64encode rest))))
  end.

(** The two ways [binascii.a2b_base64] fails. *)
Inductive b64_error : Type :=
| BadLength (produced : nat)   (* one data character more than a multiple
                                  of four, after [produced] bytes *)
| IncorrectPadding.

(** One more decoded byte in front of what the rest decodes to. *)
Definition push (b : byte) (rest : b64_error + list byte)
  : b64_error + list byte :=
  match rest with
  | inr bs => inr (b :: bs)
  | inl (BadLength produced) => inl (BadLength (S produced))
  | inl IncorrectPadding => inl IncorrectPadding
  end.

(** [binascii.a2b_base64] without strict mode, from the state of its
    loop: the position in the current group of four, the bits left over
    from the previous character, and the padding characters seen since
    the last data character.  Characters outside the alphabet are passed
    over; a complete padding ends the decoding. *)
Fixpoint a2b_base64 (s : string) (quad_pos leftchar pads : N)
  : b64_error + list byte :=
  match s with
  | EmptyString =>
      if quad_pos =? 0 then inr []
      else if quad_pos =? 1 then inl (BadLength 0)
      else inl IncorrectPadding
  | String this_ch r =>
      if Ascii.eqb this_ch "=" then
        if 2 <=? quad_pos then
          if 4 <=? quad_pos + (pads + 1) then inr []
          else a2b_base64 r quad_pos leftchar (pads + 1)
        else a2b_base64 r quad_pos leftchar pads
      else
        match dec_char this_ch with
        | None => a2b_base64 r quad_pos leftchar pads
        | Some v =>
            if quad_pos =? 0 then a2b_base64 r 1 v 0
            else if quad_pos =? 1 then
              push (low_byte (N.lor (N.shiftl leftchar 2) (N.shiftr v 4)))
                  (a2b_base64 r 2 (N.land v 15) 0)
            else if quad_pos =? 2 then
              push (low_byte (N.lor (N.shiftl leftchar 4) (N.shiftr v 2)))
                  (a2b_base64 r 3 (N.land v 3) 0)
            else
              push (low_byte (N.lor (N.shiftl leftchar 6) v))
                  (a2b_base64 r 0 0 0)
        end
  end%N.

Inductive decoded : Type :=
| Bytes (bs : list byte)
| BinasciiError (e : b64_error)
| NotAscii.   (* the plain [ValueError] for a text with a character above 127 *)

(** [base64.b64decode(s)] for a text [s]. *)
Definition b64decode (s : string) : decoded :=
  if Py.all (fun c => (Py.code c <? 128)%N) s then
    match a2b_base64 s 0 0 0 with
    | inr bs => Bytes bs
    | inl e => BinasciiError e
    end
  else NotAscii.

(** [s.encode("utf-8")] for a text of code points below 256. *)
Fixpoint utf8_encode (s : string) : list byte :=
  match s with
  | EmptyString => []
  | String c r =>
      let n := Py.code c in
      if (n <? 128)%N then low_byte n :: utf8_encode r
      else low_byte (N.lor 192 (N.shiftr n 6))
           :: low_byte (N.lor 128 (N.land n 63)) :: utf8_encode r
  end.

Definition in_range (lo hi : N) (b : byte) : bool :=
  let n := Byte.to_N b in ((lo <=? n) && (n <=? hi))%N.

(** Well-formed UTF-8 (the table of the Unicode standard): what
    [bs.decode("utf-8")] accepts. *)
Fixpoint utf8_valid (fuel : nat) (bs : list byte) : bool :=
  match fuel with
  | O => match bs with [] => true | _ => false end
  | S fuel =>
      match bs with
      | [] => true
      | a :: r =>
          if in_range 0 127 a then utf8_valid fuel r
          else if in_range 194 223 a then
            match r with
            | b :: r => in_range 128 191 b && utf8_valid fuel r
            | _ => false
            end
          else if in_range 224 239 a then
            match r with
            | b :: c :: r =>
                (if in_range 224 224 a then in_range 160 191 b
                 else if in_range 237 237 a then in_range 128 159 b
                 else in_range 128 191 b)
                && in_range 128 191 c && utf8_valid fuel r
            | _ => false
            end
          else if in_range 240 244 a then
            match r with
            | b :: c :: d :: r =>
                (if in_range 240 240 a then in_range 144 191 b
                 else if in_range 244 244 a then in_range 128 143 b
                 else in_range 128 191 b)
                && in_range 128 191 c && in_range 128 191 d
                && utf8_valid fuel r
            | _ => false
            end
          else false
      end
  end.

(** A text held as the bytes of its UTF-8 encoding. *)
Definition utf8_text : Type := list byte.

(** [bs.decode("utf-8")], the text held as its encoding: the bytes
    themselves when they are well formed, [None] for
    [UnicodeDecodeError]. *)
Definition utf8_decode (bs : list byte) : option utf8_text :=
  if utf8_valid (length bs) bs then Some bs else None.

End Base64.

(** ** Facts about base64 *)
Module Base64Facts.
Import Base64.
Local Open Scope N_scope.

(** [P] holds of every number below [n]. *)
Definition below (n : nat) (P : N -> bool) : bool :=
  forallb P (map N.of_nat (seq 0 n)).

Lemma below_spec n P x :
  below n P = true -> x < N.of_nat n -> P x = true.
Proof.
  unfold below. rewrite forallb_forall. intros HP Hx. apply HP.
  apply in_map_iff. exists (N.to_nat x). split; [lia|].
  apply in_seq. lia.
Qed.

Lemma dec_enc_char n : n < 64 -> dec_char (enc_char n) = Some n.
Proof.
  intros Hn.
  assert (below 64 (fun n => match dec_char (enc_char n) with
                             | Some m => m =? n
                             | None => false
                             end) = true) as Hb by (vm_compute; reflexivity).
  pose proof (below_spec _ _ n Hb Hn) as E. cbv beta in E.
  clear Hb. destruct (dec_char (enc_char n)); [|discriminate E].
  apply N.eqb_eq in E as ->. reflexivity.
Qed.

(** The characters of the alphabet are ASCII, are not the padding and
    are not white space. *)
Lemma enc_char_plain n :
  n < 64 ->
  Ascii.eqb (enc_char n) "=" = false /\
  Py.code (enc_char n) <? 128 = true /\
  Py.isspace (enc_char n) = false.
Proof.
  intros Hn.
  assert (below 64 (fun n => negb (Ascii.eqb (enc_char n) "=")
                             && (Py.code (enc_char n) <? 128)
                             && negb (Py.isspace (enc_char n))) = true)
    as Hb by (vm_compute; reflexivity).
  pose proof (below_spec _ _ n Hb Hn) as E. cbv beta in E.
  clear Hb. apply andb_true_iff in E as [[E1 E2]%andb_true_iff E3].
  apply negb_true_iff in E1, E3. auto.
Qed.

(** The bit identities behind one group of three bytes. *)
Lemma sextets_bounded a b :
  a < 256 -> b < 256 ->
  N.shiftr a 2 < 64 /\ N.lor (N.shiftl (N.land a 3) 4) (N.shiftr b 4) < 64 /\
  N.lor (N.shiftl (N.land a 15) 2) (N.shiftr b 6) < 64 /\ N.land a 63 < 64 /\
  N.shiftl (N.land a 3) 4 < 64 /\ N.shiftl (N.land a 15) 2 < 64.
Proof.
  intros Ha Hb.
  assert (below 256 (fun a => below 256 (fun b =>
            (N.shiftr a 2 <? 64)
            && (N.lor (N.shiftl (N.land a 3) 4) (N.shiftr b 4) <? 64)
            && (N.lor (N.shiftl (N.land a 15) 2) (N.shiftr b 6) <? 64)
            && (N.land a 63 <? 64)
            && (N.shiftl (N.land a 3) 4 <? 64)
            && (N.shiftl (N.land a 15) 2 <? 64))) = true)
    as H by (vm_compute; reflexivity).
  pose proof (below_spec _ _ b (below_spec _ _ a H Ha) Hb) as E. cbv beta in E.
  clear H. repeat (apply andb_true_iff in E as [E ?]).
  repeat split; apply N.ltb_lt; assumption.
Qed.

Lemma first_byte a b :
  a < 256 -> b < 256 ->
  N.lor (N.shiftl (N.shiftr a 2) 2)
        (N.shiftr (N.lor (N.shiftl (N.land a 3) 4) (N.shiftr b 4)) 4) = a
  /\ N.lor (N.shiftl (N.shiftr a 2) 2)
           (N.shiftr (N.shiftl (N.land a 3) 4) 4) = a.
Proof.
  intros Ha Hb.
  assert (below 256 (fun a => below 256 (fun b =>
            (N.lor (N.shiftl (N.shiftr a 2) 2)
               (N.shiftr (N.lor (N.shiftl (N.land a 3) 4) (N.shiftr b 4)) 4)
             =? a)
            && (N.lor (N.shiftl (N.shiftr a 2) 2)
                  (N.shiftr (N.shiftl (N.land a 3) 4) 4) =? a))) = true)
    as H by (vm_compute; reflexivity).
  pose proof (below_spec _ _ b (below_spec _ _ a H Ha) Hb) as E. cbv beta in E.
  clear H. apply andb_true_iff in E as [E1 E2].
  split; apply N.eqb_eq; assumption.
Qed.

Lemma second_byte a b c :
  a < 256 -> b < 256 -> c < 256 ->
  N.lor (N.shiftl (N.land (N.lor (N.shiftl (N.land a 3) 4) (N.shiftr b 4)) 15) 4)
        (N.shiftr (N.lor (N.shiftl (N.land b 15) 2) (N.shiftr c 6)) 2) = b
  /\ N.lor (N.shiftl (N.land (N.lor (N.shiftl (N.land a 3) 4) (N.shiftr b 4)) 15) 4)
           (N.shiftr (N.shiftl (N.land b 15) 2) 2) = b.
Proof.
  intros Ha Hb Hc.
  assert (below 4 (fun x => below 256 (fun b => below 4 (fun y =>
            (N.lor (N.shiftl (N.land (N.lor (N.shiftl x 4) (N.shiftr b 4)) 15) 4)
               (N.shiftr (N.lor (N.shiftl (N.land b 15) 2) y) 2) =? b)
            && (N.lor (N.shiftl (N.land (N.lor (N.shiftl x 4) (N.shiftr b 4)) 15) 4)
                  (N.shiftr (N.shiftl (N.land b 15) 2) 2) =? b)))) = true)
    as H by (vm_compute; reflexivity).
  assert (N.land a 3 < 4 /\ N.shiftr c 6 < 4) as [Hx Hy].
  { assert (below 256 (fun a => (N.land a 3 <? 4) && (N.shiftr a 6 <? 4)) = true)
      as H' by (vm_compute; reflexivity).
    pose proof (below_spec _ _ a H' Ha) as Ea.
    pose proof (below_spec _ _ c H' Hc) as Ec. cbv beta in Ea, Ec.
    apply andb_true_iff in Ea as [Ea _], Ec as [_ Ec].
    split; by apply N.ltb_lt. }
  pose proof (below_spec _ _ _
    (below_spec _ _ b (below_spec _ _ _ H Hx) Hb) Hy) as E. cbv beta in E.
  clear H. apply andb_true_iff in E as [E1 E2].
  split; apply N.eqb_eq; assumption.
Qed.

Lemma third_byte b c :
  b < 256 -> c < 256 ->
  N.lor (N.shiftl (N.land (N.lor (N.shiftl (N.land b 15) 2) (N.shiftr c 6)) 3) 6)
        (N.land c 63) = c.
Proof.
  intros Hb Hc.
  assert (below 256 (fun b => below 256 (fun c =>
            N.lor (N.shiftl (N.land (N.lor (N.shiftl (N.land b 15) 2)
                                       (N.shiftr c 6)) 3) 6)
                  (N.land c 63) =? c)) = true)
    as H by (vm_compute; reflexivity).
  pose proof (below_spec _ _ c (below_spec _ _ b H Hb) Hc) as E. cbv beta in E.
  clear H. apply N.eqb_eq. exact E.
Qed.

Lemma low_byte_to_N b : low_byte (Byte.to_N b) = b.
Proof.
  unfold low_byte. pose proof (Byte.to_N_bounded b).
  rewrite N.mod_small by lia. by rewrite Byte.of_to_N.
Qed.


Lemma list_ind3 {A} (P : list A -> Prop) :
  P [] -> (forall a, P [a]) -> (forall a b, P [a; b]) ->
  (forall a b c l, P l -> P (a :: b :: c :: l)) ->
  forall l, P l.
Proof.
  intros H0 H1 H2 H3. fix IH 1.
  intros [|a [|b [|c l]]];
    [exact H0 | apply H1 | apply H2 | apply H3, IH].
Qed.

(** Decoding one character of the alphabet. *)
Lemma a2b_data n r q l p :
  n < 64 ->
  a2b_base64 (String (enc_char n) r) q l p =
  if q =? 0 then a2b_base64 r 1 n 0
  else if q =? 1 then
    push (low_byte (N.lor (N.shiftl l 2) (N.shiftr n 4)))
         (a2b_base64 r 2 (N.land n 15) 0)
  else if q =? 2 then
    push (low_byte (N.lor (N.shiftl l 4) (N.shiftr n 2)))
         (a2b_base64 r 3 (N.land n 3) 0)
  else push (low_byte (N.lor (N.shiftl l 6) n)) (a2b_base64 r 0 0 0).
Proof.
  intros Hn. destruct (enc_char_plain n Hn) as (Hp & _ & _).
  cbn [a2b_base64]. rewrite Hp, (dec_enc_char n Hn). reflexivity.
Qed.

(** Decoding undoes encoding. *)
Lemma a2b_b64encode bs : a2b_base64 (b64encode bs) 0 0 0 = inr bs.
Proof.
  induction bs as [|a|a b|a b c bs IH] using list_ind3.
  - reflexivity.
  - pose proof (Byte.to_N_bounded a) as Ha.
    destruct (sextets_bounded (Byte.to_N a) 0) as (S1 & _ & _ & _ & S5 & _);
      [lia..|].
    destruct (first_byte (Byte.to_N a) 0) as [_ F]; [lia..|].
    cbn [b64encode]. rewrite !a2b_data by assumption. cbn [N.eqb].
    rewrite F, low_byte_to_N. reflexivity.
  - pose proof (Byte.to_N_bounded a) as Ha.
    pose proof (Byte.to_N_bounded b) as Hb.
    destruct (sextets_bounded (Byte.to_N a) (Byte.to_N b))
      as (S1 & S2 & _ & _ & _ & _); [lia..|].
    destruct (sextets_bounded (Byte.to_N b) 0) as (_ & _ & _ & _ & _ & S6);
      [lia..|].
    destruct (first_byte (Byte.to_N a) (Byte.to_N b)) as [F _]; [lia..|].
    destruct (second_byte (Byte.to_N a) (Byte.to_N b) 0) as [_ G]; [lia..|].
    cbn [b64encode]. rewrite !a2b_data by assumption. cbn [N.eqb].
    rewrite F, G, !low_byte_to_N. reflexivity.
  - pose proof (Byte.to_N_bounded a) as Ha.
    pose proof (Byte.to_N_bounded b) as Hb.
    pose proof (Byte.to_N_bounded c) as Hc.
    destruct (sextets_bounded (Byte.to_N a) (Byte.to_N b))
      as (S1 & S2 & _ & _ & _ & _); [lia..|].
    destruct (sextets_bounded (Byte.to_N b) (Byte.to_N c))
      as (_ & _ & S3 & _ & _ & _); [lia..|].
    destruct (sextets_bounded (Byte.to_N c) 0) as (_ & _ & _ & S4 & _ & _);
      [lia..|].
    destruct (first_byte (Byte.to_N a) (Byte.to_N b)) as [F _]; [lia..|].
    destruct (second_byte (Byte.to_N a) (Byte.to_N b) (Byte.to_N c))
      as [G _]; [lia..|].
    assert (T := third_byte (Byte.to_N b) (Byte.to_N c) ltac:(lia) ltac:(lia)).
    cbn [b64encode]. rewrite !a2b_data by assumption. cbn [N.eqb].
    rewrite F, G, T, !low_byte_to_N, IH. reflexivity.
Qed.


Definition plain (c : ascii) : bool :=
  (Py.code c <? 128) && negb (Py.isspace c).

Lemma enc_char_is_plain n : n < 64 -> plain (enc_char n) = true.
Proof.
  intros Hn. destruct (enc_char_plain n Hn) as (_ & H1 & H2).
  unfold plain. by rewrite H1, H2.
Qed.

(** An encoding consists of ASCII characters that are not white space. *)
Lemma b64encode_plain bs : Py.all plain (b64encode bs) = true.
Proof.
  induction bs as [|a|a b|a b c bs IH] using list_ind3.
  - reflexivity.
  - pose proof (Byte.to_N_bounded a) as Ha.
    destruct (sextets_bounded (Byte.to_N a) 0) as (S1 & _ & _ & _ & S5 & _);
      [lia..|].
    cbn [b64encode Py.all]. by rewrite !enc_char_is_plain.
  - pose proof (Byte.to_N_bounded a) as Ha.
    pose proof (Byte.to_N_bounded b) as Hb.
    destruct (sextets_bounded (Byte.to_N a) (Byte.to_N b))
      as (S1 & S2 & _ & _ & _ & _); [lia..|].
    destruct (sextets_bounded (Byte.to_N b) 0) as (_ & _ & _ & _ & _ & S6);
      [lia..|].
    cbn [b64encode Py.all]. by rewrite !enc_char_is_plain.
  - pose proof (Byte.to_N_bounded a) as Ha.
    pose proof (Byte.to_N_bounded b) as Hb.
    pose proof (Byte.to_N_bounded c) as Hc.
    destruct (sextets_bounded (Byte.to_N a) (Byte.to_N b))
      as (S1 & S2 & _ & _ & _ & _); [lia..|].
    destruct (sextets_bounded (Byte.to_N b) (Byte.to_N c))
      as (_ & _ & S3 & _ & _ & _); [lia..|].
    destruct (sextets_bounded (Byte.to_N c) 0) as (_ & _ & _ & S4 & _ & _);
      [lia..|].
    cbn [b64encode Py.all]. by rewrite !enc_char_is_plain, IH.
Qed.

Lemma b64encode_nonempty bs : bs <> [] -> Py.nonempty (b64encode bs) = true.
Proof. destruct bs as [|a [|b [|c bs]]]; done. Qed.

Lemma all_impl (p q : ascii -> bool) s :
  (forall c, p c = true -> q c = true) ->
  Py.all p s = true -> Py.all q s = true.
Proof.
  intros Hpq. induction s as [|c s IH]; simpl; [done|].
  intros [Hc Hs]%andb_true_iff. by rewrite (Hpq c Hc), IH.
Qed.

Lemma rstrip_plain s : Py.all plain s = true -> Py.rstrip s = s.
Proof.
  induction s as [|c s IH]; simpl; [done|].
  intros [Hc Hs]%andb_true_iff. rewrite (IH Hs).
  apply andb_true_iff in Hc as [_ Hc%negb_true_iff]. rewrite Hc.
  by destruct s.
Qed.

Lemma strip_plain s : Py.all plain s = true -> Py.strip s = s.
Proof.
  intros Hs. unfold Py.strip.
  assert (Py.lstrip s = s) as ->; [|by apply rstrip_plain].
  destruct s as [|c s]; simpl in *; [done|].
  apply andb_true_iff in Hs as [[_ Hc%negb_true_iff]%andb_true_iff _].
  by rewrite Hc.
Qed.

(** [b64decode] undoes [b64encode]. *)
Lemma b64decode_b64encode bs : b64decode (b64encode bs) = Bytes bs.
Proof.
  unfold b64decode.
  rewrite (all_impl plain _ _ (fun c H => proj1 (andb_prop _ _ H))
             (b64encode_plain bs)).
  by rewrite a2b_b64encode.
Qed.

End Base64Facts.
(** ** Values, external processes and runs *)

(** A decoded JSON document, as [json.loads] builds it: [None], [bool],
    [int], [float], [str], [list] and [dict] (its items in order, keys
    distinct). *)
Inductive json : Type :=
| JNull
| JBool (b : bool)
| JInt (n : Z)
| JFloat (x : float)
| JStr (s : string)
| JList (l : list json)
| JObj (items : list (string * json)).

(** The value a dict holds for [key]. *)
Fixpoint assoc (key : string) (items : list (string * json)) : option json :=
  match items with
  | [] => None
  | (k, v) :: rest => if String.eqb k key then Some v else assoc key rest
  end.

(** What [subprocess.run] gives back: the finished process, or one of the
    two exception families the scripts name. *)
Inductive proc_result : Type :=
| Completed (returncode : Z) (stdout stderr : string)
| SubprocessError (msg : string)
| OSError (msg : string).

(** The exceptions no handler of the scripts catches on some path. *)
Inductive exn : Type :=
| ValueError
| TypeError
| KeyError
| OverflowError
| UncaughtOSError.

Inductive event : Type :=
| Stdout (line : string)
| Stderr (line : string)
| Run (cmd : list string)
| Chmod (path : string)
| FileWrite (path text : string)
| FileWriteBytes (path : string) (data : list byte).

(** How a computation ends: with a value, by [sys.exit], or by an
    exception that reaches the top. *)
Inductive outcome (A : Type) : Type :=
| Ret (a : A)
| Exit (status : Z)
| Uncaught (e : exn).
Arguments Ret {A} a.
Arguments Exit {A} status.
Arguments Uncaught {A} e.

(** The process exit status of a finished [main]. *)
Definition exit_status {A} (o : outcome A) : Z :=
  match o with
  | Ret _ => 0
  | Exit n => n
  | Uncaught _ => 1
  end.

(** The parts of the Python library and of the machine the scripts rely
    on and this development leaves open: every theorem holds for each
    implementation of them. *)
Class runtime : Type := {
  (** the state of everything outside the process *)
  world : Type;
  (** [subprocess.run(cmd, capture_output=True, text=True)] *)
  subprocess_run : list string -> world -> proc_result * world;
  (** [time.time()] *)
  time_time : world -> float;
  (** [json.loads]; [None] stands for [JSONDecodeError] *)
  json_loads : string -> option json;
  (** the message of the [JSONDecodeError] raised on a text *)
  json_error : string -> string;
  (** [float(s)]; [None] stands for [ValueError] *)
  float_of_str : string -> option float;
  (** [repr] of a float, a list or a dict *)
  repr : json -> string;
  (** the message of the [UnicodeDecodeError] raised on ill-formed bytes *)
  unicode_error : list byte -> string;
  (** the message of the [OSError] raised when writing to a path fails *)
  os_error : string -> string;
  (** how far a failing attempt to write bytes to a path gets: [None]
      when the file cannot be opened, [Some n] when it is opened, and so
      created or emptied, and the failure comes after [n] bytes *)
  write_failure : string -> list byte -> option nat;
  (** [json.loads] rejects a text that is empty or all white space *)
  json_loads_blank :
    forall s, Py.nonempty (Py.strip s) = false -> json_loads s = None;
}.

(** [str(v)]. *)
Definition str_of `{runtime} (v : json) : string :=
  match v with
  | JStr s => s
  | JInt n => Py.str_of_int n
  | JBool true => "True"
  | JBool false => "False"
  | JNull => "None"
  | _ => repr v
  end.

(** Truth value of a decoded value. *)
Definition truthy (v : json) : bool :=
  match v with
  | JNull => false
  | JBool b => b
  | JInt n => negb (n =? 0)
  | JFloat x => negb (PrimFloat.eqb x 0)
  | JStr s => Py.nonempty s
  | JList l => match l with [] => false | _ => true end
  | JObj items => match items with [] => false | _ => true end
  end.

(** *** Float operations of the scripts *)

(** [int(x)]: truncation toward zero. *)
Inductive int_conv : Type :=
| IntOk (n : Z)
| IntValueError
| IntOverflowError.

Definition int_of_float (x : float) : int_conv :=
  match Prim2SF x with
  | S754_zero _ => IntOk 0
  | S754_infinity _ => IntOverflowError
  | S754_nan => IntValueError
  | S754_finite s m e =>
      let a := match e with
               | Z0 => Zpos m
               | Zpos p => Zpos m * 2 ^ Zpos p
               | Zneg p => Zpos m / 2 ^ Zpos p
               end in
      IntOk (if s then - a else a)
  end.

(** An [int] as a [float] operand, rounded to nearest even; [None]
    stands for [OverflowError]. *)
Definition float_of_int (n : Z) : option float :=
  match n with
  | Z0 => Some 0%float
  | Zpos p | Zneg p =>
      match binary_normalize prec emax (Zpos p) 0 (n <? 0) with
      | S754_finite _ m e => Some (SF2Prim (S754_finite (n <? 0) m e))
      | _ => None
      end
  end.

(** [x * n] for a float and an int. *)
Definition float_mul_int (x : float) (n : Z) : option float :=
  (fun y => PrimFloat.mul x y) <$> float_of_int n.

(** The literal [1.2]. *)
Definition lit_1_2 : float := 0x1.3333333333333p+0%float.

Definition round_half_even (num den : Z) : Z :=
  let q := num / den in
  let r := num mod den in
  if (den <? 2 * r) || ((den =? 2 * r) && Z.odd q) then q + 1 else q.

(** [n] written with at least [d] digits. *)
Definition zero_pad (d : nat) (n : Z) : string :=
  let s := Py.str_of_int n in
  Py.drop (String.length s) (Py.take d "00000000") +:+ s.

(** [f"{x:.df}"] for [d] from 1 to 8: the exact value rounded to [d]
    decimals, half to even. *)
Definition format_f (d : nat) (x : float) : string :=
  let scale := 10 ^ Z.of_nat d in
  match Prim2SF x with
  | S754_nan => "nan"
  | S754_infinity s => if s then "-inf" else "inf"
  | S754_zero s => (if s then "-0." else "0.") +:+ zero_pad d 0
  | S754_finite s m e =>
      let q := match e with
               | Z0 => Zpos m * scale
               | Zpos p => Zpos m * 2 ^ Zpos p * scale
               | Zneg p => round_half_even (Zpos m * scale) (2 ^ Zpos p)
               end in
      (if s then "-" else "") +:+ Py.str_of_int (q / scale) +:+ "."
        +:+ zero_pad d (q mod scale)
  end.

(** [f"{x:.4f}"] and [f"{x:.2f}"]. *)
Definition format_4f : float -> string := format_f 4.
Definition format_2f : float -> string := format_f 2.

(** What a script finds on the machine it runs on. *)
Record machine : Type := {
  (** [os.environ] *)
  environ : gmap string string;
  (** [sys.argv] *)
  argv : list string;
  (** all of [sys.stdin] *)
  stdin : string;
  (** the regular files, each with its text *)
  files : gmap string string;
  (** [os.access(path, os.X_OK)] *)
  executable : string -> bool;
  (** the name [tempfile.NamedTemporaryFile] gives the file it creates *)
  tmp_name : string;
  (** whether opening [path] for writing and writing to it succeed *)
  writable : string -> bool;
  (** whether [os.chmod(path, 0o755)] succeeds *)
  chmod_ok : string -> bool;
}.

(** [os.path.isfile]. *)
Definition isfile (mc : machine) (path : string) : bool :=
  match files mc !! path with Some _ => true | None => false end.

(** [os.environ.get(name, default)]. *)
Definition env_get (mc : machine) (name default : string) : string :=
  match environ mc !! name with Some v => v | None => default end.

(** *** Runs *)
Section Runs.
Context `{runtime}.

(** A computation of a script: from the world before to the events it
    caused, how it ended, and the world after. *)
Definition M (A : Type) : Type := world -> list event * outcome A * world.

Definition ret {A} (a : A) : M A := fun w => ([], Ret a, w).

Definition bind {A B} (m : M A) (k : A -> M B) : M B := fun w =>
  match m w with
  | (ev, Ret a, w1) =>
      match k a w1 with (ev2, o, w2) => (ev ++ ev2, o, w2) end
  | (ev, Exit n, w1) => (ev, Exit n, w1)
  | (ev, Uncaught e, w1) => (ev, Uncaught e, w1)
  end.

Definition emit (e : event) : M unit := fun w => ([e], Ret tt, w).

Definition sys_exit {A} (status : Z) : M A := fun w => ([], Exit status, w).

Definition raise {A} (e : exn) : M A := fun w => ([], Uncaught e, w).

(** One call of [subprocess.run]. *)
Definition run (cmd : list string) : M proc_result := fun w =>
  match subprocess_run cmd w with (r, w1) => ([Run cmd], Ret r, w1) end.

End Runs.

Notation "'let*' x ':=' m 'in' k" := (bind m (fun x => k))
  (at level 10, x name, m at level 100, k at level 200,
   format "'[v' 'let*'  x  ':='  m  'in' '/' k ']'").
Notation "m ';;' k" := (bind m (fun _ => k))
  (at level 100, k at level 200, right associativity, only parsing).

Section RunsBasics.
Context `{runtime}.

(** [print(line, file=sys.stderr)] and [print(line)]. *)
Definition eprint (line : string) : M unit := emit (Stderr line).
Definition print (line : string) : M unit := emit (Stdout line).

(** [error_exit] of the two scripts that have it. *)
Definition error_exit {A} (message : string) : M A :=
  eprint ("Error: " +:+ message) ;; sys_exit 1.

(** [get_env_var(name)] without a default. *)
Definition get_env_var (mc : machine) (name : string) : M string :=
  match environ mc !! name with
  | Some value => ret value
  | None => error_exit (name +:+ " is required")
  end.

End RunsBasics.

Definition stdout_of (ev : list event) : list string :=
  omap (fun e => match e with Stdout l => Some l | _ => None end) ev.

Definition stderr_of (ev : list event) : list string :=
  omap (fun e => match e with Stderr l => Some l | _ => None end) ev.

Definition runs_of (ev : list event) : list (list string) :=
  omap (fun e => match e with Run c => Some c | _ => None end) ev.

Definition writes_of (ev : list event) : list (string * string) :=
  omap (fun e => match e with FileWrite p t => Some (p, t) | _ => None end) ev.

(** ** [select_instance.py]: the Selector *)
Module Select.

(** The pattern [\.(\d+)xlarge$] at the start of [s]; the result is
    group 1.  The digits are taken greedily: a shorter run is followed by
    a digit, where the pattern wants the [x]. *)
Definition match_xlarge (s : string) : option string :=
  match s with
  | String c r =>
      if Ascii.eqb c "." then
        let '(ds, r') := Py.span Py.isdigit r in
        if Py.nonempty ds && Py.startswith "xlarge" r'
           && Py.at_dollar (Py.drop 6 r')
        then Some ds else None
      else None
  | EmptyString => None
  end.

(** [parse_cpu_from_instance_type]: the count, [None], or the
    exception that leaves the function.  [int] refuses a run of more
    than [Py.int_max_str_digits] digits with a [ValueError], which
    nothing here catches. *)
Definition parse_cpu_from_instance_type (instance_type : string)
  : exn + option Z :=
  match Py.re_search match_xlarge instance_type with
  | Some ds =>
      if (Py.int_max_str_digits <? String.length ds)%nat then inl ValueError
      else
        let multiplier := Py.digits_value ds in
        inr (Some (multiplier * 4))
  | None =>
      if Py.endswith ".xlarge" instance_type then inr (Some 4)
      else if Py.endswith ".large" instance_type then inr (Some 2)
      else if Py.endswith ".medium" instance_type then inr (Some 2)
      else inr None
  end.

(** The pattern [-([a-z])$] at the start of [s]; the result is group 1. *)
Definition match_zone_suffix (s : string) : option ascii :=
  match s with
  | String d (String c r) =>
      if Ascii.eqb d "-" && Py.islower_az c && Py.at_dollar r
      then Some c else None
  | _ => None
  end.

(** [get_vswitch_id]. *)
Definition get_vswitch_id (env : gmap string string) (zone_id : string)
  : option string :=
  match Py.re_search match_zone_suffix zone_id with
  | None => None
  | Some c =>
      let zone_suffix := String (Py.upper_az c) EmptyString in
      let vswitch_var := "ALIYUN_VSWITCH_ID_" +:+ zone_suffix in
      env !! vswitch_var
  end.


(** A filtered offer: [(instance_type, zone_id, price_per_core,
    cpu_cores)]. *)
Record candidate : Type := {
  cand_instance_type : string;
  cand_zone_id : string;
  cand_price_per_core : float;
  cand_cpu_cores : Z;
}.

(** A value that is an [int], or the empty text a field held. *)
Inductive int_or_empty : Type :=
| AnInt (n : Z)
| EmptyText.

Definition show (v : int_or_empty) : string :=
  match v with AnInt n => Py.str_of_int n | EmptyText => "" end.

(** The names under which [filter_instances] looks for each field. *)
Definition type_keys : list string :=
  ["instanceTypeId"; "instance_type"; "InstanceType"].
Definition zone_keys : list string := ["zoneId"; "zone_id"; "ZoneId"].
Definition price_keys : list string :=
  ["pricePerCore"; "price_per_core"; "PricePerCore"; "price"; "Price"].
Definition cpu_keys : list string :=
  ["cpuCoreCount"; "cpu_cores"; "CpuCores"; "cores"; "Cores"].
Definition memory_keys : list string :=
  ["memorySize"; "memory_size"; "MemorySize"; "memory"; "Memory"].

(** One query strategy: [(strat_cpu, strat_mem, exact_match, desc)]. *)
Definition strategy : Type := Z * Z * bool * string.

(** The strategy list of [main], from the architecture and the CPU
    bounds: one [append] after the other. *)
Definition query_strategies (arch : string) (min_cpu max_cpu : Z)
  : list strategy :=
  if String.eqb arch "amd64" then
    let qs := [(min_cpu, min_cpu, true, "1:1")] in
    let qs := if min_cpu <=? 32
              then qs ++ [(min_cpu, min_cpu * 2, true, "1:2")] else qs in
    let qs := if min_cpu <? 16 then qs ++ [(16, 16, true, "1:1")] else qs in
    let qs := if min_cpu <? 16 then qs ++ [(16, 32, true, "1:2")] else qs in
    qs ++ [(min_cpu, max_cpu, false, "range")]
  else
    let qs := [(min_cpu, min_cpu * 2, true, "1:2")] in
    qs ++ [(min_cpu, max_cpu, false, "range")].

(** The command line [query_spot_instances] builds. *)
Definition advisor_cmd (advisor_binary access_key_id access_key_secret
    region : string) (min_cpu max_cpu min_mem max_mem : Z) (arch : string)
    (exact_match : bool) : list string :=
  [ advisor_binary;
    "-accessKeyId=" +:+ access_key_id;
    "-accessKeySecret=" +:+ access_key_secret;
    "-region=" +:+ region;
    "-mincpu=" +:+ Py.str_of_int min_cpu;
    "-maxcpu=" +:+ Py.str_of_int (if exact_match then min_cpu else max_cpu);
    "-minmem=" +:+ Py.str_of_int min_mem;
    "-maxmem=" +:+ Py.str_of_int (if exact_match then min_mem else max_mem);
    "-limit=5";
    "--json";
    "--arch=" +:+ arch ].

(** The settings [main] has read when it starts to query. *)
Record settings : Type := {
  access_key_id : string;
  access_key_secret : string;
  region_id : string;
  arch : string;
  advisor_binary : string;
  min_cpu : Z;
  max_cpu : Z;
  min_mem : Z;
  max_mem : Z;
  arch_param : string;
}.

Section WithRuntime.
Context `{runtime}.

(** [key in obj]: membership in a dict, a substring of a text, an
    element of a list; other values are not containers. *)
Definition has_key (obj : json) (key : string) : M bool :=
  match obj with
  | JObj items => ret (match assoc key items with Some _ => true | None => false end)
  | JStr s => ret (Py.contains key s)
  | JList l =>
      ret (existsb (fun v => match v with
                             | JStr s => String.eqb s key
                             | _ => false
                             end) l)
  | _ => raise TypeError
  end.

(** [obj[key]] for a text [key]. *)
Definition getitem (obj : json) (key : string) : M json :=
  match obj with
  | JObj items =>
      match assoc key items with
      | Some v => ret v
      | None => raise KeyError
      end
  | _ => raise TypeError
  end.

(** [get_field_value]. *)
Fixpoint get_field_value (obj : json) (keys : list string)
  : M (option string) :=
  match keys with
  | [] => ret None
  | key :: rest =>
      let* present := has_key obj key in
      if present then
        let* value := getitem obj key in
        ret (match value with
             | JNull => None
             | _ => Some (str_of value)
             end)
      else get_field_value obj rest
  end.

(** [query_spot_instances]. *)
Definition query_spot_instances (advisor_binary access_key_id
    access_key_secret region : string) (min_cpu max_cpu min_mem max_mem : Z)
    (arch : string) (exact_match : bool) : M (option (list json)) :=
  let cmd := advisor_cmd advisor_binary access_key_id access_key_secret
               region min_cpu max_cpu min_mem max_mem arch exact_match in
  let* result := run cmd in
  match result with
  | Completed returncode stdout _ =>
      if negb (returncode =? 0) then ret None
      else if negb (Py.nonempty (Py.strip stdout)) then ret None
      else
        match json_loads stdout with
        | None =>
            eprint ("Warning: Query failed: " +:+ json_error stdout) ;;
            ret None
        | Some (JList (x :: data)) => ret (Some (x :: data))
        | Some _ => ret None
        end
  | SubprocessError msg =>
      eprint ("Warning: Query failed: " +:+ msg) ;; ret None
  | OSError _ => raise UncaughtOSError
  end.

(** The body of the loop of [filter_instances] for one offer: the
    candidate to append, or [None] where the source says [continue]. *)
Definition filter_step (instance : json) (min_cpu min_mem : Z) (arch : string)
  : M (option candidate) :=
  let* instance_type := get_field_value instance type_keys in
  let* zone_id := get_field_value instance zone_keys in
  let* price_per_core := get_field_value instance price_keys in
  let* cpu_cores := get_field_value instance cpu_keys in
  let* memory_size := get_field_value instance memory_keys in
  match instance_type, zone_id, price_per_core with
  | Some instance_type, Some zone_id, Some price_per_core =>
      if Py.nonempty instance_type && Py.nonempty zone_id
         && Py.nonempty price_per_core then
        (* Parse CPU cores *)
        let cpu_cores : option int_or_empty :=
          match cpu_cores with
          | Some s => if Py.nonempty s then AnInt <$> Py.int s
                      else Some EmptyText
          | None => None
          end in
        let* cpu_cores :=
          match cpu_cores with
          | Some c => ret (Some c)
          | None =>
              match parse_cpu_from_instance_type instance_type with
              | inr (Some n) => ret (Some (AnInt n))
              | inr None =>
                  eprint ("Warning: Could not determine CPU cores from instance type "
                          +:+ instance_type +:+ ", skipping") ;;
                  ret None
              | inl e => raise e
              end
          end in
        match cpu_cores with
        | None => ret None
        | Some cpu_cores =>
            (* Parse memory size *)
            let* memory_size :=
              match memory_size with
              | Some s =>
                  if Py.nonempty s then
                    match float_of_str s with
                    | Some x =>
                        match int_of_float x with
                        | IntOk n => ret (Some (AnInt n))
                        | IntValueError => ret None
                        | IntOverflowError => raise OverflowError
                        end
                    | None => ret None
                    end
                  else ret (Some EmptyText)
              | None => ret None
              end in
            let memory_size :=
              match memory_size with
              | Some m => m
              | None =>
                  if String.eqb arch "amd64" then cpu_cores
                  else if String.eqb arch "arm64" then
                    match cpu_cores with
                    | AnInt n => AnInt (n * 2)
                    | EmptyText => EmptyText
                    end
                  else cpu_cores
              end in
            (* Filter: keep only instances meeting minimum requirements *)
            let skip :=
              eprint ("Info: Skipping instance " +:+ instance_type +:+ " ("
                      +:+ show cpu_cores +:+ "c" +:+ show memory_size
                      +:+ "g) - below minimum requirements ("
                      +:+ Py.str_of_int min_cpu +:+ "c"
                      +:+ Py.str_of_int min_mem +:+ "g)") ;;
              ret None in
            match cpu_cores with
            | EmptyText => raise TypeError
            | AnInt cpu =>
                if cpu <? min_cpu then skip
                else
                  match memory_size with
                  | EmptyText => raise TypeError
                  | AnInt mem =>
                      if mem <? min_mem then skip
                      else
                        (* Parse price *)
                        match float_of_str price_per_core with
                        | None => ret None
                        | Some price =>
                            ret (Some {| cand_instance_type := instance_type;
                                         cand_zone_id := zone_id;
                                         cand_price_per_core := price;
                                         cand_cpu_cores := cpu |})
                        end
                  end
            end
        end
      else ret None
  | _, _, _ => ret None
  end.

(** The loop of [filter_instances] over the offers still to visit. *)
Fixpoint filter_loop (instances : list json) (min_cpu min_mem : Z)
    (arch : string) (max_candidates : Z) (candidates : list candidate)
  : M (list candidate) :=
  match instances with
  | [] => ret candidates
  | instance :: rest =>
      let* kept := filter_step instance min_cpu min_mem arch in
      match kept with
      | None => filter_loop rest min_cpu min_mem arch max_candidates candidates
      | Some c =>
          let candidates := candidates ++ [c] in
          if max_candidates <=? Z.of_nat (length candidates) then ret candidates
          else filter_loop rest min_cpu min_mem arch max_candidates candidates
      end
  end.

(** [filter_instances]. *)
Definition filter_instances (instances : list json) (min_cpu min_mem : Z)
    (arch : string) (max_candidates : Z) : M (list candidate) :=
  filter_loop instances min_cpu min_mem arch max_candidates [].

(** The loop of [main] over the strategies still to try;
    [query_attempt] counts the strategies tried before. *)
Fixpoint strategy_loop (st : settings) (strategies : list strategy)
    (query_attempt : Z) : M (option (list json)) :=
  match strategies with
  | [] => ret None
  | (strat_cpu, strat_mem, exact_match, desc) :: rest =>
      let query_attempt := query_attempt + 1 in
      (if exact_match then
         eprint ("Attempt " +:+ Py.str_of_int query_attempt
                 +:+ ": Exact match (" +:+ Py.str_of_int strat_cpu +:+ "c"
                 +:+ Py.str_of_int strat_mem +:+ "g, " +:+ desc +:+ ")")
       else
         eprint ("Attempt " +:+ Py.str_of_int query_attempt
                 +:+ ": Range query (" +:+ Py.str_of_int strat_cpu +:+ "-"
                 +:+ Py.str_of_int (max_cpu st) +:+ "c, "
                 +:+ Py.str_of_int (min_mem st) +:+ "-"
                 +:+ Py.str_of_int (max_mem st) +:+ "g)")) ;;
      let* instances :=
        query_spot_instances (advisor_binary st) (access_key_id st)
          (access_key_secret st) (region_id st)
          strat_cpu
          (if exact_match then strat_cpu else max_cpu st)
          (if exact_match then strat_mem else min_mem st)
          (if exact_match then strat_mem else max_mem st)
          (arch_param st) exact_match in
      match instances with
      | Some (x :: data) =>
          eprint ("Success: Found results with strategy "
                  +:+ Py.str_of_int query_attempt +:+ " ("
                  +:+ Py.str_of_int strat_cpu +:+ "c"
                  +:+ Py.str_of_int strat_mem +:+ "g)") ;;
          ret (Some (x :: data))
      | _ => strategy_loop st rest query_attempt
      end
  end.

(** The first candidate whose zone has a VSwitch configured, with that
    VSwitch. *)
Fixpoint select_primary (mc : machine) (candidates : list candidate)
  : option (candidate * string) :=
  match candidates with
  | [] => None
  | c :: rest =>
      match get_vswitch_id (environ mc) (cand_zone_id c) with
      | Some vswitch_id =>
          if Py.nonempty vswitch_id then Some (c, vswitch_id)
          else select_primary mc rest
      | None => select_primary mc rest
      end
  end.

(** [price_per_core * cpu_cores * 1.2]; an [int] too large for a float
    raises. *)
Definition price_limit (price_per_core : float) (cpu_cores : Z) : M float :=
  match float_mul_int price_per_core cpu_cores with
  | Some total_price => ret (PrimFloat.mul total_price lit_1_2)
  | None => raise OverflowError
  end.

(** The line written for one candidate. *)
Definition candidate_line (c : candidate) (vswitch_id : string)
    (spot_price_limit : float) : string :=
  cand_instance_type c +:+ "|" +:+ cand_zone_id c +:+ "|" +:+ vswitch_id
  +:+ "|" +:+ format_4f spot_price_limit +:+ "|"
  +:+ Py.str_of_int (cand_cpu_cores c) +:+ Py.lf.

(** The loop of [main] that writes the candidates file. *)
Fixpoint write_candidates (mc : machine) (path : string)
    (candidates : list candidate) : M unit :=
  match candidates with
  | [] => ret tt
  | c :: rest =>
      match get_vswitch_id (environ mc) (cand_zone_id c) with
      | Some vswitch_id =>
          if Py.nonempty vswitch_id then
            let* limit := price_limit (cand_price_per_core c) (cand_cpu_cores c) in
            emit (FileWrite path (candidate_line c vswitch_id limit)) ;;
            write_candidates mc path rest
          else write_candidates mc path rest
      | None => write_candidates mc path rest
      end
  end.

(** [int(s) if s else default]. *)
Definition int_or (s : string) (default : Z) : M Z :=
  if Py.nonempty s then
    match Py.int s with
    | Some n => ret n
    | None => raise ValueError
    end
  else ret default.

Definition now : M float := fun w => ([], Ret (time_time w), w).

(** [main], up to the point where the queries start: the settings. *)
Definition read_settings (mc : machine) : M settings :=
  let* access_key_id := get_env_var mc "ALIYUN_ACCESS_KEY_ID" in
  let* access_key_secret := get_env_var mc "ALIYUN_ACCESS_KEY_SECRET" in
  let* region_id := get_env_var mc "ALIYUN_REGION_ID" in
  let arch := env_get mc "ARCH" "amd64" in
  let advisor_binary := env_get mc "SPOT_ADVISOR_BINARY" "./spot-instance-advisor" in
  (if String.eqb arch "amd64" || String.eqb arch "arm64" then ret tt
   else error_exit ("ARCH must be either 'amd64' or 'arm64', got: " +:+ arch)) ;;
  (if isfile mc advisor_binary then ret tt
   else error_exit ("spot-instance-advisor binary not found: " +:+ advisor_binary)) ;;
  (if executable mc advisor_binary then ret tt
   else if chmod_ok mc advisor_binary then emit (Chmod advisor_binary)
   else raise UncaughtOSError) ;;
  let min_cpu_str := Py.strip (env_get mc "MIN_CPU" "") in
  let* min_cpu := int_or min_cpu_str 8 in
  let max_cpu_str := Py.strip (env_get mc "MAX_CPU" "") in
  let* max_cpu := int_or max_cpu_str 64 in
  let min_mem_str := Py.strip (env_get mc "MIN_MEM" "") in
  let max_mem_str := Py.strip (env_get mc "MAX_MEM" "") in
  let amd := String.eqb arch "amd64" in
  let* min_mem := int_or min_mem_str (if amd then min_cpu else min_cpu * 2) in
  let* max_mem := int_or max_mem_str (if amd then 64 else 128) in
  let arch_param := if amd then "x86_64" else "arm64" in
  eprint ("Info: Querying for " +:+ (if amd then "AMD64" else "ARM64")
          +:+ " instances (CPU:RAM = " +:+ (if amd then "1:1" else "1:2")
          +:+ ", " +:+ Py.str_of_int min_cpu +:+ "c" +:+ Py.str_of_int min_mem
          +:+ "g to " +:+ Py.str_of_int max_cpu +:+ "c"
          +:+ Py.str_of_int max_mem +:+ "g)") ;;
  (if max_cpu <? min_cpu then
     error_exit ("MIN_CPU (" +:+ Py.str_of_int min_cpu
                 +:+ ") must be less than or equal to MAX_CPU ("
                 +:+ Py.str_of_int max_cpu +:+ ")")
   else ret tt) ;;
  (if max_mem <? min_mem then
     error_exit ("MIN_MEM (" +:+ Py.str_of_int min_mem
                 +:+ ") must be less than or equal to MAX_MEM ("
                 +:+ Py.str_of_int max_mem +:+ ")")
   else ret tt) ;;
  eprint ("Querying spot instances for architecture: " +:+ arch) ;;
  eprint ("Region: " +:+ region_id) ;;
  eprint ("Starting with minimum requirements: " +:+ Py.str_of_int min_cpu
          +:+ "c" +:+ Py.str_of_int min_mem +:+ "g") ;;
  ret {| access_key_id := access_key_id;
         access_key_secret := access_key_secret;
         region_id := region_id;
         arch := arch;
         advisor_binary := advisor_binary;
         min_cpu := min_cpu;
         max_cpu := max_cpu;
         min_mem := min_mem;
         max_mem := max_mem;
         arch_param := arch_param |}.

(** [main], from the filtering of the advisor's offers on. *)
Definition report (mc : machine) (st : settings) (json_result : list json)
  : M unit :=
  let* candidates :=
    filter_instances json_result (min_cpu st) (min_mem st) (arch st) 5 in
  (match candidates with
   | [] =>
       error_exit ("No instances found matching minimum requirements ("
                   +:+ Py.str_of_int (min_cpu st) +:+ "c"
                   +:+ Py.str_of_int (min_mem st) +:+ "g)")
   | _ => ret tt
   end) ;;
  match select_primary mc candidates with
  | Some (c, vswitch_id) =>
      if Py.nonempty (cand_instance_type c) then
        let instance_type := cand_instance_type c in
        let zone_id := cand_zone_id c in
        let price_per_core := cand_price_per_core c in
        let cpu_cores := cand_cpu_cores c in
        let* total_price :=
          match float_mul_int price_per_core cpu_cores with
          | Some t => ret t
          | None => raise OverflowError
          end in
        let spot_price_limit := PrimFloat.mul total_price lit_1_2 in
        let path := tmp_name mc in
        (if writable mc path then ret tt else raise UncaughtOSError) ;;
        write_candidates mc path candidates ;;
        print ("INSTANCE_TYPE=" +:+ instance_type) ;;
        print ("ZONE_ID=" +:+ zone_id) ;;
        print ("VSWITCH_ID=" +:+ vswitch_id) ;;
        print ("SPOT_PRICE_LIMIT=" +:+ format_4f spot_price_limit) ;;
        print ("CPU_CORES=" +:+ Py.str_of_int cpu_cores) ;;
        print ("CANDIDATES_FILE=" +:+ path) ;;
        eprint "Selected instance (primary):" ;;
        eprint ("  Type: " +:+ instance_type) ;;
        eprint ("  Zone: " +:+ zone_id) ;;
        eprint ("  VSwitch: " +:+ vswitch_id) ;;
        eprint ("  CPU Cores: " +:+ Py.str_of_int cpu_cores) ;;
        eprint ("  Price per core: " +:+ repr (JFloat price_per_core)) ;;
        eprint ("  Total price: " +:+ format_4f total_price) ;;
        eprint ("  Spot price limit: " +:+ format_4f spot_price_limit) ;;
        eprint ("  Candidates available: "
                +:+ Py.str_of_int (Z.of_nat (length candidates)))
      else
        error_exit ("No instances found with VSwitch ID configured. "
                    +:+ "Please ensure VSwitch IDs are configured for at least one zone.")
  | None =>
      error_exit ("No instances found with VSwitch ID configured. "
                  +:+ "Please ensure VSwitch IDs are configured for at least one zone.")
  end.

(** [main]. *)
Definition main (mc : machine) : M unit :=
  let* st := read_settings mc in
  let* query_start_time := now in
  let strategies := query_strategies (arch st) (min_cpu st) (max_cpu st) in
  let* json_result := strategy_loop st strategies 0 in
  match json_result with
  | Some (x :: data) =>
      let* query_end_time := now in
      let query_duration := PrimFloat.sub query_end_time query_start_time in
      eprint ("Query completed in " +:+ format_2f query_duration +:+ " seconds") ;;
      report mc st (x :: data)
  | _ =>
      error_exit "All query strategies failed. No spot instances found matching the criteria."
  end.

End WithRuntime.

End Select.

(** ** Facts about the Selector's pure functions *)
Module SelectFacts.
Import Py PyFacts Select.

Lemma at_dollar_spec r : at_dollar r = true <-> r = "" \/ r = lf.
Proof.
  destruct r as [|c [|d r]]; simpl.
  - split; auto.
  - rewrite Ascii.eqb_eq. unfold lf. split.
    + intros ->. by right.
    + intros [? | [= ->]]; done.
  - split; [done | by intros [|]].
Qed.





Lemma span_app p a b :
  all p a = true ->
  match b with String c _ => p c = false | EmptyString => True end ->
  span p (a +:+ b) = (a, b).
Proof.
  induction a as [|c a IH]; simpl; intros Ha Hb.
  - destruct b as [|c b]; simpl; [done|]. by rewrite Hb.
  - apply andb_true_iff in Ha as [-> Ha]. by rewrite (IH Ha Hb).
Qed.

Lemma startswith_spec p s :
  startswith p s = true <-> exists r, s = p +:+ r.
Proof.
  revert s. induction p as [|a p IH]; intros s; simpl.
  - split; [by exists s | done].
  - destruct s as [|b s].
    + split; [done | by intros [r E]].
    + rewrite andb_true_iff, Ascii.eqb_eq, IH. split.
      * intros [-> [r ->]]. by exists r.
      * intros [r [= -> ->]]. split; [done | by exists r].
Qed.

Lemma drop_app p r : drop (String.length p) (p +:+ r) = r.
Proof. induction p as [|a p IH]; simpl; [by destruct r | done]. Qed.
















(** *** The zone suffix *)

Lemma match_zone_suffix_inv t c :
  match_zone_suffix t = Some c ->
  islower_az c = true /\
  (t = String "-" (String c "") \/ t = String "-" (String c lf)).
Proof.
  unfold match_zone_suffix. destruct t as [|d [|c' r]]; [done..|].
  destruct (_ && _) eqn:C; [|done]. intros [= <-].
  apply andb_true_iff in C as [[->%Ascii.eqb_eq Hc]%andb_true_iff Hd].
  split; [done|]. apply at_dollar_spec in Hd as [-> | ->]; auto.
Qed.

Lemma lower_not_lf c : islower_az c = true -> c <> LF.
Proof. by intros Hc ->. Qed.

Lemma search_zone_suffix p c :
  islower_az c = true ->
  re_search match_zone_suffix (p +:+ String "-" (String c "")) = Some c.
Proof.
  intros Hc. apply re_search_app.
  { unfold match_zone_suffix. by rewrite Ascii.eqb_refl, Hc. }
  intros q d u _. destruct (match_zone_suffix _) as [c1|] eqn:E; [|done].
  exfalso. apply match_zone_suffix_inv in E as (Hc1 & [E | E]).
  - destruct u as [|? [|? u]]; simpl in E; discriminate E.
  - unfold lf in E.
    destruct u as [|? [|? [|? u]]]; simpl in E; try discriminate E.
    simplify_eq.
Qed.

Lemma search_zone_suffix_inv s c :
  re_search match_zone_suffix s = Some c ->
  islower_az c = true /\
  exists p, s = p +:+ String "-" (String c "")
            \/ s = p +:+ String "-" (String c lf).
Proof.
  intros (p & t & -> & (Hc & Ht)%match_zone_suffix_inv)%re_search_some.
  split; [done|]. exists p. by destruct Ht as [-> | ->]; [left|right].
Qed.

Lemma get_vswitch_id_suffix env p c :
  islower_az c = true ->
  get_vswitch_id env (p +:+ String "-" (String c ""))
  = env !! ("ALIYUN_VSWITCH_ID_" +:+ String (upper_az c) "").
Proof. intros Hc. unfold get_vswitch_id. by rewrite search_zone_suffix. Qed.

Lemma get_vswitch_id_other env s :
  endswith lf s = false ->
  (forall p c, islower_az c = true -> s <> p +:+ String "-" (String c "")) ->
  get_vswitch_id env s = None.
Proof.
  intros Hlf Hs. unfold get_vswitch_id.
  destruct (re_search _ _) as [c|] eqn:E; [|done]. exfalso.
  apply search_zone_suffix_inv in E as (Hc & p & [E | E]).
  - by apply (Hs p c).
  - apply (proj1 (endswith_false _ _) Hlf (p +:+ String "-" (String c ""))).
    rewrite E, append_assoc. reflexivity.
Qed.

End SelectFacts.

(** ** [create_spot_instance.py]: the Provisioner *)
Module Create.

(** The pattern [-([a-z])$] at the start of [s]; the result is group 1. *)
Definition match_zone_suffix (s : string) : option ascii :=
  match s with
  | String d (String c r) =>
      if Ascii.eqb d "-" && Py.islower_az c && Py.at_dollar r
      then Some c else None
  | _ => None
  end.

(** [get_vswitch_id]. *)
Definition get_vswitch_id (env : gmap string string) (zone_id : string)
  : option string :=
  match Py.re_search match_zone_suffix zone_id with
  | None => None
  | Some c =>
      let zone_suffix := String (Py.upper_az c) EmptyString in
      let vswitch_var := "ALIYUN_VSWITCH_ID_" +:+ zone_suffix in
      env !! vswitch_var
  end.

(** The carriage return. *)
Definition CR : ascii := "013".

(** Reading text with universal newlines: [\r\n] and [\r] become [\n]. *)
Fixpoint universal_newlines (s : string) : string :=
  match s with
  | EmptyString => EmptyString
  | String c r =>
      if Ascii.eqb c CR then
        String Py.LF
          match r with
          | String d r' =>
              if Ascii.eqb d Py.LF then universal_newlines r'
              else universal_newlines r
          | EmptyString => EmptyString
          end
      else String c (universal_newlines r)
  end.

(** The lines of a text, each with its line feed (the last one may lack
    it): what iterating over the file yields. *)
Fixpoint split_lines (s : string) : list string :=
  match s with
  | EmptyString => []
  | String c r =>
      if Ascii.eqb c Py.LF then Py.lf :: split_lines r
      else match split_lines r with
           | l :: ls => String c l :: ls
           | [] => [String c EmptyString]
           end
  end.

(** One record of the candidates file:
    [(instance_type, zone_id, vswitch_id, spot_price_limit, cpu_cores)]. *)
Record entry : Type := {
  e_instance_type : string;
  e_zone_id : string;
  e_vswitch_id : string;
  e_spot_price_limit : string;
  e_cpu_cores : option Z;
}.

(** Truth value of an optional text: present and non-empty. *)
Definition given (o : option string) : bool :=
  match o with Some s => Py.nonempty s | None => false end.

(** The command line [create_instance] builds. *)
Definition run_instances_cmd (region_id image_id instance_type
    security_group_id vswitch_id instance_name : string)
    (key_pair_name ram_role_name : option string) (spot_strategy : string)
    (spot_price_limit user_data_b64 : option string)
    (system_disk_category : string) : list string :=
  [ "aliyun"; "ecs"; "RunInstances";
    "--RegionId"; region_id;
    "--ImageId"; image_id;
    "--InstanceType"; instance_type;
    "--SecurityGroupId"; security_group_id;
    "--VSwitchId"; vswitch_id;
    "--InstanceName"; instance_name;
    "--InstanceChargeType"; "PostPaid";
    "--SystemDisk.Category"; system_disk_category;
    "--SecurityEnhancementStrategy"; "Deactive";
    "--Tag.1.Key"; "GITHUB_RUNNER_TYPE";
    "--Tag.1.Value"; "aliyun-ecs-spot" ]
  ++ match key_pair_name with
     | Some k => if Py.nonempty k then ["--KeyPairName"; k] else []
     | None => []
     end
  ++ match ram_role_name with
     | Some r => if Py.nonempty r then ["--RamRoleName"; r] else []
     | None => []
     end
  ++ match spot_price_limit with
     | Some l =>
         if String.eqb spot_strategy "SpotWithPriceLimit" && Py.nonempty l
         then ["--SpotStrategy"; "SpotWithPriceLimit"; "--SpotPriceLimit"; l]
         else ["--SpotStrategy"; "SpotAsPriceGo"]
     | None => ["--SpotStrategy"; "SpotAsPriceGo"]
     end
  ++ match user_data_b64 with
     | Some u => if Py.nonempty u then ["--UserData"; u] else []
     | None => []
     end.

(** The double quote. *)
Definition quote : ascii := "034".

(** The text ["InstanceId"], quotes included. *)
Definition instance_id_key : string :=
  String quote ("InstanceId" +:+ String quote EmptyString).

(** The pattern ["InstanceId"\s*:\s*"([^"]+)"] at the start of [s]; the
    result is group 1.  Each [\s*] takes all the white space there is (the
    character wanted next is not white space), and [[^"]+] runs up to the
    next quote, which has to be there. *)
Definition match_instance_id (s : string) : option string :=
  if Py.startswith instance_id_key s then
    match Py.lstrip (Py.drop 12 s) with
    | String c r =>
        if Ascii.eqb c ":" then
          match Py.lstrip r with
          | String q r =>
              if Ascii.eqb q quote then
                let '(g, r) := Py.span (fun c => negb (Ascii.eqb c quote)) r in
                match r with
                | String _ _ => if Py.nonempty g then Some g else None
                | EmptyString => None
                end
              else None
          | EmptyString => None
          end
        else None
    | EmptyString => None
    end
  else None.

(** The disk categories, in the order they are tried. *)
Definition disk_categories : list string :=
  ["cloud_essd"; "cloud_ssd"; "cloud_efficiency"].

(** What [main] has read and resolved when it reaches the retry loops
    (the environment variables, the image, the user data). *)
Record params : Type := {
  region_id : string;
  image_id : string;
  security_group_id : string;
  instance_name : string;
  vswitch_id : option string;
  key_pair_name : option string;
  ram_role_name : option string;
  instance_type : option string;
  spot_price_limit : option string;
  candidates_file : option string;
  user_data_content : option string;
}.

(** [encode_user_data]: base64 of the UTF-8 encoding. *)
Definition encode_user_data (user_data : string) : string :=
  Base64.b64encode (Base64.utf8_encode user_data).

(** The [user_data_b64] of both modes. *)
Definition user_data_b64_of (p : params) : option string :=
  match user_data_content p with
  | Some content =>
      if Py.nonempty content then Some (encode_user_data content) else None
  | None => None
  end.

(** The Spot strategy for a price limit: by the limit when there is
    one. *)
Definition spot_strategy_of (limit : option string) : string :=
  if given limit then "SpotWithPriceLimit" else "SpotAsPriceGo".

(** The creation call of multi-attempt mode for a candidate and a disk
    category. *)
Definition candidate_cmd (p : params) (cand : entry) (disk_category : string)
  : list string :=
  run_instances_cmd (region_id p) (image_id p) (e_instance_type cand)
    (security_group_id p) (e_vswitch_id cand) (instance_name p)
    (key_pair_name p) (ram_role_name p)
    (spot_strategy_of (Some (e_spot_price_limit cand)))
    (Some (e_spot_price_limit cand)) (user_data_b64_of p) disk_category.

(** The creation call of single-attempt mode for a disk category. *)
Definition single_cmd (p : params) (instance_type vswitch_id : string)
    (disk_category : string) : list string :=
  run_instances_cmd (region_id p) (image_id p) instance_type
    (security_group_id p) vswitch_id (instance_name p)
    (key_pair_name p) (ram_role_name p)
    (spot_strategy_of (spot_price_limit p))
    (spot_price_limit p) (user_data_b64_of p) disk_category.

(** What [create_instance] returns for the outcome of the call. *)
Definition response_of (r : proc_result) : Z * string :=
  match r with
  | Completed returncode stdout stderr => (returncode, stdout +:+ stderr)
  | SubprocessError msg => (1, msg)
  | OSError msg => (1, msg)
  end.

(** [instance_id and instance_id != "null"]. *)
Definition usable (instance_id : json) : bool :=
  truthy instance_id
  && negb match instance_id with
          | JStr s => String.eqb s "null"
          | _ => false
          end.

(** ["InvalidSystemDiskCategory" in response or
    "not support" in response.lower()]. *)
Definition unsupported (response : string) : bool :=
  Py.contains "InvalidSystemDiskCategory" response
  || Py.contains "not support" (Py.lower response).

Section WithRuntime.
Context `{runtime}.

(** The loop of [parse_candidates_file] over the lines still to read. *)
Fixpoint parse_lines (lines : list string) (candidates : list entry)
  : M (list entry) :=
  match lines with
  | [] => ret candidates
  | line :: rest =>
      let line := Py.strip line in
      if negb (Py.nonempty line) then parse_lines rest candidates
      else
        match Py.split "|" line with
        | instance_type :: zone_id :: vswitch_id :: spot_price_limit :: more =>
            let* cpu_cores :=
              match more with
              | field :: _ =>
                  if Py.nonempty field then
                    match Py.int field with
                    | Some n => ret (Some n)
                    | None => raise ValueError
                    end
                  else ret None
              | [] => ret None
              end in
            parse_lines rest
              (candidates ++ [{| e_instance_type := instance_type;
                                 e_zone_id := zone_id;
                                 e_vswitch_id := vswitch_id;
                                 e_spot_price_limit := spot_price_limit;
                                 e_cpu_cores := cpu_cores |}])
        | _ => parse_lines rest candidates
        end
  end.

(** [parse_candidates_file]. *)
Definition parse_candidates_file (mc : machine) (candidates_file : string)
  : M (list entry) :=
  match files mc !! candidates_file with
  | None => ret []
  | Some text => parse_lines (split_lines (universal_newlines text)) []
  end.

(** [create_instance], called with a disk category as [main] always
    does (the detection of a category for a call without one is not
    reached from [main] and is not embedded). *)
Definition create_instance (region_id image_id instance_type
    security_group_id vswitch_id instance_name : string)
    (key_pair_name ram_role_name : option string) (spot_strategy : string)
    (spot_price_limit user_data_b64 : option string)
    (system_disk_category : string) : M (Z * string) :=
  let cmd := run_instances_cmd region_id image_id instance_type
               security_group_id vswitch_id instance_name key_pair_name
               ram_role_name spot_strategy spot_price_limit user_data_b64
               system_disk_category in
  let* result := run cmd in
  ret (response_of result).

(** [extract_instance_id]; [JNull] is Python's [None]. *)
Definition extract_instance_id (response : string) : json :=
  let fallback :=
    match Py.re_search match_instance_id response with
    | Some g => JStr g
    | None => JNull
    end in
  match json_loads response with
  | Some (JObj data) =>
      match default (JObj []) (assoc "InstanceIdSets" data) with
      | JObj instance_id_sets =>
          match default (JList []) (assoc "InstanceIdSet" instance_id_sets) with
          | JList (first :: _) => first
          | _ => fallback
          end
      | _ => fallback
      end
  | _ => fallback
  end.

(** The disk-category loop of multi-attempt mode for one candidate, over
    the categories still to try.  [response] is the response of the last
    call.  The result is the last response once the loop is left without
    an instance; a created instance ends the run inside the loop. *)
Fixpoint disk_loop_multi (p : params) (attempt : Z) (cand : entry)
    (user_data_b64 : option string) (spot_strategy : string)
    (categories : list string) (response : string) : M string :=
  match categories with
  | [] => ret response
  | disk_category :: rest =>
      eprint ("Attempting to create instance with disk category: "
              +:+ disk_category) ;;
      let* result :=
        create_instance (region_id p) (image_id p) (e_instance_type cand)
          (security_group_id p) (e_vswitch_id cand) (instance_name p)
          (key_pair_name p) (ram_role_name p) spot_strategy
          (Some (e_spot_price_limit cand)) user_data_b64 disk_category in
      let '(exit_code, response) := result in
      (* Check if successful *)
      if (exit_code =? 0) && Py.nonempty response then
        let instance_id := extract_instance_id response in
        if usable instance_id then
          eprint ("Spot instance created successfully on attempt "
                  +:+ Py.str_of_int attempt +:+ " with disk category: "
                  +:+ disk_category) ;;
          eprint ("Instance Type: " +:+ e_instance_type cand) ;;
          eprint ("Zone: " +:+ e_zone_id cand) ;;
          eprint ("VSwitch: " +:+ e_vswitch_id cand) ;;
          print (str_of instance_id) ;;
          sys_exit 0
        else
          (* Try next disk category *)
          eprint "Failed to extract instance ID, trying next disk category..." ;;
          disk_loop_multi p attempt cand user_data_b64 spot_strategy rest response
      else
        (* Check error message, if disk category not supported, try next *)
        if unsupported response then
          eprint ("Disk category " +:+ disk_category
                  +:+ " not supported, trying next...") ;;
          disk_loop_multi p attempt cand user_data_b64 spot_strategy rest response
        else
          (* Other errors, don't continue trying *)
          ret response
  end.

(** The loop of multi-attempt mode over the candidates still to try;
    [attempt] numbers the first of them. *)
Fixpoint candidate_loop (p : params) (candidate_count : Z) (attempt : Z)
    (candidates : list entry) : M unit :=
  match candidates with
  | [] => ret tt
  | cand :: rest =>
      if negb (Py.nonempty (e_vswitch_id cand)) then
        eprint ("Warning: VSwitch ID is empty for candidate "
                +:+ Py.str_of_int attempt +:+ ", skipping") ;;
        candidate_loop p candidate_count (attempt + 1) rest
      else
        eprint ("Attempt " +:+ Py.str_of_int attempt +:+ "/"
                +:+ Py.str_of_int candidate_count
                +:+ ": Trying instance type " +:+ e_instance_type cand
                +:+ " in zone " +:+ e_zone_id cand) ;;
        (* Encode User Data *)
        let user_data_b64 := user_data_b64_of p in
        (* Determine Spot strategy *)
        let spot_strategy :=
          spot_strategy_of (Some (e_spot_price_limit cand)) in
        (* Create instance (supports disk category fallback) *)
        let* response :=
          disk_loop_multi p attempt cand user_data_b64 spot_strategy
            disk_categories "" in
        (* If all disk categories failed, log error and continue *)
        eprint ("Attempt " +:+ Py.str_of_int attempt
                +:+ " failed: All disk categories failed") ;;
        (if Py.nonempty response then
           eprint ("Response: " +:+ Py.take 500 response +:+ "...")
         else ret tt) ;;
        candidate_loop p candidate_count (attempt + 1) rest
  end.

(** Multi-attempt mode. *)
Definition multi_attempt (mc : machine) (p : params) (path : string)
  : M unit :=
  let* candidates := parse_candidates_file mc path in
  let candidate_count := Z.of_nat (length candidates) in
  eprint ("Found " +:+ Py.str_of_int candidate_count
          +:+ " candidate instances for retry") ;;
  candidate_loop p candidate_count 1 candidates ;;
  (* All candidate results failed *)
  error_exit ("Failed to create Spot instance after "
              +:+ Py.str_of_int candidate_count +:+ " attempts").

(** [str] of an optional text, for an f-string. *)
Definition show_opt (o : option string) : string :=
  match o with Some s => s | None => "None" end.

(** The disk-category loop of single-attempt mode over the categories
    still to try; the result is [last_error]. *)
Fixpoint disk_loop_single (p : params) (instance_type vswitch_id : string)
    (user_data_b64 : option string) (spot_strategy : string)
    (categories : list string) (last_error : option string)
  : M (option string) :=
  match categories with
  | [] => ret last_error
  | disk_category :: rest =>
      eprint ("Attempting to create instance with disk category: "
              +:+ disk_category) ;;
      let* result :=
        create_instance (region_id p) (image_id p) instance_type
          (security_group_id p) vswitch_id (instance_name p)
          (key_pair_name p) (ram_role_name p) spot_strategy
          (spot_price_limit p) user_data_b64 disk_category in
      let '(exit_code, response) := result in
      (* Check if successful *)
      if (exit_code =? 0) && Py.nonempty response then
        let instance_id := extract_instance_id response in
        if usable instance_id then
          eprint ("Instance created successfully with disk category: "
                  +:+ disk_category) ;;
          print (str_of instance_id) ;;
          sys_exit 0
        else
          (* Try next disk category *)
          eprint "Failed to extract instance ID, trying next disk category..." ;;
          disk_loop_single p instance_type vswitch_id user_data_b64
            spot_strategy rest (Some response)
      else
        (* Check error message, if disk category not supported, try next *)
        if unsupported response then
          eprint ("Disk category " +:+ disk_category
                  +:+ " not supported, trying next...") ;;
          disk_loop_single p instance_type vswitch_id user_data_b64
            spot_strategy rest (Some response)
        else
          (* Other errors, don't continue trying *)
          ret (Some response)
  end.

(** Single-attempt mode. *)
Definition single_attempt (p : params) : M unit :=
  match instance_type p with
  | Some instance_type =>
      if Py.nonempty instance_type then
        match vswitch_id p with
        | Some vswitch_id =>
            if Py.nonempty vswitch_id then
              (* Encode User Data *)
              let user_data_b64 := user_data_b64_of p in
              (* Determine Spot strategy *)
              let spot_strategy := spot_strategy_of (spot_price_limit p) in
              let cmd_display :=
                "aliyun ecs RunInstances --RegionId " +:+ region_id p
                +:+ " --ImageId " +:+ image_id p +:+ " --InstanceType "
                +:+ instance_type +:+ " ..."
                +:+ (if given user_data_b64
                     then " --UserData <base64-encoded-data>" else "") in
              eprint ("Executing command: " +:+ cmd_display) ;;
              eprint "About to execute Aliyun CLI command..." ;;
              (* Create instance (supports disk category fallback) *)
              let* last_error :=
                disk_loop_single p instance_type vswitch_id user_data_b64
                  spot_strategy disk_categories None in
              (* All disk categories failed *)
              error_exit ("Failed to create Spot instance with all disk categories. Last error: "
                          +:+ show_opt last_error)
            else error_exit "ALIYUN_VSWITCH_ID is required"
        | None => error_exit "ALIYUN_VSWITCH_ID is required"
        end
      else error_exit "INSTANCE_TYPE is required"
  | None => error_exit "INSTANCE_TYPE is required"
  end.

(** The retry mechanism of [main]: multi-attempt mode when the
    candidates file is named and exists, single-attempt mode otherwise. *)
Definition provision (mc : machine) (p : params) : M unit :=
  match candidates_file p with
  | Some path =>
      if Py.nonempty path && isfile mc path then multi_attempt mc p path
      else single_attempt p
  | None => single_attempt p
  end.

End WithRuntime.

End Create.

(** ** [write_user_data.py]: the UserData writer *)
Module WriteUserData.

(** The message of a failed decoding, as the handler prints it. *)
Definition decode_error_text (e : Base64.b64_error) : string :=
  match e with
  | Base64.IncorrectPadding => "Incorrect padding"
  | Base64.BadLength produced =>
      "Invalid base64-encoded string: number of data characters ("
      +:+ Py.str_of_int (Z.of_nat produced / 3 * 4 + 1)
      +:+ ") cannot be 1 more than a multiple of 4"
  end.

Section WithRuntime.
Context `{runtime}.

(** [main].  The decoded text is held as the bytes of its UTF-8
    encoding, which are the bytes [open(output_file, "w",
    encoding="utf-8")] stores (on a system whose line separator is the
    line feed).  Opening the file creates or empties it before anything
    is written, so a write that fails after the file was opened leaves
    an initial part of the bytes there. *)
Definition main (mc : machine) : M unit :=
  match argv mc with
  | _ :: output_file :: _ =>
      (* Read base64-encoded User Data from environment variable *)
      let user_data_b64 := env_get mc "USER_DATA_B64" "" in
      (* If environment variable is empty, try reading from stdin *)
      let user_data_b64 :=
        if Py.nonempty user_data_b64 then user_data_b64
        else Py.strip (stdin mc) in
      if negb (Py.nonempty user_data_b64) then
        eprint "Error: User Data content is empty" ;; sys_exit 1
      else
        (* Decode base64 *)
        match Base64.b64decode user_data_b64 with
        | Base64.NotAscii => raise ValueError
        | Base64.BinasciiError e =>
            eprint ("Error: Failed to decode base64 User Data: "
                    +:+ decode_error_text e) ;;
            sys_exit 1
        | Base64.Bytes bs =>
            match Base64.utf8_decode bs with
            | None =>
                eprint ("Error: Failed to decode base64 User Data: "
                        +:+ unicode_error bs) ;;
                sys_exit 1
            | Some user_data =>
                (* Write to file *)
                if writable mc output_file then
                  emit (FileWriteBytes output_file user_data) ;;
                  let file_size := Z.of_nat (length user_data) in
                  eprint ("User Data file created: " +:+ output_file +:+ " ("
                          +:+ Py.str_of_int file_size +:+ " bytes)")
                else
                  (match write_failure output_file user_data with
                   | Some n =>
                       emit (FileWriteBytes output_file (firstn n user_data))
                   | None => ret tt
                   end) ;;
                  eprint ("Error: Failed to write User Data to "
                          +:+ output_file +:+ ": " +:+ os_error output_file) ;;
                  sys_exit 1
            end
        end
  | _ =>
      eprint "Usage: write_user_data.py <output_file>" ;; sys_exit 1
  end.

End WithRuntime.

End WriteUserData.

(** ** Facts about runs *)
Section RunFacts.
Context `{runtime}.

(** The events [ev], then what [x] does. *)
Definition after {A} (ev : list event) (x : list event * outcome A * world)
  : list event * outcome A * world :=
  match x with (ev2, o, w) => (ev ++ ev2, o, w) end.

Lemma after_nil {A} (x : list event * outcome A * world) : after [] x = x.
Proof. by destruct x as [[? ?] ?]. Qed.

Lemma after_after {A} ev1 ev2 (x : list event * outcome A * world) :
  after ev1 (after ev2 x) = after (ev1 ++ ev2) x.
Proof. destruct x as [[? ?] ?]. simpl. by rewrite app_assoc. Qed.

Lemma bind_ret {A B} (m : M A) (k : A -> M B) w ev a w1 :
  m w = (ev, Ret a, w1) -> bind m k w = after ev (k a w1).
Proof. intros E. unfold bind, after. by rewrite E. Qed.

Lemma bind_exit {A B} (m : M A) (k : A -> M B) w ev n w1 :
  m w = (ev, Exit n, w1) -> bind m k w = (ev, Exit n, w1).
Proof. intros E. unfold bind. by rewrite E. Qed.

Lemma bind_uncaught {A B} (m : M A) (k : A -> M B) w ev e w1 :
  m w = (ev, Uncaught e, w1) -> bind m k w = (ev, Uncaught e, w1).
Proof. intros E. unfold bind. by rewrite E. Qed.

Lemma bind_ret_l {A B} (a : A) (k : A -> M B) w : bind (ret a) k w = k a w.
Proof. unfold bind, ret. by destruct (k a w) as [[? ?] ?]. Qed.

Lemma bind_run {B} cmd (k : proc_result -> M B) w r w1 :
  subprocess_run cmd w = (r, w1) -> bind (run cmd) k w = after [Run cmd] (k r w1).
Proof. intros E. unfold bind, run. by rewrite E. Qed.

Lemma bind_emit {B} e (k : unit -> M B) w :
  bind (emit e) k w = after [e] (k tt w).
Proof. reflexivity. Qed.

Lemma bind_eprint {B} l (k : unit -> M B) w :
  bind (eprint l) k w = after [Stderr l] (k tt w).
Proof. reflexivity. Qed.

Lemma bind_print {B} l (k : unit -> M B) w :
  bind (print l) k w = after [Stdout l] (k tt w).
Proof. reflexivity. Qed.

Lemma bind_bind {A B C} (m : M A) (k : A -> M B) (k' : B -> M C) w :
  bind (bind m k) k' w = bind m (fun a => bind (k a) k') w.
Proof.
  unfold bind. destruct (m w) as [[ev [a|n|e]] w1]; [|done..].
  destruct (k a w1) as [[ev2 [b|n|e]] w2]; [|done..].
  destruct (k' b w2) as [[ev3 o] w3]. by rewrite app_assoc.
Qed.

Lemma bind_ret_inv {A B} (m : M A) (k : A -> M B) w ev b w2 :
  bind m k w = (ev, Ret b, w2) ->
  exists ev1 a w1 ev2,
    m w = (ev1, Ret a, w1) /\ k a w1 = (ev2, Ret b, w2) /\ ev = ev1 ++ ev2.
Proof.
  unfold bind. destruct (m w) as [[ev1 [a|n|e]] w1]; [|done..].
  destruct (k a w1) as [[ev2 o] w3] eqn:E. intros [= <- <- <-].
  by exists ev1, a, w1, ev2.
Qed.

Lemma bind_now {B} (k : float -> M B) w : bind Select.now k w = k (time_time w) w.
Proof. unfold bind, Select.now. by destruct (k (time_time w) w) as [[? ?] ?]. Qed.

Lemma stdout_of_app ev1 ev2 :
  stdout_of (ev1 ++ ev2) = stdout_of ev1 ++ stdout_of ev2.
Proof. apply omap_app. Qed.

Lemma runs_of_app ev1 ev2 : runs_of (ev1 ++ ev2) = runs_of ev1 ++ runs_of ev2.
Proof. apply omap_app. Qed.

Lemma writes_of_app ev1 ev2 :
  writes_of (ev1 ++ ev2) = writes_of ev1 ++ writes_of ev2.
Proof. apply omap_app. Qed.

Lemma stdout_of_cons e ev :
  stdout_of (e :: ev)
  = match e with Stdout l => l :: stdout_of ev | _ => stdout_of ev end.
Proof. by destruct e. Qed.

Lemma runs_of_cons e ev :
  runs_of (e :: ev)
  = match e with Run c => c :: runs_of ev | _ => runs_of ev end.
Proof. by destruct e. Qed.

Lemma writes_of_cons e ev :
  writes_of (e :: ev)
  = match e with
    | FileWrite p t => (p, t) :: writes_of ev
    | _ => writes_of ev
    end.
Proof. by destruct e. Qed.

Lemma error_exit_run {A} msg w :
  error_exit (A:=A) msg w = ([Stderr ("Error: " +:+ msg)], Exit 1, w).
Proof. reflexivity. Qed.

End RunFacts.

(** Reads the printed lines, the calls and the written lines off a list
    of events that is built from known events and named parts. *)
Ltac read_events :=
  repeat (rewrite ?stdout_of_cons, ?stdout_of_app, ?runs_of_cons, ?runs_of_app,
            ?writes_of_cons, ?writes_of_app; cbv iota).


(** ** Lines of text *)
Module Lines.
Import Py.

(** What [print] calls put on a stream for the texts [ls]: each text and
    a line feed after it. *)
Definition printed (ls : list string) : string :=
  fold_right (fun l t => l +:+ lf +:+ t) "" ls.

(** The lines of a text: its parts between line feeds; what follows the
    last line feed is a line when it is not empty. *)
Fixpoint lines (t : string) : list string :=
  match t with
  | EmptyString => []
  | String c r =>
      if Ascii.eqb c LF then EmptyString :: lines r
      else match lines r with
           | l :: ls => String c l :: ls
           | [] => [String c EmptyString]
           end
  end.

(** No character of the text is a line feed. *)
Definition no_lf (s : string) : bool :=
  all (fun c => negb (Ascii.eqb c LF)) s.

Lemma lines_line l t : no_lf l = true -> lines (l +:+ lf +:+ t) = l :: lines t.
Proof.
  induction l as [|c l IH]; cbn [String.append lines no_lf all].
  - intros _. unfold lf. cbn [String.append lines]. by rewrite Ascii.eqb_refl.
  - intros [Hc Hl]%andb_true_iff. apply negb_true_iff in Hc. rewrite Hc.
    by rewrite (IH Hl).
Qed.

(** Texts without line feeds are printed as one line each. *)
Lemma lines_printed ls : forallb no_lf ls = true -> lines (printed ls) = ls.
Proof.
  induction ls as [|l ls IH]; [done|]. cbn [forallb printed fold_right].
  intros [Hl Hls]%andb_true_iff. fold (printed ls).
  by rewrite (lines_line _ _ Hl), (IH Hls).
Qed.




(** The number of line feeds of a text. *)
Fixpoint count_lf (s : string) : nat :=
  match s with
  | EmptyString => 0
  | String c r => if Ascii.eqb c LF then S (count_lf r) else count_lf r
  end.

Lemma no_lf_count s : no_lf s = true <-> count_lf s = 0%nat.
Proof.
  induction s as [|c s IH]; cbn [no_lf all count_lf]; [done|].
  destruct (Ascii.eqb c LF); cbn [negb andb]; [done|exact IH].
Qed.

Lemma length_lines_line l t :
  length (lines (l +:+ lf +:+ t)) = (S (count_lf l) + length (lines t))%nat.
Proof.
  induction l as [|c l IH]; cbn [String.append lines count_lf].
  - unfold lf. cbn [String.append lines]. by rewrite Ascii.eqb_refl.
  - destruct (Ascii.eqb c LF); cbn [length]; [by rewrite IH|].
    destruct (lines (l +:+ lf +:+ t)); cbn [length] in *; lia.
Qed.

(** What is printed has a line for every text and one more for every
    line feed the texts hold. *)
Lemma length_lines_printed ls :
  length (lines (printed ls))
  = (length ls + list_sum (map count_lf ls))%nat.
Proof.
  induction ls as [|l ls IH]; [done|]. cbn [printed fold_right].
  fold (printed ls). rewrite length_lines_line, IH. simpl. lia.
Qed.

(** The texts are printed as one line each exactly when none of them
    holds a line feed. *)
Lemma length_lines_printed_iff ls :
  length (lines (printed ls)) = length ls <-> forallb no_lf ls = true.
Proof.
  rewrite length_lines_printed. split.
  - intros E. assert (list_sum (map count_lf ls) = 0%nat) as Hz by lia.
    clear E. induction ls as [|l ls IH]; [done|].
    simpl in Hz. cbn [forallb].
    rewrite (proj2 (no_lf_count l)) by lia. apply IH. lia.
  - intros Hls. assert (list_sum (map count_lf ls) = 0%nat) as ->; [|lia].
    induction ls as [|l ls IH]; [done|]. cbn [forallb] in Hls.
    apply andb_true_iff in Hls as [Hl Hls]. simpl.
    rewrite (proj1 (no_lf_count l) Hl), (IH Hls). done.
Qed.

End Lines.

(** ** Facts about the Provisioner's retry loops *)
Module CreateFacts.
Import Create.

(** *** The textual pattern of the instance identifier *)

Lemma lstrip_spaces a c r :
  Py.all Py.isspace a = true -> Py.isspace c = false ->
  Py.lstrip (a +:+ String c r) = String c r.
Proof.
  intros Ha Hc. induction a as [|x a IH]; cbn [String.append Py.lstrip].
  - by rewrite Hc.
  - cbn [Py.all] in Ha. apply andb_true_iff in Ha as [-> Ha]. by apply IH.
Qed.




Section WithRuntime.
Context `{runtime}.

(** What the first pass through the disk-category loop of multi-attempt
    mode does, by the outcome of its creation call. *)
Lemma disk_loop_multi_step p attempt cand d ds last w r w1 code resp :
  subprocess_run (candidate_cmd p cand d) w = (r, w1) ->
  response_of r = (code, resp) ->
  disk_loop_multi p attempt cand (user_data_b64_of p)
    (spot_strategy_of (Some (e_spot_price_limit cand))) (d :: ds) last w =
  let start :=
    [Stderr ("Attempting to create instance with disk category: " +:+ d);
     Run (candidate_cmd p cand d)] in
  if (code =? 0) && Py.nonempty resp then
    if usable (extract_instance_id resp) then
      (start ++
       [Stderr ("Spot instance created successfully on attempt "
                +:+ Py.str_of_int attempt +:+ " with disk category: " +:+ d);
        Stderr ("Instance Type: " +:+ e_instance_type cand);
        Stderr ("Zone: " +:+ e_zone_id cand);
        Stderr ("VSwitch: " +:+ e_vswitch_id cand);
        Stdout (str_of (extract_instance_id resp))], Exit 0, w1)
    else
      after (start ++
             [Stderr "Failed to extract instance ID, trying next disk category..."])
        (disk_loop_multi p attempt cand (user_data_b64_of p)
           (spot_strategy_of (Some (e_spot_price_limit cand))) ds resp w1)
  else if unsupported resp then
    after (start ++
           [Stderr ("Disk category " +:+ d +:+ " not supported, trying next...")])
      (disk_loop_multi p attempt cand (user_data_b64_of p)
         (spot_strategy_of (Some (e_spot_price_limit cand))) ds resp w1)
  else (start, Ret resp, w1).
Proof.
  intros Hrun Hresp. cbn [disk_loop_multi].
  rewrite bind_eprint. unfold create_instance. rewrite bind_bind.
  fold (candidate_cmd p cand d). rewrite (bind_run _ _ _ _ _ Hrun).
  rewrite bind_ret_l, Hresp. cbv zeta beta iota.
  destruct ((code =? 0) && Py.nonempty resp).
  - destruct (usable (extract_instance_id resp)).
    + reflexivity.
    + rewrite bind_eprint.
      destruct (disk_loop_multi _ _ _ _ _ ds resp w1) as [[ev o] w2].
      reflexivity.
  - destruct (unsupported resp).
    + rewrite bind_eprint.
      destruct (disk_loop_multi _ _ _ _ _ ds resp w1) as [[ev o] w2].
      reflexivity.
    + reflexivity.
Qed.


(** The same for single-attempt mode. *)
Lemma disk_loop_single_step p it vs d ds last w r w1 code resp :
  subprocess_run (single_cmd p it vs d) w = (r, w1) ->
  response_of r = (code, resp) ->
  disk_loop_single p it vs (user_data_b64_of p)
    (spot_strategy_of (spot_price_limit p)) (d :: ds) last w =
  let start :=
    [Stderr ("Attempting to create instance with disk category: " +:+ d);
     Run (single_cmd p it vs d)] in
  if (code =? 0) && Py.nonempty resp then
    if usable (extract_instance_id resp) then
      (start ++
       [Stderr ("Instance created successfully with disk category: " +:+ d);
        Stdout (str_of (extract_instance_id resp))], Exit 0, w1)
    else
      after (start ++
             [Stderr "Failed to extract instance ID, trying next disk category..."])
        (disk_loop_single p it vs (user_data_b64_of p)
           (spot_strategy_of (spot_price_limit p)) ds (Some resp) w1)
  else if unsupported resp then
    after (start ++
           [Stderr ("Disk category " +:+ d +:+ " not supported, trying next...")])
      (disk_loop_single p it vs (user_data_b64_of p)
         (spot_strategy_of (spot_price_limit p)) ds (Some resp) w1)
  else (start, Ret (Some resp), w1).
Proof.
  intros Hrun Hresp. cbn [disk_loop_single].
  rewrite bind_eprint. unfold create_instance. rewrite bind_bind.
  fold (single_cmd p it vs d). rewrite (bind_run _ _ _ _ _ Hrun).
  rewrite bind_ret_l, Hresp. cbv zeta beta iota.
  destruct ((code =? 0) && Py.nonempty resp).
  - destruct (usable (extract_instance_id resp)).
    + reflexivity.
    + rewrite bind_eprint.
      destruct (disk_loop_single _ _ _ _ _ ds (Some resp) w1) as [[ev o] w2].
      reflexivity.
  - destruct (unsupported resp).
    + rewrite bind_eprint.
      destruct (disk_loop_single _ _ _ _ _ ds (Some resp) w1) as [[ev o] w2].
      reflexivity.
    + reflexivity.
Qed.






(** The diagnostics around one candidate's disk-category loop. *)
Definition attempt_line (n attempt : Z) (cand : entry) : event :=
  Stderr ("Attempt " +:+ Py.str_of_int attempt +:+ "/" +:+ Py.str_of_int n
          +:+ ": Trying instance type " +:+ e_instance_type cand
          +:+ " in zone " +:+ e_zone_id cand).

Definition failed_lines (attempt : Z) (response : string) : list event :=
  Stderr ("Attempt " +:+ Py.str_of_int attempt
          +:+ " failed: All disk categories failed")
  :: (if Py.nonempty response
      then [Stderr ("Response: " +:+ Py.take 500 response +:+ "...")]
      else []).

(** A candidate whose disk-category loop ends without an instance is
    followed by the next candidate. *)
Lemma candidate_loop_next p n attempt cand rest w ev response w1 :
  Py.nonempty (e_vswitch_id cand) = true ->
  disk_loop_multi p attempt cand (user_data_b64_of p)
    (spot_strategy_of (Some (e_spot_price_limit cand)))
    disk_categories "" w = (ev, Ret response, w1) ->
  candidate_loop p n attempt (cand :: rest) w =
  after (attempt_line n attempt cand :: ev ++ failed_lines attempt response)
    (candidate_loop p n (attempt + 1) rest w1).
Proof.
  intros Hv Hloop. cbn [candidate_loop]. rewrite Hv. cbn [negb].
  rewrite bind_eprint. cbv zeta. rewrite (bind_ret _ _ _ _ _ _ Hloop).
  rewrite bind_eprint. unfold failed_lines.
  destruct (Py.nonempty response).
  - rewrite bind_eprint.
    destruct (candidate_loop p n (attempt + 1) rest w1) as [[ev2 o] w2].
    simpl. by rewrite <- !app_assoc.
  - rewrite bind_ret_l.
    destruct (candidate_loop p n (attempt + 1) rest w1) as [[ev2 o] w2].
    simpl. by rewrite <- !app_assoc.
Qed.

(** A created instance ends the run inside the candidate's loop. *)
Lemma candidate_loop_exit p n attempt cand rest w ev k w1 :
  Py.nonempty (e_vswitch_id cand) = true ->
  disk_loop_multi p attempt cand (user_data_b64_of p)
    (spot_strategy_of (Some (e_spot_price_limit cand)))
    disk_categories "" w = (ev, Exit k, w1) ->
  candidate_loop p n attempt (cand :: rest) w =
  (attempt_line n attempt cand :: ev, Exit k, w1).
Proof.
  intros Hv Hloop. cbn [candidate_loop]. rewrite Hv. cbn [negb].
  rewrite bind_eprint. cbv zeta. by rewrite (bind_exit _ _ _ _ _ _ Hloop).
Qed.

(** A candidate without a VSwitch is passed over without a call. *)
Lemma candidate_loop_skip p n attempt cand rest w :
  Py.nonempty (e_vswitch_id cand) = false ->
  candidate_loop p n attempt (cand :: rest) w =
  after [Stderr ("Warning: VSwitch ID is empty for candidate "
                 +:+ Py.str_of_int attempt +:+ ", skipping")]
    (candidate_loop p n (attempt + 1) rest w).
Proof.
  intros Hv. cbn [candidate_loop]. rewrite Hv. cbn [negb].
  by rewrite bind_eprint.
Qed.





End WithRuntime.
End CreateFacts.

(** ** A concrete runtime and machine for the closed examples *)
Module Fixture.

(** A text in double quotes. *)
Definition dq (s : string) : string :=
  String Create.quote (s +:+ String Create.quote EmptyString).

(** The response of a successful RunInstances call:
    [{"InstanceIdSets": {"InstanceIdSet": ["i-bp1abc"]}}]. *)
Definition created_doc : string :=
  "{" +:+ dq "InstanceIdSets" +:+ ": {" +:+ dq "InstanceIdSet" +:+ ": ["
  +:+ dq "i-bp1abc" +:+ "]}}".

Definition created_json : json :=
  JObj [("InstanceIdSets", JObj [("InstanceIdSet", JList [JStr "i-bp1abc"])])].

(** An answer of the advisor with one offer:
    [[{"instanceTypeId": "ecs.c7.large", "zoneId": "cn-hangzhou-k",
       "pricePerCore": "0.00001", "cpuCoreCount": 2}]]. *)
Definition offers_doc : string :=
  "[{" +:+ dq "instanceTypeId" +:+ ": " +:+ dq "ecs.c7.large" +:+ ", "
  +:+ dq "zoneId" +:+ ": " +:+ dq "cn-hangzhou-k" +:+ ", "
  +:+ dq "pricePerCore" +:+ ": " +:+ dq "0.00001" +:+ ", "
  +:+ dq "cpuCoreCount" +:+ ": 2}]".

Definition offers_json : json :=
  JList [JObj [("instanceTypeId", JStr "ecs.c7.large");
               ("zoneId", JStr "cn-hangzhou-k");
               ("pricePerCore", JStr "0.00001");
               ("cpuCoreCount", JInt 2)]].

(** [json.loads] on the two documents above; every other text of the
    examples is not JSON. *)
Definition loads (s : string) : option json :=
  if String.eqb s created_doc then Some created_json
  else if String.eqb s offers_doc then Some offers_json
  else None.

Lemma loads_blank s : Py.nonempty (Py.strip s) = false -> loads s = None.
Proof.
  unfold loads. intros Hs.
  destruct (String.eqb_spec s created_doc) as [->|_]; [by vm_compute in Hs|].
  destruct (String.eqb_spec s offers_doc) as [->|_]; [by vm_compute in Hs|].
  reflexivity.
Qed.

(** [float] on the decimal texts of the examples; [0.00001] is the
    double [0x1.4f8b588e368f1p-17]. *)
Definition to_float (s : string) : option float :=
  if String.eqb s "0.00001" then Some 0x1.4f8b588e368f1p-17%float
  else if String.eqb s "0.5" then Some 0.5%float
  else None.

(** A runtime over the worlds [W], the external commands answering by
    [step]. *)
Definition runtime_of (W : Type)
    (step : list string -> W -> proc_result * W) : runtime :=
  {| world := W;
     subprocess_run := step;
     time_time := fun _ => 0%float;
     json_loads := loads;
     json_error := fun _ => "Expecting value: line 1 column 1 (char 0)";
     float_of_str := to_float;
     repr := fun _ => "...";
     unicode_error := fun _ => "invalid start byte";
     os_error := fun _ => "Permission denied";
     write_failure := fun _ _ => None;
     json_loads_blank := loads_blank |}.

(** A world that answers the calls with a prepared list of results, in
    order. *)
Definition scripted : runtime :=
  runtime_of (list proc_result)
    (fun _ w => match w with
                | r :: rest => (r, rest)
                | [] => (OSError "no such file", [])
                end).

(** The instance type and the disk category of a RunInstances command. *)
Definition type_of (cmd : list string) : string := nth 8 cmd "".
Definition category_of (cmd : list string) : string := nth 18 cmd "".

Definition not_supported : proc_result :=
  Completed 1 "" "ERROR: SDK.ServerError ErrorCode: InvalidSystemDiskCategory.ValueNotSupported".

(** A world without state in which [ecs.c7.large] can be created on
    [cloud_ssd] and nothing else can. *)
Definition keyed : runtime :=
  runtime_of unit
    (fun cmd w =>
       (if String.eqb (type_of cmd) "ecs.c7.large"
           && String.eqb (category_of cmd) "cloud_ssd"
        then Completed 0 created_doc ""
        else not_supported, w)).

(** A machine with nothing on it but [env] and the files [fs]. *)
Definition machine_of (env fs : gmap string string) (args : list string)
    (input : string) : machine :=
  {| environ := env;
     argv := args;
     stdin := input;
     files := fs;
     executable := fun _ => true;
     tmp_name := "/tmp/tmpab12cd.txt";
     writable := fun _ => true;
     chmod_ok := fun _ => true |}.

(** Parameters of the Provisioner as the workflow sets them. *)
Definition params_of (instance_type vswitch_id candidates_file : option string)
  : Create.params :=
  {| Create.region_id := "cn-hangzhou";
     Create.image_id := "ubuntu_24_04_x64";
     Create.security_group_id := "sg-1";
     Create.instance_name := "runner-1";
     Create.vswitch_id := vswitch_id;
     Create.key_pair_name := None;
     Create.ram_role_name := None;
     Create.instance_type := instance_type;
     Create.spot_price_limit := None;
     Create.candidates_file := candidates_file;
     Create.user_data_content := None |}.

(** A candidates file with three entries. *)
Definition three_entries : string :=
  "ecs.g7.large|cn-hangzhou-k|vsw-k|0.1200|2" +:+ Py.lf
  +:+ "ecs.g6.large|cn-hangzhou-j|vsw-j|0.1300|2" +:+ Py.lf
  +:+ "ecs.c7.large|cn-hangzhou-k|vsw-k|0.1500|2" +:+ Py.lf.

(** A machine that holds that file, the parameters of a multi-attempt
    run over it, and its three entries. *)
Definition c_file : string := "/tmp/candidates.txt".
Definition c_machine : machine :=
  machine_of ∅ {[ c_file := three_entries ]} [] "".
Definition c_params : Create.params := params_of None None (Some c_file).
Definition entry1 : Create.entry :=
  {| Create.e_instance_type := "ecs.g7.large";
     Create.e_zone_id := "cn-hangzhou-k";
     Create.e_vswitch_id := "vsw-k";
     Create.e_spot_price_limit := "0.1200";
     Create.e_cpu_cores := Some 2 |}.
Definition entry2 : Create.entry :=
  {| Create.e_instance_type := "ecs.g6.large";
     Create.e_zone_id := "cn-hangzhou-j";
     Create.e_vswitch_id := "vsw-j";
     Create.e_spot_price_limit := "0.1300";
     Create.e_cpu_cores := Some 2 |}.
Definition entry3 : Create.entry :=
  {| Create.e_instance_type := "ecs.c7.large";
     Create.e_zone_id := "cn-hangzhou-k";
     Create.e_vswitch_id := "vsw-k";
     Create.e_spot_price_limit := "0.1500";
     Create.e_cpu_cores := Some 2 |}.



End Fixture.

(** ** Claims about the Provisioner *)
Module CreateClaims.
Import Create CreateFacts.

(** A creation call that fails with an unsupported-disk-category
    response: a non-zero exit code and the pattern in the response. *)
Definition fails_unsupported (r : proc_result) : Prop :=
  (response_of r).1 <> 0 /\ unsupported (response_of r).2 = true.

Section WithRuntime.
Context `{runtime}.

(** A creation call that succeeds with the instance identifier [id]. *)
Definition succeeds_with (id : json) (r : proc_result) : Prop :=
  (response_of r).1 = 0 /\ extract_instance_id (response_of r).2 = id
  /\ usable id = true.

(** No identifier is extracted from the empty response. *)
Lemma extract_empty : extract_instance_id "" = JNull.
Proof.
  unfold extract_instance_id. by rewrite (json_loads_blank "") by reflexivity.
Qed.

Lemma usable_nonempty resp :
  usable (extract_instance_id resp) = true -> Py.nonempty resp = true.
Proof. destruct resp; [by rewrite extract_empty | done]. Qed.

Lemma disk_loop_multi_all_unsupported p attempt cand ds last w :
  (forall d w, d ∈ ds ->
     fails_unsupported (subprocess_run (candidate_cmd p cand d) w).1) ->
  exists ev resp w1,
    disk_loop_multi p attempt cand (user_data_b64_of p)
      (spot_strategy_of (Some (e_spot_price_limit cand))) ds last w
    = (ev, Ret resp, w1)
    /\ stdout_of ev = [] /\ runs_of ev = map (candidate_cmd p cand) ds.
Proof.
  revert last w. induction ds as [|d ds IH]; intros last w Hall.
  - by exists [], last, w.
  - destruct (subprocess_run (candidate_cmd p cand d) w) as [r w1] eqn:Hrun.
    destruct (response_of r) as [code resp] eqn:Hresp.
    destruct (Hall d w ltac:(left)) as [Hcode Hpat].
    rewrite Hrun in Hcode, Hpat. simpl in Hcode, Hpat.
    rewrite Hresp in Hcode, Hpat. simpl in Hcode, Hpat.
    rewrite (disk_loop_multi_step _ _ _ _ _ _ _ _ _ _ _ Hrun Hresp). cbv zeta.
    apply Z.eqb_neq in Hcode. rewrite Hcode, Hpat. cbn [andb].
    destruct (IH resp w1) as (ev & resp' & w2 & -> & Hout & Hruns).
    { intros d' w' Hd'. apply Hall. by right. }
    eexists _, resp', w2. split; [reflexivity|].
    rewrite stdout_of_app, runs_of_app, Hout, Hruns. done.
Qed.


(** C1.  In multi-attempt mode, for a candidates file with exactly three
    entries (each with a VSwitch), where every creation call for entries
    1 and 2 fails with an unsupported-disk-category response and entry
    3's call fails so on the first disk category and succeeds on the
    second, the Provisioner prints entry 3's instance identifier on
    standard output, exits with status 0, and issues exactly 8 creation
    calls: 3 for entry 1, 3 for entry 2, 2 for entry 3. *)
Theorem three_entries_eight_calls mc p path e1 e2 e3 id :
  candidates_file p = Some path ->
  Py.nonempty path = true ->
  isfile mc path = true ->
  (forall w, parse_candidates_file mc path w = ([], Ret [e1; e2; e3], w)) ->
  Py.nonempty (e_vswitch_id e1) = true ->
  Py.nonempty (e_vswitch_id e2) = true ->
  Py.nonempty (e_vswitch_id e3) = true ->
  (forall d w, d ∈ disk_categories ->
     fails_unsupported (subprocess_run (candidate_cmd p e1 d) w).1) ->
  (forall d w, d ∈ disk_categories ->
     fails_unsupported (subprocess_run (candidate_cmd p e2 d) w).1) ->
  (forall w,
     fails_unsupported (subprocess_run (candidate_cmd p e3 "cloud_essd") w).1) ->
  (forall w,
     succeeds_with id (subprocess_run (candidate_cmd p e3 "cloud_ssd") w).1) ->
  forall w, exists ev w',
    provision mc p w = (ev, Exit 0, w')
    /\ stdout_of ev = [str_of id]
    /\ runs_of ev =
        map (candidate_cmd p e1) disk_categories
        ++ map (candidate_cmd p e2) disk_categories
        ++ [candidate_cmd p e3 "cloud_essd"; candidate_cmd p e3 "cloud_ssd"]
    /\ length (runs_of ev) = 8%nat.
Proof.
  intros Hfile Hpath Hisfile Hparse Hv1 Hv2 Hv3 H1 H2 H3a H3b w.
  (* entries 1 and 2: three failing calls each *)
  destruct (disk_loop_multi_all_unsupported p 1 e1 disk_categories "" w H1)
    as (ev1 & r1 & w1 & L1 & O1 & R1).
  destruct (disk_loop_multi_all_unsupported p (1 + 1) e2 disk_categories "" w1 H2)
    as (ev2 & r2 & w2 & L2 & O2 & R2).
  (* entry 3: one failing call, then the successful one *)
  destruct (subprocess_run (candidate_cmd p e3 "cloud_essd") w2)
    as [ra w3] eqn:Hra.
  destruct (response_of ra) as [ca pa] eqn:Hpa.
  destruct (H3a w2) as [Hca Hua]. rewrite Hra in Hca, Hua. simpl in Hca, Hua.
  rewrite Hpa in Hca, Hua. simpl in Hca, Hua. apply Z.eqb_neq in Hca.
  destruct (subprocess_run (candidate_cmd p e3 "cloud_ssd") w3)
    as [rb w4] eqn:Hrb.
  destruct (response_of rb) as [cb pb] eqn:Hpb.
  destruct (H3b w3) as (Hcb & Hid & Hus). rewrite Hrb in Hcb, Hid. simpl in Hcb, Hid.
  rewrite Hpb in Hcb, Hid. simpl in Hcb, Hid. subst cb id.
  pose proof (usable_nonempty _ Hus) as Hne.
  assert (exists ev3,
    disk_loop_multi p (1 + 1 + 1) e3 (user_data_b64_of p)
      (spot_strategy_of (Some (e_spot_price_limit e3))) disk_categories "" w2
    = (ev3, Exit 0, w4)
    /\ stdout_of ev3 = [str_of (extract_instance_id pb)]
    /\ runs_of ev3 = [candidate_cmd p e3 "cloud_essd"; candidate_cmd p e3 "cloud_ssd"])
    as (ev3 & L3 & O3 & R3).
  { unfold disk_categories.
    rewrite (disk_loop_multi_step _ _ _ _ _ _ _ _ _ _ _ Hra Hpa). cbv zeta.
    rewrite Hca, Hua. cbn [andb].
    rewrite (disk_loop_multi_step _ _ _ _ _ _ _ _ _ _ _ Hrb Hpb). cbv zeta.
    rewrite Hne, Hus. cbn [andb Z.eqb]. eexists. split; [reflexivity|]. done. }
  (* the run as a whole *)
  eexists _, w4. unfold provision. rewrite Hfile, Hpath, Hisfile. cbn [andb].
  unfold multi_attempt. rewrite (bind_ret _ _ _ _ _ _ (Hparse w)), bind_eprint.
  pose proof (candidate_loop_next p (Z.of_nat (length [e1; e2; e3])) 1 e1
                [e2; e3] _ _ _ _ Hv1 L1) as C.
  rewrite (candidate_loop_next _ _ _ _ _ _ _ _ _ Hv2 L2) in C.
  rewrite (candidate_loop_exit _ _ _ _ _ _ _ _ _ Hv3 L3) in C.
  cbn [after] in C. rewrite (bind_exit _ _ _ _ _ _ C). clear C.
  cbn [after app]. split; [reflexivity|].
  assert (forall a r, stdout_of (failed_lines a r) = []
                      /\ runs_of (failed_lines a r) = []) as Hfl.
  { intros a r. unfold failed_lines. by destruct (Py.nonempty r). }
  unfold attempt_line. read_events.
  rewrite R1, R2, R3, O1, O2, O3, !(proj1 (Hfl _ _)), !(proj2 (Hfl _ _)).
  done.
Qed.








End WithRuntime.

(** *** Closed examples *)

(** C1 at the three entries of [Fixture.three_entries], in the world
    where only [ecs.c7.large] on [cloud_ssd] can be created. *)
Lemma three_entries_eight_calls_witness :
  exists ev w',
    provision (H:=Fixture.keyed) Fixture.c_machine Fixture.c_params tt = (ev, Exit 0, w')
    /\ stdout_of ev = ["i-bp1abc"]
    /\ runs_of ev =
        map (candidate_cmd Fixture.c_params Fixture.entry1) disk_categories
        ++ map (candidate_cmd Fixture.c_params Fixture.entry2) disk_categories
        ++ [candidate_cmd Fixture.c_params Fixture.entry3 "cloud_essd";
            candidate_cmd Fixture.c_params Fixture.entry3 "cloud_ssd"]
    /\ length (runs_of ev) = 8%nat.
Proof.
  apply (three_entries_eight_calls (H:=Fixture.keyed) Fixture.c_machine Fixture.c_params Fixture.c_file
           Fixture.entry1 Fixture.entry2 Fixture.entry3 (JStr "i-bp1abc")).
  - reflexivity.
  - reflexivity.
  - vm_compute; reflexivity.
  - intros []. vm_compute; reflexivity.
  - reflexivity.
  - reflexivity.
  - reflexivity.
  - intros d [] Hd.
    repeat (apply elem_of_cons in Hd as [->|Hd]);
      [split; [discriminate | vm_compute; reflexivity]..
      | by apply elem_of_nil in Hd].
  - intros d [] Hd.
    repeat (apply elem_of_cons in Hd as [->|Hd]);
      [split; [discriminate | vm_compute; reflexivity]..
      | by apply elem_of_nil in Hd].
  - intros []. split; [discriminate | vm_compute; reflexivity].
  - intros []. split; [reflexivity | split; vm_compute; reflexivity].
Defined.











End CreateClaims.

(** ** Claims about the candidates file *)
Module CandidatesClaims.
Import Create.

(** The candidates file in the words of its description: the records of
    the lines that, white space around them removed, are not empty and
    hold at least four fields separated by bars. *)
Definition file_lines (text : string) : list string :=
  split_lines (universal_newlines text).

Definition fields_of (line : string) : option (list string) :=
  let line := Py.strip line in
  if Py.nonempty line then
    let parts := Py.split "|" line in
    if (4 <=? length parts)%nat then Some parts else None
  else None.

(** The fifth field, when it is there and not empty. *)
Definition fifth (parts : list string) : option string :=
  match parts !! 4%nat with
  | Some f => if Py.nonempty f then Some f else None
  | None => None
  end.

Definition record_of (parts : list string) : entry :=
  {| e_instance_type := nth 0 parts "";
     e_zone_id := nth 1 parts "";
     e_vswitch_id := nth 2 parts "";
     e_spot_price_limit := nth 3 parts "";
     e_cpu_cores := fifth parts ≫= Py.int |}.

(** The fifth field, when there and not empty, is an integer literal. *)
Definition fifth_ok (parts : list string) : bool :=
  match fifth parts with
  | Some f => match Py.int f with Some _ => true | None => false end
  | None => true
  end.

(** The fifth field, when there and not empty, has no more digits than
    [int] converts. *)
Definition fifth_short (parts : list string) : bool :=
  match fifth parts with
  | Some f => (Py.digit_count f <=? Py.int_max_str_digits)%nat
  | None => true
  end.

Definition records (text : string) : list entry :=
  map record_of (omap fields_of (file_lines text)).

Section WithRuntime.
Context `{runtime}.

Lemma parse_lines_spec lines acc w :
  parse_lines lines acc w =
  if forallb fifth_ok (omap fields_of lines)
  then ([], Ret (acc ++ map record_of (omap fields_of lines)), w)
  else ([], Uncaught ValueError, w).
Proof.
  revert acc. induction lines as [|line rest IH]; intros acc.
  - simpl. by rewrite app_nil_r.
  - assert (forall f (x : string) l,
              omap (M:=list) f (x :: l)
              = match f x with
                | Some y => y :: omap f l
                | None => omap f l
                end :> list (list string)) as Homap by reflexivity.
    assert (fields_of line
            = if Py.nonempty (Py.strip line)
              then if (4 <=? length (Py.split "|" (Py.strip line)))%nat
                   then Some (Py.split "|" (Py.strip line)) else None
              else None) as Hf by reflexivity.
    cbn [parse_lines]. rewrite Homap, Hf. clear Homap Hf.
    destruct (Py.nonempty (Py.strip line)); cbn [negb]; [|apply IH].
    destruct (Py.split "|" (Py.strip line)) as [|f1 [|f2 [|f3 [|f4 more]]]];
      try apply IH.
    change (4 <=? length (f1 :: f2 :: f3 :: f4 :: more))%nat with true.
    cbn [forallb map]. unfold fifth_ok at 1, record_of at 1, fifth.
    cbn [lookup list_lookup nth].
    destruct more as [|f5 more]; cbn [lookup list_lookup mbind option_bind].
    + rewrite bind_ret_l, IH. cbn [andb].
      destruct (forallb _ _); [|done]. by rewrite <- app_assoc.
    + destruct (Py.nonempty f5); cbn [mbind option_bind].
      * destruct (Py.int f5) as [n|]; [|done].
        rewrite bind_ret_l, IH. cbn [andb].
        destruct (forallb _ _); [|done]. by rewrite <- app_assoc.
      * rewrite bind_ret_l, IH. cbn [andb].
        destruct (forallb _ _); [|done]. by rewrite <- app_assoc.
Qed.

(** C10, as amended.  For every candidates file that can be read and in
    which each fifth field that is there and not empty is an integer
    literal of at most 4300 digits, [parse_candidates_file] returns
    exactly the records of the non-blank lines with at least four
    bar-separated fields, in file order; blank lines and lines with
    fewer fields are passed over in silence, the fifth field is read as
    an integer only when it is there and not empty ([None] otherwise),
    and a file that does not exist gives the empty list.  A fifth field
    that is no integer literal ends the function with [ValueError]. *)
Theorem parse_candidates_file_records mc path w :
  (files mc !! path = None ->
   parse_candidates_file mc path w = ([], Ret [], w))
  /\ (forall text,
      files mc !! path = Some text ->
      forallb fifth_ok (omap fields_of (file_lines text)) = true ->
      forallb fifth_short (omap fields_of (file_lines text)) = true ->
      parse_candidates_file mc path w = ([], Ret (records text), w))
  /\ (forall text,
      files mc !! path = Some text ->
      forallb fifth_ok (omap fields_of (file_lines text)) = false ->
      parse_candidates_file mc path w = ([], Uncaught ValueError, w)).
Proof.
  unfold parse_candidates_file. split; [by intros ->|].
  split; [intros text -> Hok _|intros text -> Hok]; rewrite parse_lines_spec;
    fold (file_lines text); by rewrite Hok.
Qed.

End WithRuntime.

(** C10 fails for the file whose one line is [a|b|c|d|x]: the function
    returns no list, it raises [ValueError]. *)
Lemma parse_candidates_file_raises :
  parse_candidates_file (H:=Fixture.scripted)
    (Fixture.machine_of ∅ {[ "/tmp/c.txt" := "a|b|c|d|x" ]} [] "")
    "/tmp/c.txt" []
  = ([], Uncaught ValueError, []).
Proof. vm_compute. reflexivity. Qed.

(** C10 as amended, at the file of three entries with a blank line and
    a short line added. *)
Lemma parse_candidates_file_records_witness :
  let text := Fixture.three_entries +:+ "   " +:+ Py.lf +:+ "a|b|c" +:+ Py.lf
              +:+ "t|z|v|0.1|" +:+ Py.lf +:+ "t|z|v|0.1" in
  parse_candidates_file (H:=Fixture.scripted)
    (Fixture.machine_of ∅ {[ "/tmp/c.txt" := text ]} [] "") "/tmp/c.txt" []
  = ([], Ret [Fixture.entry1; Fixture.entry2; Fixture.entry3;
              {| e_instance_type := "t"; e_zone_id := "z"; e_vswitch_id := "v";
                 e_spot_price_limit := "0.1"; e_cpu_cores := None |};
              {| e_instance_type := "t"; e_zone_id := "z"; e_vswitch_id := "v";
                 e_spot_price_limit := "0.1"; e_cpu_cores := None |}], []).
Proof.
  intros text.
  refine (proj1 (proj2 (parse_candidates_file_records (H:=Fixture.scripted)
            (Fixture.machine_of ∅ {[ "/tmp/c.txt" := text ]} [] "")
            "/tmp/c.txt" [])) text _ _ _).
  - vm_compute; reflexivity.
  - vm_compute; reflexivity.
  - vm_compute; reflexivity.
Defined.

End CandidatesClaims.

(** ** Claims about the Selector *)
Module SelectClaims.
Import Py PyFacts Select SelectFacts.

(** The text [get_field_value] finds in a dict: the value under the first
    of [keys] that is there, [None] when that value is [None]. *)
Fixpoint field `{runtime} (items : list (string * json)) (keys : list string)
  : option string :=
  match keys with
  | [] => None
  | key :: rest =>
      match assoc key items with
      | Some JNull => None
      | Some v => Some (str_of v)
      | None => field items rest
      end
  end.


Section WithRuntime.
Context `{runtime}.

Lemma get_field_value_obj items keys w :
  get_field_value (JObj items) keys w = ([], Ret (field items keys), w).
Proof.
  induction keys as [|key rest IH]; [done|].
  cbn [get_field_value field]. unfold has_key, getitem.
  rewrite bind_ret_l. destruct (assoc key items) as [v|]; [|apply IH].
  rewrite bind_ret_l. by destruct v.
Qed.




End WithRuntime.




End SelectClaims.

(** ** The query strategies of the Selector *)
Module StrategyClaims.
Import Py PyFacts Select.

(** The command line the loop of [main] has [query_spot_instances] run
    for one strategy. *)
Definition strategy_cmd (st : settings) (s : strategy) : list string :=
  let '(strat_cpu, strat_mem, exact_match, _) := s in
  advisor_cmd (advisor_binary st) (access_key_id st) (access_key_secret st)
    (region_id st) strat_cpu
    (if exact_match then strat_cpu else max_cpu st)
    (if exact_match then strat_mem else min_mem st)
    (if exact_match then strat_mem else max_mem st)
    (arch_param st) exact_match.

(** The process was started: [subprocess.run] raised no [OSError]. *)
Definition launched (r : proc_result) : bool :=
  match r with OSError _ => false | _ => true end.

Section WithRuntime.
Context `{runtime}.

(** The non-empty JSON array an advisor run returned, if it did: exit
    code 0 and an output that parses to a list with an element. *)
Definition answer (r : proc_result) : option (list json) :=
  match r with
  | Completed returncode stdout _ =>
      if returncode =? 0 then
        match json_loads stdout with
        | Some (JList (x :: data)) => Some (x :: data)
        | _ => None
        end
      else None
  | _ => None
  end.

Lemma answer_nonempty r data : answer r = Some data -> data <> [].
Proof.
  destruct r as [code out err| |]; [|done..]. cbn [answer].
  destruct (code =? 0); [|done].
  destruct (json_loads out) as [[| | | | |[|x l]|]|]; try done.
  by intros [= <-].
Qed.

(** What [query_spot_instances] returns, from the result of the run. *)
Lemma query_spot_instances_answer bin key secret region mn mx mmn mmx a ex w r w1 :
  subprocess_run (advisor_cmd bin key secret region mn mx mmn mmx a ex) w = (r, w1) ->
  launched r = true ->
  exists ev,
    query_spot_instances bin key secret region mn mx mmn mmx a ex w
    = (ev, Ret (answer r), w1)
    /\ runs_of ev = [advisor_cmd bin key secret region mn mx mmn mmx a ex]
    /\ stdout_of ev = [] /\ writes_of ev = [].
Proof.
  intros E L. unfold query_spot_instances. rewrite (bind_run _ _ _ _ _ E).
  destruct r as [code out err|msg|msg]; [| |done].
  - cbn [answer]. destruct (code =? 0); cbn [negb].
    + destruct (nonempty (strip out)) eqn:Es; cbn [negb].
      * destruct (json_loads out) as [[| | | | |[|x l]|]|];
          eexists; (split; [reflexivity|]); by read_events.
      * rewrite (json_loads_blank _ Es).
        eexists; (split; [reflexivity|]); by read_events.
    + eexists; (split; [reflexivity|]); by read_events.
  - eexists; (split; [reflexivity|]); by read_events.
Qed.

(** A strategy whose query returns a non-empty array ends the loop. *)
Lemma strategy_loop_found st s rest k w r w1 data :
  subprocess_run (strategy_cmd st s) w = (r, w1) ->
  answer r = Some data ->
  exists ev,
    strategy_loop st (s :: rest) k w = (ev, Ret (Some data), w1)
    /\ runs_of ev = [strategy_cmd st s].
Proof.
  intros E A. destruct s as [[[c m] ex] desc]. cbn [strategy_loop].
  assert (launched r = true) as L by (by destruct r).
  destruct (query_spot_instances_answer _ _ _ _ _ _ _ _ _ _ _ _ _ E L)
    as (ev & Q & R & _ & _).
  pose proof (answer_nonempty _ _ A) as Hne. rewrite A in Q.
  destruct data as [|x data]; [done|].
  destruct ex; rewrite bind_eprint, (bind_ret _ _ _ _ _ _ Q);
    eexists; (split; [reflexivity|]); read_events; by rewrite R.
Qed.

(** A strategy whose query returns nothing of use leaves the loop to
    the strategies after it. *)
Lemma strategy_loop_next st s rest k w r w1 :
  subprocess_run (strategy_cmd st s) w = (r, w1) ->
  answer r = None -> launched r = true ->
  exists ev,
    strategy_loop st (s :: rest) k w
    = after ev (strategy_loop st rest (k + 1) w1)
    /\ runs_of ev = [strategy_cmd st s].
Proof.
  intros E A L. destruct s as [[[c m] ex] desc]. cbn [strategy_loop].
  destruct (query_spot_instances_answer _ _ _ _ _ _ _ _ _ _ _ _ _ E L)
    as (ev & Q & R & _ & _).
  rewrite A in Q.
  destruct ex; rewrite bind_eprint, (bind_ret _ _ _ _ _ _ Q), after_after;
    eexists; (split; [reflexivity|]); read_events; by rewrite R.
Qed.


(** A strategy whose process cannot be started ends the script with the
    [OSError]. *)
Lemma strategy_loop_oserror st s rest k w msg w1 :
  subprocess_run (strategy_cmd st s) w = (OSError msg, w1) ->
  exists ev,
    strategy_loop st (s :: rest) k w = (ev, Uncaught UncaughtOSError, w1)
    /\ runs_of ev = [strategy_cmd st s].
Proof.
  intros E. destruct s as [[[c m] ex] desc]. cbn [strategy_loop].
  unfold query_spot_instances.
  destruct ex; rewrite bind_eprint, bind_bind, (bind_run _ _ _ _ _ E);
    eexists; (split; [reflexivity|]); by read_events.
Qed.

(** How a run of the loop went: the strategies it tried, a prefix of
    the list, in the order of the list. *)
Definition went (st : settings) (ss tried : list strategy)
    (ev : list event) (o : outcome (option (list json))) (w' : world) : Prop :=
  (exists rest, ss = tried ++ rest
     /\ match o with Ret None => rest = [] | _ => True end)
  /\ runs_of ev = map (strategy_cmd st) tried
  /\ match o with
     | Ret (Some data) =>
         exists s w0 r,
           last tried = Some s
           /\ subprocess_run (strategy_cmd st s) w0 = (r, w')
           /\ answer r = Some data
     | Ret None => True
     | Exit _ => False
     | Uncaught e => e = UncaughtOSError
     end.

Lemma strategy_loop_went st ss : forall k w ev o w',
  strategy_loop st ss k w = (ev, o, w') ->
  exists tried, went st ss tried ev o w'.
Proof.
  induction ss as [|s ss IH]; intros k w ev o w' E.
  - injection E as <- <- <-. exists []. split; [by exists []|done].
  - destruct (subprocess_run (strategy_cmd st s) w) as [r w1] eqn:Er.
    destruct (launched r) eqn:L.
    + destruct (answer r) as [data|] eqn:A.
      * destruct (strategy_loop_found st s ss k w r w1 data Er A) as (ev1 & E1 & R).
        rewrite E1 in E. injection E as <- <- <-.
        exists [s]. split; [by exists ss|]. split; [done|].
        by exists s, w, r.
      * destruct (strategy_loop_next st s ss k w r w1 Er A L) as (ev1 & E1 & R).
        rewrite E1 in E.
        destruct (strategy_loop st ss (k + 1) w1) as [[ev2 o2] w2] eqn:E2.
        injection E as <- <- <-.
        destruct (IH _ _ _ _ _ E2) as (tried & (rest & -> & Hrest) & Hruns & Hlast).
        exists (s :: tried). split; [by exists rest|].
        split; [by rewrite runs_of_app, R, Hruns|].
        destruct o2 as [[data|]|n|e]; try done.
        destruct Hlast as (s' & w0 & r' & Hl & Hr & Ha).
        exists s', w0, r'. by rewrite last_cons, Hl.
    + destruct r as [| |msg]; [done..|].
      destruct (strategy_loop_oserror st s ss k w msg w1 Er) as (ev1 & E1 & R).
      rewrite E1 in E. injection E as <- <- <-.
      exists [s]. split; [by exists ss|]. done.
Qed.


End WithRuntime.
End StrategyClaims.

(** ** The candidates file of the Selector *)
Module FileClaims.
Import Py PyFacts Select.

Section WithRuntime.
Context `{runtime}.

(** A computation that neither reads nor changes the world. *)
Definition quiet {A} (m : M A) : Prop :=
  exists ev o, forall w, m w = (ev, o, w).

Lemma quiet_ret {A} (a : A) : quiet (ret a).
Proof. by exists [], (Ret a). Qed.

Lemma quiet_raise {A} e : quiet (raise (A:=A) e).
Proof. by exists [], (Uncaught e). Qed.

Lemma quiet_emit e : quiet (emit e).
Proof. by exists [e], (Ret tt). Qed.

Lemma quiet_bind {A B} (m : M A) (k : A -> M B) :
  quiet m -> (forall a, quiet (k a)) -> quiet (bind m k).
Proof.
  intros (ev & [a|n|e] & Hm) Hk.
  - destruct (Hk a) as (ev2 & o2 & Hka). exists (ev ++ ev2), o2. intros w.
    by rewrite (bind_ret _ _ _ _ _ _ (Hm w)), Hka.
  - exists ev, (Exit n). intros w. by rewrite (bind_exit _ _ _ _ _ _ (Hm w)).
  - exists ev, (Uncaught e). intros w.
    by rewrite (bind_uncaught _ _ _ _ _ _ (Hm w)).
Qed.

Ltac quiet_step :=
  first
    [ apply quiet_ret | apply quiet_raise | apply quiet_emit
    | apply quiet_bind; [|intros ?]
    | match goal with
      | |- quiet (match ?x with _ => _ end) => destruct x
      end ].

Lemma get_field_value_quiet obj keys : quiet (get_field_value obj keys).
Proof.
  induction keys as [|key rest IH]; [apply quiet_ret|].
  cbn [get_field_value]. apply quiet_bind.
  - unfold has_key. destruct obj; repeat quiet_step.
  - intros [|]; [|done]. unfold getitem. repeat quiet_step.
Qed.

Lemma filter_step_quiet instance mn mm arch :
  quiet (filter_step instance mn mm arch).
Proof.
  unfold filter_step, eprint.
  repeat (apply quiet_bind; [apply get_field_value_quiet|intros ?]).
  cbv zeta. repeat quiet_step.
Qed.

(** The offer [instance] is kept by [filter_instances], as candidate [c]. *)
Definition keeps (mn mm : Z) (arch : string) (instance : json) (c : candidate)
  : Prop :=
  forall w, exists ev, filter_step instance mn mm arch w = (ev, Ret (Some c), w).

Lemma filter_step_keeps instance mn mm arch w ev c w1 :
  filter_step instance mn mm arch w = (ev, Ret (Some c), w1) ->
  w1 = w /\ keeps mn mm arch instance c.
Proof.
  intros E. destruct (filter_step_quiet instance mn mm arch) as (ev0 & o0 & Hq).
  rewrite Hq in E. injection E as <- -> <-. split; [done|].
  intros w2. by exists ev0.
Qed.

(** What [get_field_value] returns: for a dict the text of the first
    of the keys that is there; never a text for a value that is no
    dict. *)
Lemma get_field_value_ret obj keys w ev v w1 :
  get_field_value obj keys w = (ev, Ret v, w1) ->
  w1 = w /\ ev = []
  /\ match obj with
     | JObj items => v = SelectClaims.field items keys
     | _ => v = None
     end.
Proof.
  destruct obj as [| | | |s|l|items];
    try (destruct keys; [by intros [= <- <- <-] | discriminate]).
  - induction keys as [|key rest IH]; [by intros [= <- <- <-]|].
    cbn [get_field_value]. unfold has_key, getitem. rewrite bind_ret_l.
    destruct (contains key s); [discriminate|apply IH].
  - induction keys as [|key rest IH]; [by intros [= <- <- <-]|].
    cbn [get_field_value]. unfold has_key, getitem. rewrite bind_ret_l.
    destruct (existsb _ l); [discriminate|apply IH].
  - rewrite SelectClaims.get_field_value_obj. by intros [= <- <- <-].
Qed.

(** The candidate [c] comes from the offer [instance]: the offer is a
    dict whose instance type and zone, neither empty, are those of [c],
    whose price is a text that is not empty and that [float] reads as
    the price of [c]; and the cores of [c], at least [mn], are the count
    the offer carries or the count derived from the instance type. *)
Definition comes_from (mn : Z) (instance : json) (c : candidate) : Prop :=
  exists items price,
    instance = JObj items
    /\ SelectClaims.field items type_keys = Some (cand_instance_type c)
    /\ nonempty (cand_instance_type c) = true
    /\ SelectClaims.field items zone_keys = Some (cand_zone_id c)
    /\ nonempty (cand_zone_id c) = true
    /\ SelectClaims.field items price_keys = Some price
    /\ nonempty price = true
    /\ float_of_str price = Some (cand_price_per_core c)
    /\ mn <= cand_cpu_cores c
    /\ ((exists s, SelectClaims.field items cpu_keys = Some s
                   /\ nonempty s = true
                   /\ Py.int s = Some (cand_cpu_cores c))
        \/ parse_cpu_from_instance_type (cand_instance_type c)
           = inr (Some (cand_cpu_cores c))).

Lemma filter_step_comes_from instance mn mm arch w ev c w1 :
  filter_step instance mn mm arch w = (ev, Ret (Some c), w1) ->
  comes_from mn instance c.
Proof.
  unfold filter_step. intros E.
  apply bind_ret_inv in E as (? & x0 & ? & ? & G0 & E & ->).
  apply get_field_value_ret in G0 as (-> & -> & H0).
  destruct instance as [| | | |?|?|items].
  1-6: subst x0;
       repeat (apply bind_ret_inv in E as (? & ? & ? & ? & _ & E & ->));
       discriminate E.
  rewrite !(bind_ret _ _ _ _ _ _ (SelectClaims.get_field_value_obj _ _ _)) in E.
  rewrite !after_nil in E.
  destruct x0 as [it|]; [|discriminate E].
  destruct (SelectClaims.field items zone_keys) as [zone|] eqn:Hzone;
    [|discriminate E].
  destruct (SelectClaims.field items price_keys) as [price|] eqn:Hprice;
    [|discriminate E].
  destruct (nonempty it) eqn:Hit; [|discriminate E].
  destruct (nonempty zone) eqn:Hz; [|discriminate E].
  destruct (nonempty price) eqn:Hp; [|discriminate E].
  cbn [andb] in E.
  apply bind_ret_inv in E as (ev1 & cpu & w2 & ev2 & E1 & E & ->).
  destruct cpu as [[cpu|]|]; try discriminate E.
  2:{ apply bind_ret_inv in E as (? & ? & ? & ? & _ & E & ->). discriminate E. }
  assert ((exists s, SelectClaims.field items cpu_keys = Some s
                     /\ nonempty s = true /\ Py.int s = Some cpu)
          \/ parse_cpu_from_instance_type it = inr (Some cpu)) as Hcpu.
  { destruct (SelectClaims.field items cpu_keys) as [s|] eqn:Hs.
    - destruct (nonempty s) eqn:Hns; [|discriminate E1].
      destruct (Py.int s) as [n|] eqn:Hn; cbn [fmap option_fmap option_map] in E1.
      + injection E1 as _ <- _. left. by exists s.
      + right. destruct (parse_cpu_from_instance_type it) as [e|[n|]];
          [discriminate E1 | by injection E1 as _ <- _ | discriminate E1].
    - right. destruct (parse_cpu_from_instance_type it) as [e|[n|]];
        [discriminate E1 | by injection E1 as _ <- _ | discriminate E1]. }
  apply bind_ret_inv in E as (ev3 & mem & w3 & ev4 & _ & E & ->).
  destruct (cpu <? mn) eqn:Hmn; [discriminate E|]. apply Z.ltb_ge in Hmn.
  destruct (match mem with Some m => m | None => _ end) as [m|];
    [|discriminate E].
  destruct (m <? mm); [discriminate E|].
  destruct (float_of_str price) as [x|] eqn:Hx; [|discriminate E].
  injection E as _ <- _. exists items, price.
  cbn [cand_cpu_cores cand_instance_type cand_zone_id cand_price_per_core].
  by rewrite <- H0.
Qed.

(** A kept offer is the offer its candidate comes from. *)
Lemma keeps_comes_from mn mm arch instance c (w : world) :
  keeps mn mm arch instance c -> comes_from mn instance c.
Proof.
  intros K. destruct (K w) as [ev E]. by apply filter_step_comes_from in E.
Qed.

(** A computation that writes no line, to a file or to standard output. *)
Definition silent {A} (m : M A) : Prop :=
  forall w ev o w1, m w = (ev, o, w1) -> writes_of ev = [] /\ stdout_of ev = [].

Lemma silent_ret {A} (a : A) : silent (ret a).
Proof. by intros w ev o w1 [= <- <- <-]. Qed.

Lemma silent_raise {A} e : silent (raise (A:=A) e).
Proof. by intros w ev o w1 [= <- <- <-]. Qed.

Lemma silent_exit {A} n : silent (sys_exit (A:=A) n).
Proof. by intros w ev o w1 [= <- <- <-]. Qed.

Lemma silent_eprint l : silent (eprint l).
Proof. by intros w ev o w1 [= <- <- <-]. Qed.

Lemma silent_chmod p : silent (emit (Chmod p)).
Proof. by intros w ev o w1 [= <- <- <-]. Qed.

Lemma silent_now : silent now.
Proof. by intros w ev o w1 [= <- <- <-]. Qed.

Lemma silent_run cmd : silent (run cmd).
Proof.
  intros w ev o w1. unfold run.
  destruct (subprocess_run cmd w) as [r w2]. by intros [= <- <- <-].
Qed.

Lemma silent_bind {A B} (m : M A) (k : A -> M B) :
  silent m -> (forall a, silent (k a)) -> silent (bind m k).
Proof.
  intros Hm Hk w ev o w2. unfold bind.
  destruct (m w) as [[ev1 [a|n|e]] w1] eqn:E1.
  - destruct (k a w1) as [[ev2 o2] w3] eqn:E2. intros [= <- <- <-].
    destruct (Hm _ _ _ _ E1) as [W1 S1], (Hk _ _ _ _ _ E2) as [W2 S2].
    by rewrite writes_of_app, stdout_of_app, W1, W2, S1, S2.
  - intros [= <- <- <-]. by apply (Hm _ _ _ _ E1).
  - intros [= <- <- <-]. by apply (Hm _ _ _ _ E1).
Qed.

Lemma silent_error_exit {A} msg : silent (error_exit (A:=A) msg).
Proof. apply silent_bind; [apply silent_eprint|intros _; apply silent_exit]. Qed.

Ltac silent_step :=
  first
    [ apply silent_ret | apply silent_raise | apply silent_exit
    | apply silent_eprint | apply silent_chmod | apply silent_now
    | apply silent_run | apply silent_error_exit
    | apply silent_bind; [|intros ?]
    | match goal with
      | |- silent (match ?x with _ => _ end) => destruct x
      end ].

Lemma get_field_value_silent obj keys : silent (get_field_value obj keys).
Proof.
  induction keys as [|key rest IH]; [apply silent_ret|].
  cbn [get_field_value]. apply silent_bind.
  - unfold has_key. destruct obj; repeat silent_step.
  - intros [|]; [|done]. unfold getitem. repeat silent_step.
Qed.

Lemma filter_step_silent instance mn mm arch :
  silent (filter_step instance mn mm arch).
Proof.
  unfold filter_step.
  repeat (apply silent_bind; [apply get_field_value_silent|intros ?]).
  cbv zeta. repeat silent_step.
Qed.

Lemma filter_loop_silent instances mn mm arch mx : forall acc,
  silent (filter_loop instances mn mm arch mx acc).
Proof.
  induction instances as [|i rest IH]; intros acc; cbn [filter_loop].
  - apply silent_ret.
  - apply silent_bind; [apply filter_step_silent|]. intros [c|]; [|apply IH].
    cbv zeta. destruct (_ <=? _); [apply silent_ret|apply IH].
Qed.

Lemma query_spot_instances_silent bin key secret region mn mx mmn mmx a ex :
  silent (query_spot_instances bin key secret region mn mx mmn mmx a ex).
Proof.
  unfold query_spot_instances. cbv zeta.
  apply silent_bind; [apply silent_run|]. intros [code out err|msg|msg].
  - destruct (negb _); [apply silent_ret|].
    destruct (negb _); [apply silent_ret|]. repeat silent_step.
  - repeat silent_step.
  - repeat silent_step.
Qed.

Lemma strategy_loop_silent st ss : forall k, silent (strategy_loop st ss k).
Proof.
  induction ss as [|[[[c m] ex] desc] rest IH]; intros k; cbn [strategy_loop].
  - apply silent_ret.
  - cbv zeta. apply silent_bind; [destruct ex; apply silent_eprint|]. intros _.
    apply silent_bind; [apply query_spot_instances_silent|].
    intros [[|x data]|]; try apply IH. repeat silent_step.
Qed.

Lemma int_or_silent s d : silent (int_or s d).
Proof. unfold int_or. repeat silent_step. Qed.

Lemma get_env_var_silent mc name : silent (get_env_var mc name).
Proof. unfold get_env_var. repeat silent_step. Qed.

Lemma read_settings_silent mc : silent (read_settings mc).
Proof.
  unfold read_settings. cbv zeta.
  repeat first
    [ apply get_env_var_silent | apply int_or_silent
    | apply silent_ret | apply silent_raise | apply silent_eprint
    | apply silent_chmod | apply silent_error_exit
    | apply silent_bind; [|intros ?]
    | match goal with
      | |- silent (if ?x then _ else _) => destruct x
      end ].
Qed.

(** The candidates the loop of [filter_instances] adds are kept offers,
    in the order of the offers, and it stops at [mx] candidates. *)
Lemma filter_loop_picks mn mm arch mx instances : forall acc w ev cands w1,
  filter_loop instances mn mm arch mx acc w = (ev, Ret cands, w1) ->
  exists picked new,
    cands = acc ++ new
    /\ sublist picked instances
    /\ Forall2 (keeps mn mm arch) picked new
    /\ (Z.of_nat (length acc) < mx -> Z.of_nat (length cands) <= mx).
Proof.
  induction instances as [|i rest IH]; intros acc w ev cands w1; cbn [filter_loop].
  - intros [= <- <- <-]. exists [], []. rewrite app_nil_r.
    repeat split; [constructor|constructor|lia].
  - intros E. apply bind_ret_inv in E
      as (ev1 & kept & w2 & ev2 & E1 & E2 & ->).
    destruct kept as [c|].
    + apply filter_step_keeps in E1 as [-> K]. cbv zeta in E2.
      destruct (mx <=? Z.of_nat (length (acc ++ [c]))) eqn:Emx.
      * injection E2 as <- <- <-. exists [i], [c].
        repeat split.
        -- apply sublist_skip, sublist_nil_l.
        -- by constructor.
        -- rewrite length_app. cbn [length]. lia.
      * destruct (IH _ _ _ _ _ E2) as (picked & new & -> & Hs & Hk & Hlen).
        exists (i :: picked), (c :: new). rewrite <- app_assoc.
        repeat split; [by apply sublist_skip|by constructor|].
        intros _. rewrite app_assoc. apply Hlen. by apply Z.leb_gt.
    + destruct (IH _ _ _ _ _ E2) as (picked & new & -> & Hs & Hk & Hlen).
      exists picked, new. repeat split; [by apply sublist_cons|done..].
Qed.

(** One line of the candidates file, for the candidate [c]: the five
    fields, with the VSwitch of the zone of [c], not empty, and with the
    price per core times the cores times 1.2, to four decimals. *)
Definition line_of (mc : machine) (path : string) (c : candidate)
    (written : string * string) : Prop :=
  written.1 = path
  /\ exists vswitch_id total_price,
       get_vswitch_id (environ mc) (cand_zone_id c) = Some vswitch_id
       /\ nonempty vswitch_id = true
       /\ float_mul_int (cand_price_per_core c) (cand_cpu_cores c)
          = Some total_price
       /\ written.2
          = cand_instance_type c +:+ "|" +:+ cand_zone_id c +:+ "|"
            +:+ vswitch_id +:+ "|"
            +:+ format_4f (PrimFloat.mul total_price lit_1_2) +:+ "|"
            +:+ str_of_int (cand_cpu_cores c) +:+ lf.

Lemma write_candidates_lines mc path cands : forall w ev o w1,
  write_candidates mc path cands w = (ev, o, w1) ->
  stdout_of ev = []
  /\ exists written,
       sublist written cands /\ Forall2 (line_of mc path) written (writes_of ev).
Proof.
  induction cands as [|c rest IH]; intros w ev o w1; cbn [write_candidates].
  - intros [= <- <- <-]. split; [done|]. exists []. split; constructor.
  - destruct (get_vswitch_id (environ mc) (cand_zone_id c)) as [v|] eqn:Ev.
    2:{ intros E. destruct (IH _ _ _ _ E) as (S & written & Hs & Hl).
        split; [done|]. exists written. split; [by apply sublist_cons|done]. }
    destruct (nonempty v) eqn:Env.
    2:{ intros E. destruct (IH _ _ _ _ E) as (S & written & Hs & Hl).
        split; [done|]. exists written. split; [by apply sublist_cons|done]. }
    unfold price_limit.
    destruct (float_mul_int (cand_price_per_core c) (cand_cpu_cores c))
      as [t|] eqn:Et.
    + rewrite bind_ret_l, bind_emit.
      destruct (write_candidates mc path rest w) as [[ev2 o2] w2] eqn:E2.
      intros [= <- <- <-].
      destruct (IH _ _ _ _ E2) as (S & written & Hs & Hl).
      split; [by read_events|]. exists (c :: written).
      split; [by apply sublist_skip|]. read_events. cbn [app].
      constructor; [|done]. split; [done|]. by exists v, t.
    + intros [= <- <- <-]. split; [done|]. exists [].
      split; [apply sublist_nil_l|constructor].
Qed.

Lemma sublist_Forall2_l {A B} (R : A -> B -> Prop) l k k' :
  Forall2 R l k -> sublist k' k ->
  exists l', sublist l' l /\ Forall2 R l' k'.
Proof.
  intros HF. revert k'. induction HF as [|x y l k Hxy HF IH]; intros k' Hs.
  - apply sublist_nil_r in Hs as ->. exists []. split; constructor.
  - apply sublist_cons_r in Hs as [Hs|(k2 & -> & Hs)].
    + destruct (IH _ Hs) as (l' & Hl & HF'). exists l'.
      split; [by apply sublist_cons|done].
    + destruct (IH _ Hs) as (l' & Hl & HF'). exists (x :: l').
      split; [by apply sublist_skip|by constructor].
Qed.

(** The lines written are those of at most five candidates, kept from
    offers of [data], in the order of [data]. *)
Definition file_of (mc : machine) (st : settings) (data : list json)
    (lines : list (string * string)) : Prop :=
  exists (picked : list json) (written : list candidate),
    sublist picked data
    /\ Forall2 (keeps (min_cpu st) (min_mem st) (arch st)) picked written
    /\ (length written <= 5)%nat
    /\ Forall2 (line_of mc (tmp_name mc)) written lines.

(** The lines [report] writes. *)
Lemma report_lines mc st data w ev o w1 :
  report mc st data w = (ev, o, w1) ->
  file_of mc st data (writes_of ev).
Proof.
  assert (forall ev, writes_of ev = [] ->
            file_of mc st data (writes_of ev))
    as Hnone.
  { intros ev0 ->. exists [], []. split; [apply sublist_nil_l|].
    split; [constructor|]. split; [cbn; lia|constructor]. }
  unfold report, filter_instances.
  destruct (filter_loop data (min_cpu st) (min_mem st) (arch st) 5 [] w)
    as [[ev1 [cands|n|e]] w2] eqn:EF.
  2:{ rewrite (bind_exit _ _ _ _ _ _ EF). intros [= <- <- <-]. apply Hnone.
      by apply (filter_loop_silent _ _ _ _ _ _ _ _ _ _ EF). }
  2:{ rewrite (bind_uncaught _ _ _ _ _ _ EF). intros [= <- <- <-]. apply Hnone.
      by apply (filter_loop_silent _ _ _ _ _ _ _ _ _ _ EF). }
  destruct (filter_loop_silent _ _ _ _ _ _ _ _ _ _ EF) as [W1 _].
  destruct (filter_loop_picks _ _ _ _ _ _ _ _ _ _ EF)
    as (picked & new & Hc & Hs & Hk & Hlen).
  cbn [app] in Hc. subst new. specialize (Hlen ltac:(cbn; lia)).
  rewrite (bind_ret _ _ _ _ _ _ EF).
  destruct cands as [|c0 cands0] eqn:Ecands.
  { rewrite (bind_exit _ _ _ _ _ _ (error_exit_run _ _)).
    intros [= <- <- <-]. apply Hnone.
    by rewrite writes_of_app, W1. }
  rewrite <- Ecands in *. rewrite bind_ret_l.
  destruct (select_primary mc cands) as [[c v]|].
  2:{ rewrite error_exit_run. intros [= <- <- <-]. apply Hnone.
      by rewrite writes_of_app, W1. }
  destruct (nonempty (cand_instance_type c)).
  2:{ rewrite error_exit_run. intros [= <- <- <-]. apply Hnone.
      by rewrite writes_of_app, W1. }
  cbv zeta.
  destruct (float_mul_int (cand_price_per_core c) (cand_cpu_cores c)) as [t|].
  2:{ intros [= <- <- <-]. apply Hnone. by rewrite writes_of_app, W1. }
  rewrite bind_ret_l.
  destruct (writable mc (tmp_name mc)).
  2:{ intros [= <- <- <-]. apply Hnone. by rewrite writes_of_app, W1. }
  rewrite bind_ret_l.
  destruct (write_candidates mc (tmp_name mc) cands w2) as [[ev2 o2] w3] eqn:EW.
  destruct (write_candidates_lines _ _ _ _ _ _ _ EW) as (_ & written & Hw & Hl).
  destruct (sublist_Forall2_l _ _ _ _ Hk Hw) as (picked' & Hp & Hk').
  assert (writes_of ev = writes_of ev2 ->
          file_of mc st data (writes_of ev))
    as Hsome.
  { intros ->. exists picked', written.
    repeat split; [by etrans|done| |done].
    apply sublist_length in Hw. lia. }
  destruct o2 as [[]|n|e].
  - rewrite (bind_ret _ _ _ _ _ _ EW). rewrite !bind_print, !bind_eprint.
    unfold eprint, emit. cbn [after]. intros [= <- <- <-]. apply Hsome.
    read_events. rewrite W1. cbn [app]. by rewrite app_nil_r.
  - rewrite (bind_exit _ _ _ _ _ _ EW). intros [= <- <- <-]. apply Hsome.
    by rewrite writes_of_app, W1.
  - rewrite (bind_uncaught _ _ _ _ _ _ EW). intros [= <- <- <-]. apply Hsome.
    by rewrite writes_of_app, W1.
Qed.

(** Whatever [main] writes to a file is written to the temporary
    candidates file, and is either nothing or the lines of at most five
    candidates kept from the offers the advisor answered one of the
    strategies with. *)
Lemma main_writes mc w ev o w' :
  main mc w = (ev, o, w') ->
  writes_of ev = []
  \/ exists ev0 st w0 ev1 data w1,
       read_settings mc w = (ev0, Ret st, w0)
       /\ strategy_loop st
            (query_strategies (arch st) (min_cpu st) (max_cpu st)) 0 w0
          = (ev1, Ret (Some data), w1)
       /\ file_of mc st data (writes_of ev).
Proof.
  unfold main.
  destruct (read_settings mc w) as [[ev0 [st|n|e]] w0] eqn:E0.
  2:{ rewrite (bind_exit _ _ _ _ _ _ E0). intros [= <- <- <-]. left.
      by apply (read_settings_silent _ _ _ _ _ E0). }
  2:{ rewrite (bind_uncaught _ _ _ _ _ _ E0). intros [= <- <- <-]. left.
      by apply (read_settings_silent _ _ _ _ _ E0). }
  destruct (read_settings_silent _ _ _ _ _ E0) as [W0 _].
  rewrite (bind_ret _ _ _ _ _ _ E0), bind_now.
  destruct (strategy_loop st
              (query_strategies (arch st) (min_cpu st) (max_cpu st)) 0 w0)
    as [[ev1 [res|n|e]] w1] eqn:E1.
  2:{ rewrite (bind_exit _ _ _ _ _ _ E1). intros [= <- <- <-]. left.
      rewrite writes_of_app, W0. by apply (strategy_loop_silent _ _ _ _ _ _ _ E1). }
  2:{ rewrite (bind_uncaught _ _ _ _ _ _ E1). intros [= <- <- <-]. left.
      rewrite writes_of_app, W0. by apply (strategy_loop_silent _ _ _ _ _ _ _ E1). }
  destruct (strategy_loop_silent _ _ _ _ _ _ _ E1) as [W1 _].
  rewrite (bind_ret _ _ _ _ _ _ E1).
  destruct res as [[|x data]|].
  1,3: rewrite error_exit_run; intros [= <- <- <-]; left;
       by rewrite !writes_of_app, W0, W1.
  rewrite bind_now, bind_eprint.
  destruct (report mc st (x :: data) w1) as [[ev2 o2] w2] eqn:E2.
  intros [= <- <- <-]. right. exists ev0, st, w0, ev1, (x :: data), w1.
  split; [done|]. split; [done|].
  read_events. rewrite W0, W1. cbn [app].
  by apply (report_lines _ _ _ _ _ _ _ E2).
Qed.

End WithRuntime.

(** A machine set up for the Selector: the credentials, a minimum of two
    cores, a VSwitch for zone K, and the advisor in place. *)
Definition selector_machine : machine :=
  Fixture.machine_of
    (list_to_map [("ALIYUN_ACCESS_KEY_ID", "id"); ("ALIYUN_ACCESS_KEY_SECRET", "secret");
                  ("ALIYUN_REGION_ID", "cn-hangzhou"); ("MIN_CPU", "2");
                  ("ALIYUN_VSWITCH_ID_K", "vsw-k")])
    {[ "./spot-instance-advisor" := "" ]} ["select_instance.py"] "".

End FileClaims.

(** ** Claims about the UserData writer *)
Module WriterClaims.
Import Py PyFacts Base64 Base64Facts WriteUserData.

(** The writer is given the text [t]: in the environment variable when
    [t] is not empty, or, with the variable unset or empty, as what
    standard input holds between leading and trailing white space. *)
Definition supplied (mc : machine) (t : string) : Prop :=
  (environ mc !! "USER_DATA_B64" = Some t /\ nonempty t = true)
  \/ (env_get mc "USER_DATA_B64" "" = "" /\ strip (stdin mc) = t).

Section WithRuntime.
Context `{runtime}.

(** What [main] does with the text it is given, when there is one. *)
Lemma main_supplied mc w prog output_file rest t :
  argv mc = prog :: output_file :: rest ->
  supplied mc t ->
  main mc w
  = (if negb (nonempty t) then
       eprint "Error: User Data content is empty" ;; sys_exit 1
     else
       match b64decode t with
       | NotAscii => raise ValueError
       | BinasciiError e =>
           eprint ("Error: Failed to decode base64 User Data: "
                   +:+ decode_error_text e) ;;
           sys_exit 1
       | Bytes bs =>
           match utf8_decode bs with
           | None =>
               eprint ("Error: Failed to decode base64 User Data: "
                       +:+ unicode_error bs) ;;
               sys_exit 1
           | Some user_data =>
               if writable mc output_file then
                 emit (FileWriteBytes output_file user_data) ;;
                 eprint ("User Data file created: " +:+ output_file +:+ " ("
                         +:+ str_of_int (Z.of_nat (length user_data))
                         +:+ " bytes)")
               else
                 (match write_failure output_file user_data with
                  | Some n =>
                      emit (FileWriteBytes output_file (firstn n user_data))
                  | None => ret tt
                  end) ;;
                 eprint ("Error: Failed to write User Data to "
                         +:+ output_file +:+ ": " +:+ os_error output_file) ;;
                 sys_exit 1
           end
       end) w.
Proof.
  intros Ha Hs. unfold main. rewrite Ha. cbv zeta.
  assert ((if nonempty (env_get mc "USER_DATA_B64" "")
           then env_get mc "USER_DATA_B64" "" else strip (stdin mc)) = t) as ->;
    [|done].
  destruct Hs as [[E N]|[E <-]].
  - unfold env_get. by rewrite E, N.
  - by rewrite E.
Qed.

(** C8, as amended.  For every byte sequence that is not empty and is
    well-formed UTF-8: when the writer is given the base64 encoding of
    it (in the environment variable, else on standard input) and a
    destination path that can be written, it stores exactly these bytes
    at the path, reports their number and returns.  The writer ends with
    exit status 1 and an error message when no destination is given,
    when the text it is given is empty, and when the base64 decoding
    fails: with the writer's own message when the decoder raises
    [binascii.Error], and with the uncaught [ValueError] the decoder
    raises for a text with a character outside ASCII. *)
Theorem writer_round_trip (bs : list byte) :
  bs <> [] -> utf8_valid (length bs) bs = true ->
  (forall mc w prog output_file rest,
     argv mc = prog :: output_file :: rest ->
     writable mc output_file = true ->
     supplied mc (b64encode bs) ->
     main mc w
     = ([FileWriteBytes output_file bs;
         Stderr ("User Data file created: " +:+ output_file +:+ " ("
                 +:+ str_of_int (Z.of_nat (length bs)) +:+ " bytes)")],
        Ret tt, w))
  /\ (forall mc w,
        (length (argv mc) < 2)%nat ->
        main mc w = ([Stderr "Usage: write_user_data.py <output_file>"], Exit 1, w))
  /\ (forall mc w prog output_file rest,
        argv mc = prog :: output_file :: rest ->
        supplied mc "" ->
        main mc w = ([Stderr "Error: User Data content is empty"], Exit 1, w))
  /\ (forall mc w prog output_file rest t e,
        argv mc = prog :: output_file :: rest ->
        supplied mc t ->
        b64decode t = BinasciiError e ->
        main mc w
        = ([Stderr ("Error: Failed to decode base64 User Data: "
                    +:+ decode_error_text e)], Exit 1, w))
  /\ (forall mc w prog output_file rest t,
        argv mc = prog :: output_file :: rest ->
        supplied mc t ->
        b64decode t = NotAscii ->
        main mc w = ([], Uncaught ValueError, w)
        /\ exit_status (Uncaught (A:=unit) ValueError) = 1).
Proof.
  intros Hne Hvalid. split; [|split; [|split; [|split]]].
  - intros mc w prog out rest Ha Hw Hs.
    rewrite (main_supplied _ _ _ _ _ _ Ha Hs).
    rewrite (b64encode_nonempty _ Hne), b64decode_b64encode. cbn [negb].
    unfold utf8_decode. by rewrite Hvalid, Hw.
  - intros mc w Hl. unfold main.
    by destruct (argv mc) as [|prog [|out rest]]; [..|cbn in Hl; lia].
  - intros mc w prog out rest Ha Hs.
    by rewrite (main_supplied _ _ _ _ _ _ Ha Hs).
  - intros mc w prog out rest t e Ha Hs He.
    rewrite (main_supplied _ _ _ _ _ _ Ha Hs), He.
    by destruct t; [vm_compute in He|].
  - intros mc w prog out rest t Ha Hs He.
    rewrite (main_supplied _ _ _ _ _ _ Ha Hs), He.
    by destruct t; [vm_compute in He|].
Qed.

(** Bytes that are not UTF-8 are refused with the writer's message. *)
Lemma main_not_utf8 mc w prog output_file rest t bad :
  argv mc = prog :: output_file :: rest ->
  supplied mc t -> nonempty t = true ->
  b64decode t = Bytes bad -> utf8_decode bad = None ->
  main mc w
  = ([Stderr ("Error: Failed to decode base64 User Data: "
              +:+ unicode_error bad)], Exit 1, w).
Proof.
  intros Ha Hs Hn Hb Hu.
  by rewrite (main_supplied _ _ _ _ _ _ Ha Hs), Hn, Hb, Hu.
Qed.

(** A text without any base64 character decodes to no bytes, which is
    no failure of the decoding: the writer stores an empty file. *)
Lemma main_no_data mc w prog output_file rest t :
  argv mc = prog :: output_file :: rest ->
  writable mc output_file = true ->
  supplied mc t -> nonempty t = true ->
  b64decode t = Bytes [] ->
  main mc w
  = ([FileWriteBytes output_file [];
      Stderr ("User Data file created: " +:+ output_file +:+ " (0 bytes)")],
     Ret tt, w).
Proof.
  intros Ha Hw Hs Hn Hb.
  by rewrite (main_supplied _ _ _ _ _ _ Ha Hs), Hn, Hb, Hw.
Qed.

End WithRuntime.

(** The bytes of a two-line shell script: the shebang line and [exit 0]. *)
Definition script : list byte :=
  [x23; x21; x2f; x62; x69; x6e; x2f; x73; x68; x0a;
   x65; x78; x69; x74; x20; x30; x0a].

(** C8 fails for the empty payload: its encoding is the empty text, and
    the writer stops with status 1 and writes no file. *)
Lemma empty_payload_rejected :
  let mc := Fixture.machine_of {[ "USER_DATA_B64" := b64encode [] ]} ∅
              ["write_user_data.py"; "/tmp/user_data.sh"] "" in
  utf8_decode [] = Some []
  /\ supplied mc (b64encode [])
  /\ main (H:=Fixture.scripted) mc []
     = ([Stderr "Error: User Data content is empty"], Exit 1, []).
Proof. cbv zeta. split; [done|]. split; [by right|done]. Qed.

(** C8 as amended, for the script above given in the environment. *)
Lemma writer_round_trip_witness :
  let mc := Fixture.machine_of {[ "USER_DATA_B64" := b64encode script ]} ∅
              ["write_user_data.py"; "/tmp/user_data.sh"] "" in
  main (H:=Fixture.scripted) mc []
  = ([FileWriteBytes "/tmp/user_data.sh" script;
      Stderr "User Data file created: /tmp/user_data.sh (17 bytes)"],
     Ret tt, []).
Proof.
  exact (proj1 (writer_round_trip (H:=Fixture.scripted) script
                  ltac:(discriminate) eq_refl)
           (Fixture.machine_of {[ "USER_DATA_B64" := b64encode script ]} ∅
              ["write_user_data.py"; "/tmp/user_data.sh"] "")
           [] "write_user_data.py" "/tmp/user_data.sh" [] eq_refl eq_refl
           (or_introl (conj eq_refl eq_refl))).
Defined.

End WriterClaims.

(** ** More about the UserData writer *)
Module WriterFacts.
Import Py PyFacts Base64 Base64Facts WriteUserData.

(** A character [a2b_base64] reads: one of the alphabet, or the padding
    character. *)
Definition significant (c : ascii) : bool :=
  Ascii.eqb c "=" || match dec_char c with Some _ => true | None => false end.

(** The characters of [s] that satisfy [p], in order. *)
Fixpoint keep (p : ascii -> bool) (s : string) : string :=
  match s with
  | EmptyString => EmptyString
  | String c r => if p c then String c (keep p r) else keep p r
  end.

(** The file writes among the events of the writer. *)
Definition byte_writes_of (ev : list event) : list (string * list byte) :=
  omap (fun e => match e with
                 | FileWriteBytes p bs => Some (p, bs)
                 | _ => None
                 end) ev.

Lemma a2b_base64_keep s : forall quad_pos leftchar pads,
  a2b_base64 s quad_pos leftchar pads
  = a2b_base64 (keep significant s) quad_pos leftchar pads.
Proof.
  induction s as [|c s IH]; intros q l p; [done|].
  cbn [keep]. unfold significant.
  destruct (Ascii.eqb c "=") eqn:Ec.
  - cbn [orb a2b_base64]. rewrite Ec.
    destruct (2 <=? q)%N; [|apply IH].
    destruct (4 <=? q + (p + 1))%N; [done|apply IH].
  - cbn [orb]. destruct (dec_char c) as [v|] eqn:Ed.
    + cbn [a2b_base64]. rewrite Ec, Ed.
      destruct (q =? 0)%N; [apply IH|].
      destruct (q =? 1)%N; [by rewrite IH|].
      destruct (q =? 2)%N; by rewrite IH.
    + cbn [a2b_base64]. rewrite Ec, Ed. apply IH.
Qed.

Section WithRuntime.
Context `{runtime}.

(** X1.  The writer accepts a base64 text that is wrapped or spaced:
    when the environment variable holds an ASCII text from which the
    characters outside the base64 alphabet and the padding character
    being removed leaves the encoding of a non-empty, well-formed UTF-8
    byte sequence, the writer stores exactly these bytes at the
    destination and reports their number. *)
Theorem wrapped_base64_accepted mc w prog output_file rest t bs :
  argv mc = prog :: output_file :: rest ->
  writable mc output_file = true ->
  environ mc !! "USER_DATA_B64" = Some t ->
  Py.all (fun c => (code c <? 128)%N) t = true ->
  keep significant t = b64encode bs ->
  bs <> [] -> utf8_valid (length bs) bs = true ->
  main mc w
  = ([FileWriteBytes output_file bs;
      Stderr ("User Data file created: " +:+ output_file +:+ " ("
              +:+ str_of_int (Z.of_nat (length bs)) +:+ " bytes)")],
     Ret tt, w).
Proof.
  intros Ha Hw He Hascii Hk Hne Hv.
  assert (nonempty t = true) as Hnt.
  { destruct t; [|done]. cbn in Hk. destruct bs as [|a [|b [|c bs]]]; done. }
  assert (b64decode t = Bytes bs) as Hd.
  { unfold b64decode. by rewrite Hascii, a2b_base64_keep, Hk, a2b_b64encode. }
  unfold main. rewrite Ha. unfold env_get. rewrite He. cbv zeta.
  rewrite Hnt. cbv iota. rewrite Hnt. cbn [negb]. rewrite Hd.
  unfold utf8_decode.
  by rewrite Hv, Hw.
Qed.

(** X2.  What the writer leaves behind.  Every run leaves the world
    as it was and prints nothing on standard output.  A run returns only
    after it has written once, to the path of its first argument, the
    whole of a well-formed UTF-8 byte sequence, and reported its length.
    Every other run ends with exit status 1, and it has written nothing,
    except where the write itself failed after the file was opened: the
    destination, created or emptied by the opening, then holds an
    initial part of the bytes, and the run ends with the error line of
    the failed write. *)
Theorem writer_write_or_exit mc w :
  (main mc w).2 = w
  /\ stdout_of (main mc w).1.1 = []
  /\ (((main mc w).1.2 = Ret tt
       /\ exists prog output_file rest bs,
            argv mc = prog :: output_file :: rest
            /\ utf8_valid (length bs) bs = true
            /\ (main mc w).1.1
               = [FileWriteBytes output_file bs;
                  Stderr ("User Data file created: " +:+ output_file +:+ " ("
                          +:+ str_of_int (Z.of_nat (length bs)) +:+ " bytes)")])
      \/ (exit_status (main mc w).1.2 = 1
          /\ (byte_writes_of (main mc w).1.1 = []
              \/ exists prog output_file rest bs n,
                   argv mc = prog :: output_file :: rest
                   /\ utf8_valid (length bs) bs = true
                   /\ writable mc output_file = false
                   /\ write_failure output_file bs = Some n
                   /\ (main mc w).1.1
                      = [FileWriteBytes output_file (firstn n bs);
                         Stderr ("Error: Failed to write User Data to "
                                 +:+ output_file +:+ ": "
                                 +:+ os_error output_file)]))).
Proof.
  unfold main. destruct (argv mc) as [|prog [|out rest]] eqn:Ha.
  1,2: by repeat split; try (right; split; [|left]).
  cbv zeta.
  destruct (negb _); [by repeat split; try (right; split; [|left])|].
  destruct (b64decode _) as [bs|e|];
    [|by repeat split; try (right; split; [|left])..].
  unfold utf8_decode. destruct (utf8_valid (length bs) bs) eqn:Hv.
  2: by repeat split; try (right; split; [|left]).
  destruct (writable mc out) eqn:Hw.
  - split; [done|]. split; [done|]. left. split; [done|].
    by exists prog, out, rest, bs.
  - destruct (write_failure out bs) as [n|] eqn:Hf.
    + split; [done|]. split; [done|]. right. split; [done|]. right.
      by exists prog, out, rest, bs, n.
    + split; [done|]. split; [done|]. right. split; [done|]. by left.
Qed.

(** X3.  A non-empty environment variable wins over standard input:
    two machines that differ in what standard input holds, and have the
    same non-empty [USER_DATA_B64], arguments and writable paths, run
    the writer alike. *)
Theorem environment_before_stdin mc mc' w t :
  environ mc !! "USER_DATA_B64" = Some t -> nonempty t = true ->
  environ mc' = environ mc -> argv mc' = argv mc ->
  (forall path, writable mc' path = writable mc path) ->
  main mc' w = main mc w.
Proof.
  intros He Hn Henv Hargv Hw. unfold main, env_get.
  rewrite Hargv, Henv, He. destruct (argv mc) as [|prog [|out rest]]; [done..|].
  cbv zeta iota. rewrite Hn. cbv iota. by rewrite Hw.
Qed.

End WithRuntime.

(** The bytes of a two-line shell script. *)
Definition boot_script : list byte :=
  [x23; x21; x2f; x62; x69; x6e; x2f; x73; x68; x0a;
   x65; x78; x69; x74; x20; x30; x0a].

(** X1 at the encoding of [boot_script], wrapped after twelve
    characters. *)
Lemma wrapped_base64_accepted_witness :
  let t := "IyEvYmluL3No" +:+ lf +:+ "CmV4aXQgMAo=" +:+ lf in
  main (H:=Fixture.scripted)
    (Fixture.machine_of {[ "USER_DATA_B64" := t ]} ∅
       ["write_user_data.py"; "/tmp/user_data.sh"] "") []
  = ([FileWriteBytes "/tmp/user_data.sh" boot_script;
      Stderr "User Data file created: /tmp/user_data.sh (17 bytes)"],
     Ret tt, []).
Proof.
  intros t.
  exact (wrapped_base64_accepted (H:=Fixture.scripted)
           (Fixture.machine_of {[ "USER_DATA_B64" := t ]} ∅
              ["write_user_data.py"; "/tmp/user_data.sh"] "")
           [] "write_user_data.py" "/tmp/user_data.sh" [] t boot_script
           eq_refl eq_refl eq_refl eq_refl eq_refl ltac:(discriminate) eq_refl).
Defined.

(** X3 at two machines, one with an empty standard input and one whose
    standard input holds another payload. *)
Lemma environment_before_stdin_witness :
  main (H:=Fixture.scripted)
    (Fixture.machine_of {[ "USER_DATA_B64" := "IyEvYmluL3NoCmV4aXQgMAo=" ]} ∅
       ["write_user_data.py"; "/tmp/user_data.sh"] "aGk=") []
  = main (H:=Fixture.scripted)
      (Fixture.machine_of {[ "USER_DATA_B64" := "IyEvYmluL3NoCmV4aXQgMAo=" ]} ∅
         ["write_user_data.py"; "/tmp/user_data.sh"] "") [].
Proof.
  exact (environment_before_stdin (H:=Fixture.scripted)
           (Fixture.machine_of {[ "USER_DATA_B64" := "IyEvYmluL3NoCmV4aXQgMAo=" ]} ∅
              ["write_user_data.py"; "/tmp/user_data.sh"] "")
           (Fixture.machine_of {[ "USER_DATA_B64" := "IyEvYmluL3NoCmV4aXQgMAo=" ]} ∅
              ["write_user_data.py"; "/tmp/user_data.sh"] "aGk=")
           [] "IyEvYmluL3NoCmV4aXQgMAo=" eq_refl eq_refl eq_refl eq_refl
           (fun _ => eq_refl)).
Defined.

End WriterFacts.

(** ** [create_spot_instance.py]: the user data and the price limit *)
Module UserData.
Import Py.

(** [s.replace("\r\n", "\n")]: left to right, each carriage return
    with the line feed after it becomes a line feed. *)
Fixpoint replace_crlf (s : string) : string :=
  match s with
  | EmptyString => EmptyString
  | String c t =>
      match t with
      | String d r =>
          if Ascii.eqb c Create.CR && Ascii.eqb d LF
          then String LF (replace_crlf r)
          else String c (replace_crlf t)
      | EmptyString => String c EmptyString
      end
  end.

(** [s.replace("\r", "\n")]. *)
Fixpoint replace_cr (s : string) : string :=
  match s with
  | EmptyString => EmptyString
  | String c r =>
      String (if Ascii.eqb c Create.CR then LF else c) (replace_cr r)
  end.

(** [s.replace("\r\n", "\n").replace("\r", "\n")]. *)
Definition normalized (s : string) : string := replace_cr (replace_crlf s).

(** [len(s.encode("utf-8"))]. *)
Definition utf8_size (s : string) : Z :=
  Z.of_nat (length (Base64.utf8_encode s)).

Section WithRuntime.
Context `{runtime}.

(** [read_user_data].  The text of a file is what reading it in text
    mode gives: its line endings translated. *)
Definition read_user_data (mc : machine)
    (user_data_file user_data : option string) : M (option string) :=
  let from_file :=
    match user_data_file with
    | Some path => if nonempty path then files mc !! path else None
    | None => None
    end in
  match from_file with
  | Some text =>
      let raw_data := Create.universal_newlines text in
      (* Normalize line endings (remove CRLF) *)
      let user_data := normalized raw_data in
      let size := utf8_size user_data in
      eprint ("Using User Data from file: " +:+ default "" user_data_file
              +:+ " (" +:+ str_of_int size +:+ " bytes, normalized)") ;;
      ret (Some user_data)
  | None =>
      if Create.given user_data then
        (* Normalize line endings *)
        let user_data := normalized (default "" user_data) in
        let size := utf8_size user_data in
        eprint ("Using User Data from environment variable ("
                +:+ str_of_int size +:+ " bytes, normalized)") ;;
        ret (Some user_data)
      else
        eprint "No User Data provided" ;;
        ret None
  end.

(** [ensure_shebang]. *)
Definition ensure_shebang (user_data : string) : M string :=
  if negb (startswith "#!" user_data) then
    eprint "User Data missing shebang; prepending #!/bin/bash" ;;
    ret ("#!/bin/bash" +:+ lf +:+ user_data)
  else ret user_data.

(** The user data as [main] prepares it: read, and given a shebang
    when it is not empty. *)
Definition user_data_content_of (mc : machine) : M (option string) :=
  let user_data_file := environ mc !! "USER_DATA_FILE" in
  let user_data := environ mc !! "USER_DATA" in
  let* user_data_content := read_user_data mc user_data_file user_data in
  match user_data_content with
  | Some content =>
      if nonempty content then
        let* content := ensure_shebang content in
        ret (Some content)
      else ret (Some content)
  | None => ret None
  end.

(** [calculate_spot_price_limit]; a missing number is [None]. *)
Definition calculate_spot_price_limit (price_per_core : option float)
    (cpu_cores : option Z) (default_limit : option string)
  : M (option string) :=
  match price_per_core, cpu_cores with
  | Some price, Some cores =>
      if negb (PrimFloat.eqb price 0) && negb (cores =? 0) then
        match float_mul_int price cores with
        | Some total_price =>
            let spot_price_limit := PrimFloat.mul total_price lit_1_2 in
            ret (Some (format_4f spot_price_limit))
        | None => raise OverflowError
        end
      else ret default_limit
  | _, _ => ret default_limit
  end.

End WithRuntime.
End UserData.

(** ** Facts about the user data *)
Module UserDataFacts.
Import Py PyFacts Base64 Base64Facts UserData.

(** No character of [s] is a carriage return. *)
Definition no_cr (s : string) : bool :=
  Py.all (fun c => negb (Ascii.eqb c Create.CR)) s.

Lemma replace_cr_no_cr s : no_cr (replace_cr s) = true.
Proof.
  induction s as [|c s IH]; [done|]. cbn [replace_cr no_cr Py.all].
  fold (no_cr (replace_cr s)). rewrite IH.
  by destruct (Ascii.eqb c Create.CR) eqn:E; [|rewrite E].
Qed.

Lemma replace_cr_id s : no_cr s = true -> replace_cr s = s.
Proof.
  induction s as [|c s IH]; [done|]. cbn [replace_cr no_cr Py.all].
  intros [Hc Hs]%andb_true_iff. apply negb_true_iff in Hc.
  by rewrite Hc, (IH Hs).
Qed.

Lemma replace_crlf_id s : no_cr s = true -> replace_crlf s = s.
Proof.
  induction s as [|c s IH]; [done|]. cbn [no_cr Py.all].
  intros [Hc Hs]%andb_true_iff. apply negb_true_iff in Hc.
  cbn [replace_crlf]. destruct s as [|d r]; [done|].
  rewrite Hc. cbn [andb]. by rewrite (IH Hs).
Qed.

(** Induction two characters at a time. *)
Lemma string_ind2 (P : string -> Prop) :
  P "" -> (forall c, P (String c "")) ->
  (forall c d r, P r -> P (String d r) -> P (String c (String d r))) ->
  forall s, P s.
Proof.
  intros H0 H1 H2.
  assert (forall s, P s /\ forall c, P (String c s)) as Hs.
  { induction s as [|d r [IH1 IH2]]; [by split|].
    split; [apply IH2|]. intros c. apply H2; [done|apply IH2]. }
  intros s. apply Hs.
Qed.

Lemma replace_crlf_cons c d r :
  replace_crlf (String c (String d r))
  = if Ascii.eqb c Create.CR && Ascii.eqb d LF
    then String LF (replace_crlf r)
    else String c (replace_crlf (String d r)).
Proof. reflexivity. Qed.

Lemma universal_newlines_cons c d r :
  Create.universal_newlines (String c (String d r))
  = if Ascii.eqb c Create.CR then
      String LF (if Ascii.eqb d LF then Create.universal_newlines r
                 else Create.universal_newlines (String d r))
    else String c (Create.universal_newlines (String d r)).
Proof. reflexivity. Qed.

Lemma normalized_universal_newlines s :
  normalized s = Create.universal_newlines s.
Proof.
  unfold normalized. induction s as [|c|c d r IH1 IH2] using string_ind2.
  - done.
  - cbn. by destruct (Ascii.eqb c Create.CR).
  - rewrite replace_crlf_cons, universal_newlines_cons.
    destruct (Ascii.eqb c Create.CR) eqn:Ec; cbn [andb].
    + destruct (Ascii.eqb d LF) eqn:Ed.
      * cbn [replace_cr]. by rewrite IH1.
      * cbn [replace_cr]. by rewrite Ec, IH2.
    + cbn [replace_cr]. by rewrite Ec, IH2.
Qed.

Lemma universal_newlines_no_cr s : no_cr (Create.universal_newlines s) = true.
Proof. rewrite <- normalized_universal_newlines. apply replace_cr_no_cr. Qed.

Lemma normalized_id t : no_cr t = true -> normalized t = t.
Proof.
  intros Ht. unfold normalized. by rewrite (replace_crlf_id _ Ht), replace_cr_id.
Qed.

Lemma normalized_read text :
  normalized (Create.universal_newlines text) = Create.universal_newlines text.
Proof. apply normalized_id, universal_newlines_no_cr. Qed.

(** X4.  The normalisation of line endings: the result holds no
    carriage return; a text without carriage returns is left as it is,
    so normalising twice is normalising once; and the result is the text
    with every carriage return and line feed pair, and every other
    carriage return, turned into one line feed, which is also what
    reading the text from a file gives. *)
Theorem normalized_line_endings s :
  no_cr (normalized s) = true
  /\ (no_cr s = true -> normalized s = s)
  /\ normalized (normalized s) = normalized s
  /\ normalized s = Create.universal_newlines s
  /\ normalized (Create.universal_newlines s) = Create.universal_newlines s.
Proof.
  split; [apply replace_cr_no_cr|]. split; [apply normalized_id|].
  split; [apply normalized_id, replace_cr_no_cr|].
  split; [apply normalized_universal_newlines|].
  apply normalized_read.
Qed.

Lemma utf8_encode_char_valid n :
  (n < 256)%N ->
  (if n <? 128 then in_range 0 127 (low_byte n)
   else negb (in_range 0 127 (low_byte (N.lor 192 (N.shiftr n 6))))
        && in_range 194 223 (low_byte (N.lor 192 (N.shiftr n 6)))
        && in_range 128 191 (low_byte (N.lor 128 (N.land n 63))))%N = true.
Proof.
  intros Hn.
  assert (below 256 (fun n =>
    if n <? 128 then in_range 0 127 (low_byte n)
    else negb (in_range 0 127 (low_byte (N.lor 192 (N.shiftr n 6))))
         && in_range 194 223 (low_byte (N.lor 192 (N.shiftr n 6)))
         && in_range 128 191 (low_byte (N.lor 128 (N.land n 63))))%N = true)
    as Hb by (vm_compute; reflexivity).
  exact (below_spec _ _ n Hb Hn).
Qed.

(** The encoding of a text is well-formed UTF-8. *)
Lemma utf8_encode_valid s : forall fuel,
  (length (utf8_encode s) <= fuel)%nat ->
  utf8_valid fuel (utf8_encode s) = true.
Proof.
  induction s as [|c s IH]; intros fuel Hf; [by destruct fuel|].
  pose proof (utf8_encode_char_valid (code c) (N_ascii_bounded c)) as Hc.
  cbn [utf8_encode] in *. cbv zeta in *.
  destruct (code c <? 128)%N.
  - destruct fuel as [|fuel]; cbn [length] in Hf; [lia|].
    cbn [utf8_valid]. rewrite Hc. apply IH. lia.
  - apply andb_true_iff in Hc as [[H1 H2]%andb_true_iff H3].
    apply negb_true_iff in H1.
    destruct fuel as [|fuel]; cbn [length] in Hf; [lia|].
    cbn [utf8_valid]. rewrite H1, H2, H3. apply IH. lia.
Qed.

Lemma b64encode_length bs :
  String.length (b64encode bs) = (4 * ((length bs + 2) / 3))%nat.
Proof.
  induction bs as [|a|a b|a b c bs IH] using list_ind3; [done..|].
  cbn [b64encode String.length length]. rewrite IH.
  replace (S (S (S (length bs))) + 2)%nat with (1 * 3 + (length bs + 2))%nat by lia.
  rewrite Nat.div_add_l by lia. lia.
Qed.

(** The text of the file [read_user_data] reads, if it reads one. *)
Definition file_text (mc : machine) (user_data_file : option string)
  : option string :=
  match user_data_file with
  | Some path => if nonempty path then files mc !! path else None
  | None => None
  end.

Section WithRuntime.
Context `{runtime}.

Lemma read_user_data_file mc user_data_file user_data w text :
  file_text mc user_data_file = Some text ->
  read_user_data mc user_data_file user_data w
  = ([Stderr ("Using User Data from file: " +:+ default "" user_data_file
              +:+ " (" +:+ str_of_int (utf8_size (Create.universal_newlines text))
              +:+ " bytes, normalized)")],
     Ret (Some (Create.universal_newlines text)), w).
Proof.
  intros Hf. unfold read_user_data. fold (file_text mc user_data_file).
  rewrite Hf. cbv zeta. by rewrite normalized_read.
Qed.

Lemma read_user_data_variable mc user_data_file text w :
  file_text mc user_data_file = None ->
  nonempty text = true ->
  read_user_data mc user_data_file (Some text) w
  = ([Stderr ("Using User Data from environment variable ("
              +:+ str_of_int (utf8_size (normalized text))
              +:+ " bytes, normalized)")],
     Ret (Some (normalized text)), w).
Proof.
  intros Hf Hn. unfold read_user_data.
  fold (file_text mc user_data_file). rewrite Hf.
  cbn [Create.given default from_option id]. by rewrite Hn.
Qed.

Lemma read_user_data_nothing mc user_data_file user_data w :
  file_text mc user_data_file = None ->
  Create.given user_data = false ->
  read_user_data mc user_data_file user_data w
  = ([Stderr "No User Data provided"], Ret None, w).
Proof.
  intros Hf Hg. unfold read_user_data.
  fold (file_text mc user_data_file). by rewrite Hf, Hg.
Qed.

(** Reading the user data prints one line on standard error and gives,
    if anything, a text without carriage returns. *)
Lemma read_user_data_returns mc user_data_file user_data w :
  exists l raw,
    read_user_data mc user_data_file user_data w = ([Stderr l], Ret raw, w)
    /\ match raw with Some t => no_cr t = true | None => True end.
Proof.
  destruct (file_text mc user_data_file) as [text|] eqn:Hf.
  - eexists _, _. split; [apply (read_user_data_file _ _ _ _ _ Hf)|].
    apply universal_newlines_no_cr.
  - destruct (Create.given user_data) eqn:Hg.
    + destruct user_data as [text|]; [|done]. eexists _, _.
      split; [apply (read_user_data_variable _ _ _ _ Hf Hg)|].
      apply replace_cr_no_cr.
    + eexists _, _. split; [apply (read_user_data_nothing _ _ _ _ Hf Hg)|]. done.
Qed.

(** X5.  Where [read_user_data] takes the user data from.  A named file
    that exists is read and wins, even when it is empty (the result is
    then the empty text, whatever the environment variable holds);
    without such a file a non-empty text of the variable is taken; with
    neither, the result is [None].  The text comes back with its line
    endings normalised, and one line on standard error tells the source
    and the size in bytes. *)
Theorem read_user_data_sources mc user_data_file user_data w :
  (forall text,
     file_text mc user_data_file = Some text ->
     read_user_data mc user_data_file user_data w
     = ([Stderr ("Using User Data from file: " +:+ default "" user_data_file
                 +:+ " (" +:+ str_of_int (utf8_size (Create.universal_newlines text))
                 +:+ " bytes, normalized)")],
        Ret (Some (Create.universal_newlines text)), w))
  /\ (file_text mc user_data_file = Some "" ->
      read_user_data mc user_data_file user_data w
      = ([Stderr ("Using User Data from file: " +:+ default "" user_data_file
                  +:+ " (0 bytes, normalized)")],
         Ret (Some ""), w))
  /\ (forall text,
      file_text mc user_data_file = None ->
      user_data = Some text -> nonempty text = true ->
      read_user_data mc user_data_file user_data w
      = ([Stderr ("Using User Data from environment variable ("
                  +:+ str_of_int (utf8_size (normalized text))
                  +:+ " bytes, normalized)")],
         Ret (Some (normalized text)), w))
  /\ (file_text mc user_data_file = None ->
      Create.given user_data = false ->
      read_user_data mc user_data_file user_data w
      = ([Stderr "No User Data provided"], Ret None, w)).
Proof.
  split; [intros text; apply read_user_data_file|].
  split; [intros Hf; by rewrite (read_user_data_file _ _ _ _ _ Hf)|].
  split.
  - intros text Hf -> Hn. by apply read_user_data_variable.
  - apply read_user_data_nothing.
Qed.

(** The user data as [main] prepares it, on a machine where the named
    file, if there is one, holds text. *)
Lemma user_data_content_of_result mc w :
  exists ev result,
    user_data_content_of mc w = (ev, Ret result, w)
    /\ runs_of ev = [] /\ stdout_of ev = []
    /\ match result with
       | None => True
       | Some content =>
           no_cr content = true
           /\ (nonempty content = true -> startswith "#!" content = true)
           /\ exists ev0 raw,
                read_user_data mc (environ mc !! "USER_DATA_FILE")
                  (environ mc !! "USER_DATA") w = (ev0, Ret (Some raw), w)
                /\ (content = raw
                    \/ (nonempty raw = true /\ startswith "#!" raw = false
                        /\ content = "#!/bin/bash" +:+ lf +:+ raw))
       end.
Proof.
  unfold user_data_content_of. cbv zeta.
  set (f := environ mc !! "USER_DATA_FILE"). set (u := environ mc !! "USER_DATA").
  destruct (read_user_data_returns mc f u w) as (l & raw & E & Hraw).
  rewrite (bind_ret _ _ _ _ _ _ E). destruct raw as [raw|].
  2:{ by eexists _, _. }
  destruct (nonempty raw) eqn:Hn.
  2:{ eexists _, _. split; [reflexivity|]. split; [done|]. split; [done|].
      split; [done|]. split; [by rewrite Hn|]. exists [Stderr l], raw. by split; [|left]. }
  unfold ensure_shebang. destruct (startswith "#!" raw) eqn:Hs; cbn [negb].
  - rewrite bind_ret_l. eexists _, _. split; [reflexivity|].
    split; [done|]. split; [done|]. split; [done|]. split; [done|].
    exists [Stderr l], raw. by split; [|left].
  - rewrite bind_bind, bind_eprint, bind_ret_l.
    eexists _, _. split; [reflexivity|].
    split; [done|]. split; [done|]. split; [exact Hraw|]. split; [done|].
    exists [Stderr l], raw. split; [done|]. by right.
Qed.

(** X6.  The user data [main] goes on with.  When preparing it
    returns, it has run no command, printed nothing on standard output
    and left the world as it was.  A text it gives holds no carriage
    return; it is what [read_user_data] gave, with the line
    [#!/bin/bash] put in front when that text is not empty and does not
    start with [#!], so a non-empty result starts with [#!].  (Whether
    it returns is not said: reading a file that is no UTF-8 text raises
    an error nothing catches.) *)
Theorem prepared_user_data mc w ev result w1 :
  user_data_content_of mc w = (ev, Ret result, w1) ->
  w1 = w /\ runs_of ev = [] /\ stdout_of ev = []
  /\ match result with
     | None => True
     | Some content =>
         no_cr content = true
         /\ (nonempty content = true -> startswith "#!" content = true)
         /\ exists ev0 raw,
              read_user_data mc (environ mc !! "USER_DATA_FILE")
                (environ mc !! "USER_DATA") w = (ev0, Ret (Some raw), w)
              /\ (content = raw
                  \/ (nonempty raw = true /\ startswith "#!" raw = false
                      /\ content = "#!/bin/bash" +:+ lf +:+ raw))
     end.
Proof.
  intros E.
  destruct (user_data_content_of_result mc w) as (ev' & result' & E' & Hr & Hs & H').
  rewrite E' in E. injection E as <- <- <-. done.
Qed.

(** Preparing the user data returns and only prints on standard
    error. *)
Lemma user_data_content_of_returns mc w :
  exists ev result,
    user_data_content_of mc w = (ev, Ret result, w)
    /\ runs_of ev = [] /\ stdout_of ev = [] /\ writes_of ev = [].
Proof.
  unfold user_data_content_of. cbv zeta.
  destruct (read_user_data_returns mc (environ mc !! "USER_DATA_FILE")
              (environ mc !! "USER_DATA") w) as (l & raw & E & _).
  rewrite (bind_ret _ _ _ _ _ _ E). destruct raw as [raw|]; [|by eexists _, _].
  destruct (nonempty raw); [|by eexists _, _].
  unfold ensure_shebang. destruct (startswith "#!" raw); cbn [negb].
  - rewrite bind_ret_l. by eexists _, _.
  - rewrite bind_bind, bind_eprint, bind_ret_l. by eexists _, _.
Qed.

(** X7.  What [encode_user_data] gives for a text: an unbroken ASCII
    word (no white space) of four characters for every three bytes of the
    UTF-8 encoding, rounded up, that [base64.b64decode] turns back into
    that encoding, which decodes as UTF-8; so the writer, given this word
    for a non-empty text, stores the UTF-8 encoding of the text. *)
Theorem encoded_user_data_decodes s :
  Py.all plain (Create.encode_user_data s) = true
  /\ String.length (Create.encode_user_data s)
     = (4 * ((length (utf8_encode s) + 2) / 3))%nat
  /\ b64decode (Create.encode_user_data s) = Bytes (utf8_encode s)
  /\ utf8_decode (utf8_encode s) = Some (utf8_encode s)
  /\ (forall mc w prog output_file rest,
      nonempty s = true ->
      argv mc = prog :: output_file :: rest ->
      writable mc output_file = true ->
      environ mc !! "USER_DATA_B64" = Some (Create.encode_user_data s) ->
      WriteUserData.main mc w
      = ([FileWriteBytes output_file (utf8_encode s);
          Stderr ("User Data file created: " +:+ output_file +:+ " ("
                  +:+ str_of_int (utf8_size s) +:+ " bytes)")],
         Ret tt, w)).
Proof.
  unfold Create.encode_user_data.
  assert (utf8_decode (utf8_encode s) = Some (utf8_encode s)) as Hd.
  { unfold utf8_decode. by rewrite utf8_encode_valid. }
  split; [apply b64encode_plain|]. split; [apply b64encode_length|].
  split; [apply b64decode_b64encode|]. split; [exact Hd|].
  intros mc w prog out rest Hn Ha Hw He.
  assert (utf8_encode s <> []) as Hne.
  { destruct s as [|c s]; [done|]. cbn [utf8_encode]. cbv zeta.
    by destruct (code c <? 128)%N. }
  unfold WriteUserData.main, env_get. rewrite Ha, He. cbv zeta iota.
  rewrite (b64encode_nonempty _ Hne). cbv iota.
  rewrite (b64encode_nonempty _ Hne). cbn [negb].
  by rewrite b64decode_b64encode, Hd, Hw.
Qed.

(** X8.  [calculate_spot_price_limit] gives the default when the price
    or the core count is missing or zero; otherwise its text is the
    price limit as the Selector writes it for the same price and core
    count: the product with 1.2 to four decimals, the fourth field of
    the Selector's candidate line. *)
Theorem price_limit_as_selector price cores default_limit w :
  (PrimFloat.eqb price 0 = true \/ cores = 0 ->
   calculate_spot_price_limit (Some price) (Some cores) default_limit w
   = ([], Ret default_limit, w))
  /\ calculate_spot_price_limit None (Some cores) default_limit w
     = ([], Ret default_limit, w)
  /\ calculate_spot_price_limit (Some price) None default_limit w
     = ([], Ret default_limit, w)
  /\ (PrimFloat.eqb price 0 = false -> cores <> 0 ->
      forall limit it zone vswitch_id,
        Select.price_limit price cores w = ([], Ret limit, w) ->
        calculate_spot_price_limit (Some price) (Some cores) default_limit w
        = ([], Ret (Some (format_4f limit)), w)
        /\ Select.candidate_line
             {| Select.cand_instance_type := it; Select.cand_zone_id := zone;
                Select.cand_price_per_core := price;
                Select.cand_cpu_cores := cores |} vswitch_id limit
           = it +:+ "|" +:+ zone +:+ "|" +:+ vswitch_id +:+ "|"
             +:+ format_4f limit +:+ "|" +:+ str_of_int cores +:+ lf)
  /\ (PrimFloat.eqb price 0 = false -> cores <> 0 ->
      float_mul_int price cores = None ->
      calculate_spot_price_limit (Some price) (Some cores) default_limit w
      = ([], Uncaught OverflowError, w)
      /\ Select.price_limit price cores w = ([], Uncaught OverflowError, w)).
Proof.
  unfold calculate_spot_price_limit, Select.price_limit.
  split; [|split; [done|split; [done|split]]].
  - intros [-> | ->]; [done|]. cbn [Z.eqb negb]. by rewrite andb_false_r.
  - intros Hp Hc limit it zone v. rewrite Hp. apply Z.eqb_neq in Hc. rewrite Hc.
    cbn [negb andb]. destruct (float_mul_int price cores); [|done].
    by intros [= <-].
  - intros Hp Hc Hm. rewrite Hp, Hm. apply Z.eqb_neq in Hc. by rewrite Hc.
Qed.

End WithRuntime.

(** X6 on a machine whose user data, a line without a shebang, is given
    in the environment. *)
Lemma prepared_user_data_witness :
  let mc := Fixture.machine_of {[ "USER_DATA" := "echo hi" ]} ∅ [] "" in
  let content := "#!/bin/bash" +:+ lf +:+ "echo hi" in
  user_data_content_of (H:=Fixture.scripted) mc []
  = ([Stderr "Using User Data from environment variable (7 bytes, normalized)";
      Stderr "User Data missing shebang; prepending #!/bin/bash"],
     Ret (Some content), [])
  /\ no_cr content = true
  /\ (nonempty content = true -> startswith "#!" content = true).
Proof.
  intros mc content.
  assert (user_data_content_of (H:=Fixture.scripted) mc []
          = ([Stderr "Using User Data from environment variable (7 bytes, normalized)";
              Stderr "User Data missing shebang; prepending #!/bin/bash"],
             Ret (Some content), [])) as E by (vm_compute; reflexivity).
  split; [exact E|].
  pose proof (prepared_user_data (H:=Fixture.scripted) mc [] _ _ _ E)
    as (_ & _ & _ & Hc & Hs & _).
  exact (conj Hc Hs).
Defined.

End UserDataFacts.

(** ** More about the Selector *)
Module SelectMore.
Import Py PyFacts Select FileClaims.

Section WithRuntime.
Context `{runtime}.

Lemma get_field_value_world obj keys w ev o w1 :
  get_field_value obj keys w = (ev, o, w1) -> w1 = w /\ ev = [].
Proof.
  revert w ev o w1. induction keys as [|key rest IH]; intros w ev o w1.
  - by intros [= <- <- <-].
  - cbn [get_field_value]. unfold has_key, getitem.
    destruct obj as [| | | |s|l|items]; try by intros [= <- <- <-].
    + rewrite bind_ret_l. destruct (contains key s); [|apply IH].
      by intros [= <- <- <-].
    + rewrite bind_ret_l. destruct (existsb _ l); [|apply IH].
      by intros [= <- <- <-].
    + rewrite bind_ret_l. destruct (assoc key items) as [v|]; [|apply IH].
      rewrite bind_ret_l. by intros [= <- <- <-].
Qed.

(** A computation that runs no command. *)
Definition runless {A} (m : M A) : Prop :=
  forall w ev o w1, m w = (ev, o, w1) -> runs_of ev = [] /\ w1 = w.

Lemma runless_ret {A} (a : A) : runless (ret a).
Proof. by intros w ev o w1 [= <- <- <-]. Qed.

Lemma runless_raise {A} e : runless (raise (A:=A) e).
Proof. by intros w ev o w1 [= <- <- <-]. Qed.

Lemma runless_eprint l : runless (eprint l).
Proof. by intros w ev o w1 [= <- <- <-]. Qed.

Lemma runless_print l : runless (print l).
Proof. by intros w ev o w1 [= <- <- <-]. Qed.

Lemma runless_chmod p : runless (emit (Chmod p)).
Proof. by intros w ev o w1 [= <- <- <-]. Qed.

Lemma runless_write p t : runless (emit (FileWrite p t)).
Proof. by intros w ev o w1 [= <- <- <-]. Qed.

Lemma runless_now : runless now.
Proof. by intros w ev o w1 [= <- <- <-]. Qed.

Lemma runless_error_exit {A} msg : runless (error_exit (A:=A) msg).
Proof. by intros w ev o w1 [= <- <- <-]. Qed.

Lemma runless_bind {A B} (m : M A) (k : A -> M B) :
  runless m -> (forall a, runless (k a)) -> runless (bind m k).
Proof.
  intros Hm Hk w ev o w2. unfold bind.
  destruct (m w) as [[ev1 [a|n|e]] w1] eqn:E1.
  - destruct (k a w1) as [[ev2 o2] w3] eqn:E2. intros [= <- <- <-].
    destruct (Hm _ _ _ _ E1) as [R1 ->], (Hk _ _ _ _ _ E2) as [R2 ->].
    by rewrite runs_of_app, R1, R2.
  - intros [= <- <- <-]. by apply (Hm _ _ _ _ E1).
  - intros [= <- <- <-]. by apply (Hm _ _ _ _ E1).
Qed.

Ltac runless_step :=
  first
    [ apply runless_ret | apply runless_raise | apply runless_eprint
    | apply runless_print | apply runless_chmod | apply runless_write
    | apply runless_now | apply runless_error_exit
    | apply runless_bind; [|intros ?]
    | match goal with
      | |- runless (match ?x with _ => _ end) => destruct x
      end ].

Lemma get_field_value_runless obj keys : runless (get_field_value obj keys).
Proof.
  induction keys as [|key rest IH]; [apply runless_ret|].
  cbn [get_field_value]. apply runless_bind.
  - unfold has_key. destruct obj; repeat runless_step.
  - intros [|]; [|done]. unfold getitem. repeat runless_step.
Qed.

Lemma filter_step_runless instance mn mm arch :
  runless (filter_step instance mn mm arch).
Proof.
  unfold filter_step.
  repeat (apply runless_bind; [apply get_field_value_runless|intros ?]).
  cbv zeta. repeat runless_step.
Qed.

Lemma filter_loop_runless instances mn mm arch mx : forall acc,
  runless (filter_loop instances mn mm arch mx acc).
Proof.
  induction instances as [|i rest IH]; intros acc; cbn [filter_loop].
  - apply runless_ret.
  - apply runless_bind; [apply filter_step_runless|]. intros [c|]; [|apply IH].
    cbv zeta. destruct (_ <=? _); [apply runless_ret|apply IH].
Qed.

(** What a kept candidate has. *)
Lemma filter_step_kept instance mn mm arch w ev c w1 :
  filter_step instance mn mm arch w = (ev, Ret (Some c), w1) ->
  mn <= cand_cpu_cores c
  /\ nonempty (cand_instance_type c) = true
  /\ nonempty (cand_zone_id c) = true
  /\ (exists price, nonempty price = true
                    /\ float_of_str price = Some (cand_price_per_core c))
  /\ ev = [].
Proof.
  unfold filter_step. intros E.
  repeat match type of E with
  | bind (get_field_value _ _) _ _ = _ =>
      let E1 := fresh "G" in
      apply bind_ret_inv in E as (? & ? & ? & ? & E1 & E & ->);
      apply get_field_value_world in E1 as [-> ->]
  end.
  destruct x0 as [it|]; [|discriminate E].
  destruct x1 as [zone|]; [|discriminate E].
  destruct x2 as [price|]; [|discriminate E].
  destruct (nonempty it) eqn:Hit; [|discriminate E].
  destruct (nonempty zone) eqn:Hz; [|discriminate E].
  destruct (nonempty price) eqn:Hp; [|discriminate E].
  cbn [andb] in E.
  apply bind_ret_inv in E as (ev1 & cpu & w2 & ev2 & E1 & E & ->).
  assert (ev1 = [] \/ cpu = None) as Hev1.
  { destruct (match x3 with Some s => _ | None => None end);
      [left; by injection E1|].
    destruct (parse_cpu_from_instance_type it) as [e|[n|]];
      [discriminate E1 | left; by injection E1 |].
    right. by injection E1. }
  destruct cpu as [cpu|]; [|discriminate E].
  destruct Hev1 as [->|?]; [|done].
  apply bind_ret_inv in E as (ev3 & mem & w3 & ev4 & E3 & E & ->).
  assert (ev3 = []) as ->.
  { destruct x4 as [s|]; [|by injection E3].
    destruct (nonempty s); [|by injection E3].
    destruct (float_of_str s) as [x|]; [|by injection E3].
    destruct (int_of_float x); by (injection E3 || discriminate E3). }
  destruct cpu as [cpu|]; [|discriminate E].
  destruct (cpu <? mn) eqn:Hcpu; [discriminate E|].
  apply Z.ltb_ge in Hcpu.
  destruct (match mem with Some m => m | None => _ end) as [m|];
    [|discriminate E].
  destruct (m <? mm); [discriminate E|].
  destruct (float_of_str price) as [x|] eqn:Hprice; [|discriminate E].
  injection E as <- <- <-. cbn [cand_cpu_cores cand_instance_type cand_zone_id
                                  cand_price_per_core].
  repeat split; try done. by exists price.
Qed.



(** The candidate [main] announces is the first one written. *)
Lemma write_candidates_primary mc path cands c v t w :
  select_primary mc cands = Some (c, v) ->
  float_mul_int (cand_price_per_core c) (cand_cpu_cores c) = Some t ->
  exists rest,
    write_candidates mc path cands w
    = after [FileWrite path (candidate_line c v (PrimFloat.mul t lit_1_2))]
        (write_candidates mc path rest w).
Proof.
  intros Hs Ht. induction cands as [|c0 cands IH]; [done|].
  cbn [select_primary write_candidates] in *.
  destruct (get_vswitch_id (environ mc) (cand_zone_id c0)) as [v0|]; [|by apply IH].
  destruct (nonempty v0); [|by apply IH].
  injection Hs as -> ->. exists cands. unfold price_limit. rewrite Ht.
  by rewrite bind_ret_l, bind_emit.
Qed.

(** The six lines of standard output for a candidate, its VSwitch, its
    price limit and the candidates file. *)
Definition output_lines (c : candidate) (vswitch_id : string) (limit : float)
    (path : string) : list string :=
  ["INSTANCE_TYPE=" +:+ cand_instance_type c;
   "ZONE_ID=" +:+ cand_zone_id c;
   "VSWITCH_ID=" +:+ vswitch_id;
   "SPOT_PRICE_LIMIT=" +:+ format_4f limit;
   "CPU_CORES=" +:+ str_of_int (cand_cpu_cores c);
   "CANDIDATES_FILE=" +:+ path].

(** A computation that, when it exits, exits with status 1. *)
Definition status_one {A} (m : M A) : Prop :=
  forall w ev n w1, m w = (ev, Exit n, w1) -> n = 1.

Lemma status_one_ret {A} (a : A) : status_one (ret a).
Proof. by intros w ev n w1. Qed.

Lemma status_one_raise {A} e : status_one (raise (A:=A) e).
Proof. by intros w ev n w1. Qed.

Lemma status_one_emit e : status_one (emit e).
Proof. by intros w ev n w1. Qed.

Lemma status_one_now : status_one now.
Proof. by intros w ev n w1. Qed.

Lemma status_one_run cmd : status_one (run cmd).
Proof.
  intros w ev n w1. unfold run. by destruct (subprocess_run cmd w).
Qed.

Lemma status_one_bind {A B} (m : M A) (k : A -> M B) :
  status_one m -> (forall a, status_one (k a)) -> status_one (bind m k).
Proof.
  intros Hm Hk w ev n w2. unfold bind.
  destruct (m w) as [[ev1 [a|n1|e]] w1] eqn:E1.
  - destruct (k a w1) as [[ev2 o2] w3] eqn:E2. intros [= <- -> <-].
    by apply (Hk _ _ _ _ _ E2).
  - intros [= <- <- <-]. by apply (Hm _ _ _ _ E1).
  - done.
Qed.

Lemma status_one_error_exit {A} msg : status_one (error_exit (A:=A) msg).
Proof. by intros w ev n w1 [= _ <- _]. Qed.

Ltac status_step :=
  first
    [ apply status_one_ret | apply status_one_raise | apply status_one_emit
    | apply status_one_now | apply status_one_run | apply status_one_error_exit
    | apply status_one_bind; [|intros ?]
    | match goal with
      | |- status_one (match ?x with _ => _ end) => destruct x
      end ].

Lemma get_field_value_status obj keys : status_one (get_field_value obj keys).
Proof.
  induction keys as [|key rest IH]; [apply status_one_ret|].
  cbn [get_field_value]. apply status_one_bind.
  - unfold has_key. destruct obj; repeat status_step.
  - intros [|]; [|done]. unfold getitem. repeat status_step.
Qed.

Lemma filter_step_status instance mn mm arch :
  status_one (filter_step instance mn mm arch).
Proof.
  unfold filter_step, eprint.
  repeat (apply status_one_bind; [apply get_field_value_status|intros ?]).
  cbv zeta. repeat status_step.
Qed.

Lemma filter_loop_status instances mn mm arch mx : forall acc,
  status_one (filter_loop instances mn mm arch mx acc).
Proof.
  induction instances as [|i rest IH]; intros acc; cbn [filter_loop].
  - apply status_one_ret.
  - apply status_one_bind; [apply filter_step_status|]. intros [c|]; [|apply IH].
    cbv zeta. destruct (_ <=? _); [apply status_one_ret|apply IH].
Qed.

Lemma query_spot_instances_status bin key secret region mn mx mmn mmx a ex :
  status_one (query_spot_instances bin key secret region mn mx mmn mmx a ex).
Proof.
  unfold query_spot_instances, eprint. cbv zeta.
  apply status_one_bind; [apply status_one_run|]. intros [code out err|msg|msg].
  - destruct (negb _); [apply status_one_ret|].
    destruct (negb _); [apply status_one_ret|]. repeat status_step.
  - repeat status_step.
  - repeat status_step.
Qed.

Lemma strategy_loop_status st ss : forall k, status_one (strategy_loop st ss k).
Proof.
  induction ss as [|[[[c m] ex] desc] rest IH]; intros k; cbn [strategy_loop].
  - apply status_one_ret.
  - cbv zeta. apply status_one_bind; [destruct ex; apply status_one_emit|].
    intros _. apply status_one_bind; [apply query_spot_instances_status|].
    intros [[|x data]|]; try apply IH. unfold eprint. repeat status_step.
Qed.

Lemma read_settings_status mc : status_one (read_settings mc).
Proof.
  unfold read_settings, int_or, get_env_var, eprint. cbv zeta.
  repeat first
    [ apply status_one_ret | apply status_one_raise | apply status_one_emit
    | apply status_one_error_exit
    | apply status_one_bind; [|intros ?]
    | match goal with
      | |- status_one (if ?x then _ else _) => destruct x
      | |- status_one (match ?x with _ => _ end) => destruct x
      end ].
Qed.

Lemma write_candidates_status mc path cands :
  status_one (write_candidates mc path cands).
Proof.
  induction cands as [|c rest IH]; cbn [write_candidates].
  - apply status_one_ret.
  - unfold price_limit. repeat status_step; apply IH.
Qed.

Lemma report_status mc st data : status_one (report mc st data).
Proof.
  unfold report, filter_instances, print, eprint. cbv zeta.
  apply status_one_bind; [apply filter_loop_status|]. intros cands.
  apply status_one_bind; [destruct cands; repeat status_step|]. intros _.
  destruct (select_primary mc cands) as [[c v]|]; [|apply status_one_error_exit].
  destruct (nonempty _); [|apply status_one_error_exit].
  repeat first [ apply write_candidates_status | status_step ].
Qed.

Lemma main_status mc : status_one (main mc).
Proof.
  unfold main, eprint. cbv zeta.
  apply status_one_bind; [apply read_settings_status|]. intros st.
  apply status_one_bind; [apply status_one_now|]. intros t0.
  apply status_one_bind; [apply strategy_loop_status|]. intros [[|x data]|].
  1,3: apply status_one_error_exit.
  repeat first [ apply report_status | status_step ].
Qed.

Lemma status_one_exit_status {A} (m : M A) w ev o w1 :
  status_one m -> m w = (ev, o, w1) ->
  (exists a, o = Ret a) \/ exit_status o = 1.
Proof.
  intros Hm E. destruct o as [a|n|e]; [left; by exists a|right..].
  - by apply (Hm _ _ _ _ E).
  - done.
Qed.

(** A run that returned announced, on standard output, the candidate of
    the first line of the file it wrote; any other run printed nothing
    there. *)
Definition announced (mc : machine) (ev : list event) (o : outcome unit) : Prop :=
  match o with
  | Ret _ =>
      exists c vswitch_id limit more,
        writes_of ev
        = (tmp_name mc, candidate_line c vswitch_id limit) :: more
        /\ stdout_of ev = output_lines c vswitch_id limit (tmp_name mc)
  | _ => stdout_of ev = []
  end.

Lemma report_announced mc st data w ev o w1 :
  report mc st data w = (ev, o, w1) -> announced mc ev o.
Proof.
  unfold report, filter_instances.
  destruct (filter_loop data (min_cpu st) (min_mem st) (arch st) 5 [] w)
    as [[ev1 [cands|n|e]] w2] eqn:EF;
    destruct (filter_loop_silent _ _ _ _ _ _ _ _ _ _ EF) as [W1 S1].
  2:{ rewrite (bind_exit _ _ _ _ _ _ EF). by intros [= <- <- <-]. }
  2:{ rewrite (bind_uncaught _ _ _ _ _ _ EF). by intros [= <- <- <-]. }
  rewrite (bind_ret _ _ _ _ _ _ EF).
  destruct cands as [|c0 cands0] eqn:Ecands.
  { rewrite (bind_exit _ _ _ _ _ _ (error_exit_run _ _)).
    intros [= <- <- <-]. cbn. by rewrite stdout_of_app, S1. }
  rewrite <- Ecands in *. rewrite bind_ret_l.
  destruct (select_primary mc cands) as [[c v]|] eqn:Hsel.
  2:{ rewrite error_exit_run. intros [= <- <- <-]. cbn.
      by rewrite stdout_of_app, S1. }
  destruct (nonempty (cand_instance_type c)).
  2:{ rewrite error_exit_run. intros [= <- <- <-]. cbn.
      by rewrite stdout_of_app, S1. }
  cbv zeta.
  destruct (float_mul_int (cand_price_per_core c) (cand_cpu_cores c))
    as [t|] eqn:Ht.
  2:{ intros [= <- <- <-]. cbn. by rewrite stdout_of_app, S1. }
  rewrite bind_ret_l.
  destruct (writable mc (tmp_name mc)).
  2:{ intros [= <- <- <-]. cbn. by rewrite stdout_of_app, S1. }
  rewrite bind_ret_l.
  destruct (write_candidates_primary mc (tmp_name mc) cands c v t w2 Hsel Ht)
    as (rest & EW).
  destruct (write_candidates mc (tmp_name mc) rest w2) as [[ev2 o2] w3] eqn:ER.
  destruct (write_candidates_lines _ _ _ _ _ _ _ ER) as (S2 & _).
  cbn [after] in EW.
  destruct o2 as [[]|n|e].
  - rewrite (bind_ret _ _ _ _ _ _ EW). rewrite !bind_print, !bind_eprint.
    unfold eprint, emit. cbn [after]. intros [= <- <- <-].
    exists c, v, (PrimFloat.mul t lit_1_2), (writes_of ev2).
    read_events. rewrite W1, S1, S2. cbn [app]. by rewrite app_nil_r.
  - rewrite (bind_exit _ _ _ _ _ _ EW). intros [= <- <- <-]. cbn.
    read_events. by rewrite S1, S2.
  - rewrite (bind_uncaught _ _ _ _ _ _ EW). intros [= <- <- <-]. cbn.
    read_events. by rewrite S1, S2.
Qed.

(** A run of [main] that returns has printed the six texts of
    [output_lines] for the candidate of the first line of the file it
    wrote; every other run ends with exit status 1 and has printed
    nothing on standard output. *)
Lemma main_announced mc w :
  match main mc w with
  | (ev, Ret _, _) =>
      exists c vswitch_id limit more,
        writes_of ev
        = (tmp_name mc, candidate_line c vswitch_id limit) :: more
        /\ stdout_of ev = output_lines c vswitch_id limit (tmp_name mc)
  | (ev, o, _) => exit_status o = 1 /\ stdout_of ev = []
  end.
Proof.
  destruct (main mc w) as [[ev o] w1] eqn:E.
  assert (announced mc ev o) as Ha.
  { revert E. unfold main.
    destruct (read_settings mc w) as [[ev0 [st|n|e]] w0] eqn:E0;
      destruct (read_settings_silent _ _ _ _ _ E0) as [W0 S0].
    2:{ rewrite (bind_exit _ _ _ _ _ _ E0). by intros [= <- <- <-]. }
    2:{ rewrite (bind_uncaught _ _ _ _ _ _ E0). by intros [= <- <- <-]. }
    rewrite (bind_ret _ _ _ _ _ _ E0), bind_now.
    destruct (strategy_loop st
                (query_strategies (arch st) (min_cpu st) (max_cpu st)) 0 w0)
      as [[ev1 [res|n|e]] w2] eqn:E1;
      destruct (strategy_loop_silent _ _ _ _ _ _ _ E1) as [W1 S1].
    2:{ rewrite (bind_exit _ _ _ _ _ _ E1). intros [= <- <- <-]. cbn.
        by rewrite stdout_of_app, S0. }
    2:{ rewrite (bind_uncaught _ _ _ _ _ _ E1). intros [= <- <- <-]. cbn.
        by rewrite stdout_of_app, S0. }
    rewrite (bind_ret _ _ _ _ _ _ E1).
    destruct res as [[|x data]|].
    1,3: rewrite error_exit_run; intros [= <- <- <-]; cbn;
         by rewrite !stdout_of_app, S0, S1.
    rewrite bind_now, bind_eprint.
    destruct (report mc st (x :: data) w2) as [[ev2 o2] w3] eqn:E2.
    intros [= <- <- <-]. pose proof (report_announced _ _ _ _ _ _ _ E2) as Hr.
    unfold announced in *. destruct o2 as [[]|n|e].
    - destruct Hr as (c & v & l & more & Hw & Hs). exists c, v, l, more.
      read_events. by rewrite W0, W1, S0, S1.
    - read_events. by rewrite S0, S1.
    - read_events. by rewrite S0, S1. }
  destruct (status_one_exit_status _ _ _ _ _ (main_status mc) E) as [[a ->]|Hx].
  - exact Ha.
  - destruct o as [a|n|e]; [done|by split..].
Qed.

Lemma get_env_var_inv mc name w ev v w1 :
  get_env_var mc name w = (ev, Ret v, w1) ->
  environ mc !! name = Some v /\ w1 = w /\ ev = [].
Proof.
  unfold get_env_var. destruct (environ mc !! name); [|done].
  by intros [= <- <- <-].
Qed.

Lemma int_or_inv s d w ev n w1 :
  int_or s d w = (ev, Ret n, w1) ->
  (if nonempty s then Py.int s = Some n else n = d) /\ w1 = w /\ ev = [].
Proof.
  unfold int_or. destruct (nonempty s); [|by intros [= <- <- <-]].
  destruct (Py.int s); [|done]. by intros [= <- <- <-].
Qed.

Lemma check_inv (b : bool) msg w ev u w1 :
  (if b then ret tt else error_exit msg) w = (ev, Ret u, w1) ->
  b = true /\ w1 = w /\ ev = [].
Proof. destruct b; [|done]. by intros [= <- <- <-]. Qed.

Lemma check_not_inv (b : bool) msg w ev u w1 :
  (if b then error_exit msg else ret tt) w = (ev, Ret u, w1) ->
  b = false /\ w1 = w /\ ev = [].
Proof. destruct b; [done|]. by intros [= <- <- <-]. Qed.

Lemma write_candidates_runless mc path cands :
  runless (write_candidates mc path cands).
Proof.
  induction cands as [|c rest IH]; cbn [write_candidates].
  - apply runless_ret.
  - unfold price_limit. repeat runless_step; apply IH.
Qed.

Lemma report_runless mc st data : runless (report mc st data).
Proof.
  unfold report, filter_instances. cbv zeta.
  apply runless_bind; [apply filter_loop_runless|]. intros cands.
  apply runless_bind; [destruct cands; repeat runless_step|]. intros _.
  destruct (select_primary mc cands) as [[c v]|]; [|apply runless_error_exit].
  destruct (nonempty _); [|apply runless_error_exit].
  repeat first [ apply write_candidates_runless | runless_step ].
Qed.

Lemma read_settings_runless mc : runless (read_settings mc).
Proof.
  unfold read_settings, int_or, get_env_var. cbv zeta.
  repeat first
    [ apply runless_ret | apply runless_raise | apply runless_eprint
    | apply runless_chmod | apply runless_error_exit
    | apply runless_bind; [|intros ?]
    | match goal with
      | |- runless (if ?x then _ else _) => destruct x
      | |- runless (match ?x with _ => _ end) => destruct x
      end ].
Qed.

(** X11.  The settings [main] queries with.  When reading them
    returns, the three credentials are the values of their environment
    variables; the architecture is amd64, queried as x86_64, or arm64,
    queried as arm64; the advisor binary is a file; the CPU and the
    memory bounds are in order; a bound whose variable is unset, empty
    or blank has its default: 8 and 64 cores, memory from the minimum
    CPU count (once for amd64, twice for arm64) up to 64 (amd64) or 128
    (arm64); and reading the settings runs no command and leaves the
    world as it was. *)
Theorem validated_settings mc w ev st w1 :
  read_settings mc w = (ev, Ret st, w1) ->
  w1 = w /\ runs_of ev = []
  /\ environ mc !! "ALIYUN_ACCESS_KEY_ID" = Some (access_key_id st)
  /\ environ mc !! "ALIYUN_ACCESS_KEY_SECRET" = Some (access_key_secret st)
  /\ environ mc !! "ALIYUN_REGION_ID" = Some (region_id st)
  /\ (arch st = "amd64" /\ arch_param st = "x86_64"
      \/ arch st = "arm64" /\ arch_param st = "arm64")
  /\ arch st = env_get mc "ARCH" "amd64"
  /\ advisor_binary st = env_get mc "SPOT_ADVISOR_BINARY" "./spot-instance-advisor"
  /\ isfile mc (advisor_binary st) = true
  /\ min_cpu st <= max_cpu st /\ min_mem st <= max_mem st
  /\ (strip (env_get mc "MIN_CPU" "") = "" -> min_cpu st = 8)
  /\ (strip (env_get mc "MAX_CPU" "") = "" -> max_cpu st = 64)
  /\ (strip (env_get mc "MIN_MEM" "") = "" ->
      min_mem st = if String.eqb (arch st) "amd64" then min_cpu st
                   else min_cpu st * 2)
  /\ (strip (env_get mc "MAX_MEM" "") = "" ->
      max_mem st = if String.eqb (arch st) "amd64" then 64 else 128).
Proof.
  intros E. destruct (read_settings_runless _ _ _ _ _ E) as [Hr ->].
  split; [done|]. split; [done|]. clear Hr.
  unfold read_settings in E. cbv zeta in E.
  repeat match goal with
  | E : bind _ _ _ = (_, Ret _, _) |- _ =>
      let E1 := fresh "E" in
      apply bind_ret_inv in E as (? & ? & ? & ? & E1 & E & ?)
  end.
  repeat match goal with
  | E : get_env_var _ _ _ = _ |- _ => apply get_env_var_inv in E as (? & ? & ?)
  | E : int_or _ _ _ = _ |- _ => apply int_or_inv in E as (? & ? & ?)
  | E : (if _ then ret tt else error_exit _) _ = _ |- _ =>
      apply check_inv in E as (? & ? & ?)
  | E : (if _ then error_exit _ else ret tt) _ = _ |- _ =>
      apply check_not_inv in E as (? & ? & ?)
  end.
  injection E as _ <- _.
  cbn [access_key_id access_key_secret region_id arch arch_param advisor_binary
       min_cpu max_cpu min_mem max_mem].
  repeat match goal with
  | H : (_ <? _) = false |- _ => apply Z.ltb_ge in H
  end.
  match goal with
  | Hmin : if nonempty (strip (env_get mc "MIN_CPU" "")) then _ else _,
    Hmax : if nonempty (strip (env_get mc "MAX_CPU" "")) then _ else _,
    Hmmin : if nonempty (strip (env_get mc "MIN_MEM" "")) then _ else _,
    Hmmax : if nonempty (strip (env_get mc "MAX_MEM" "")) then _ else _ |- _ =>
      rename Hmin into Hmin'; rename Hmax into Hmax';
      rename Hmmin into Hmmin'; rename Hmmax into Hmmax'
  end.

  repeat split; try done.
  - destruct (String.eqb_spec (env_get mc "ARCH" "amd64") "amd64") as [->|_];
      [by left|].
    destruct (String.eqb_spec (env_get mc "ARCH" "amd64") "arm64") as [E|_];
      [|done].
    right. by rewrite E.
  - intros E. by rewrite E in Hmin'.
  - intros E. by rewrite E in Hmax'.
  - intros E. by rewrite E in Hmmin'.
  - intros E. by rewrite E in Hmmax'.
Qed.

Lemma query_strategies_length a mn mx :
  (2 <= length (query_strategies a mn mx) <= 5)%nat.
Proof.
  unfold query_strategies.
  destruct (String.eqb a "amd64"), (mn <=? 32), (mn <? 16); cbn; lia.
Qed.

Lemma strategy_cmd_shape st s :
  head (StrategyClaims.strategy_cmd st s) = Some (advisor_binary st)
  /\ "-limit=5" ∈ StrategyClaims.strategy_cmd st s
  /\ "--json" ∈ StrategyClaims.strategy_cmd st s
  /\ length (StrategyClaims.strategy_cmd st s) = 11%nat.
Proof.
  destruct s as [[[c m] ex] d]. unfold StrategyClaims.strategy_cmd, advisor_cmd.
  split; [done|]. split; [|split; [|done]].
  - by repeat constructor.
  - by repeat constructor.
Qed.

(** X12.  The commands of the Selector.  Whatever [main] runs is the
    advisor binary of the settings, asked for JSON and at most five
    offers, once for each strategy of an initial part of the strategy
    list, in the order of the list: never more than five runs, and none
    at all when the settings are refused. *)
Theorem selector_runs_advisor_only mc w :
  runs_of (main mc w).1.1 = []
  \/ exists ev0 st w0 tried rest,
       read_settings mc w = (ev0, Ret st, w0)
       /\ query_strategies (arch st) (min_cpu st) (max_cpu st) = tried ++ rest
       /\ runs_of (main mc w).1.1 = map (StrategyClaims.strategy_cmd st) tried
       /\ (length (runs_of (main mc w).1.1) <= 5)%nat
       /\ Forall (fun cmd => head cmd = Some (advisor_binary st)
                             /\ "-limit=5" ∈ cmd /\ "--json" ∈ cmd
                             /\ length cmd = 11%nat)
            (runs_of (main mc w).1.1).
Proof.
  unfold main.
  destruct (read_settings mc w) as [[ev0 [st|n|e]] w0] eqn:E0;
    destruct (read_settings_runless _ _ _ _ _ E0) as [R0 ->].
  2:{ left. by rewrite (bind_exit _ _ _ _ _ _ E0). }
  2:{ left. by rewrite (bind_uncaught _ _ _ _ _ _ E0). }
  right. exists ev0, st, w.
  rewrite (bind_ret _ _ _ _ _ _ E0), bind_now.
  destruct (strategy_loop st
              (query_strategies (arch st) (min_cpu st) (max_cpu st)) 0 w)
    as [[ev1 o1] w1] eqn:E1.
  destruct (StrategyClaims.strategy_loop_went _ _ _ _ _ _ _ E1)
    as (tried & (rest & Hq & _) & Hruns & _).
  exists tried, rest. split; [done|]. split; [done|].
  match goal with
  | |- context [runs_of (?X).1.1] =>
      assert (runs_of X.1.1 = map (StrategyClaims.strategy_cmd st) tried)
        as Hmain; [|rewrite Hmain]
  end.
  { destruct o1 as [res|n|e].
    2:{ rewrite (bind_exit _ _ _ _ _ _ E1). cbn [after fst snd].
        by rewrite runs_of_app, R0, Hruns. }
    2:{ rewrite (bind_uncaught _ _ _ _ _ _ E1). cbn [after fst snd].
        by rewrite runs_of_app, R0, Hruns. }
    rewrite (bind_ret _ _ _ _ _ _ E1).
    destruct res as [[|x data]|].
    1,3: rewrite error_exit_run; cbn [after fst snd];
         by rewrite !runs_of_app, R0, Hruns, app_nil_r.
    rewrite bind_now, bind_eprint.
    destruct (report mc st (x :: data) w1) as [[ev2 o2] w2] eqn:E2.
    destruct (report_runless _ _ _ _ _ _ _ E2) as [R2 _].
    cbn [after fst snd]. read_events. by rewrite R0, Hruns, R2, app_nil_r. }
  split; [done|]. split.
  - rewrite length_map. pose proof (query_strategies_length (arch st) (min_cpu st) (max_cpu st)) as Hl.
    rewrite Hq, length_app in Hl. lia.
  - clear. induction tried as [|s tried IH]; constructor;
      [apply strategy_cmd_shape|exact IH].
Qed.

(** The three credentials are set. *)
Definition credentials (mc : machine) : Prop :=
  is_Some (environ mc !! "ALIYUN_ACCESS_KEY_ID")
  /\ is_Some (environ mc !! "ALIYUN_ACCESS_KEY_SECRET")
  /\ is_Some (environ mc !! "ALIYUN_REGION_ID").

(** The advisor binary [main] is to run. *)
Definition advisor_of (mc : machine) : string :=
  env_get mc "SPOT_ADVISOR_BINARY" "./spot-instance-advisor".

(** The architecture is one of the two, and the advisor binary is a
    file that can be executed, or can be made so. *)
Definition advisor_ready (mc : machine) : Prop :=
  (env_get mc "ARCH" "amd64" = "amd64" \/ env_get mc "ARCH" "amd64" = "arm64")
  /\ isfile mc (advisor_of mc) = true
  /\ (executable mc (advisor_of mc) = true \/ chmod_ok mc (advisor_of mc) = true).

(** What making the advisor binary executable leaves in the run. *)
Definition chmod_events (mc : machine) : list event :=
  if executable mc (advisor_of mc) then [] else [Chmod (advisor_of mc)].

(** A bound as [main] reads it from the variable [name]: the integer the
    text of the variable denotes between white space, by a literal of
    fewer than 4300 digits, or the default when the text is blank. *)
Definition bound (mc : machine) (name : string) (default n : Z) : Prop :=
  let s := strip (env_get mc name "") in
  (Py.digit_count s < Py.int_max_str_digits)%nat
  /\ if nonempty s then Py.int s = Some n else n = default.

Lemma int_or_bound mc name d n w :
  bound mc name d n ->
  int_or (strip (env_get mc name "")) d w = ([], Ret n, w).
Proof.
  unfold bound, int_or. cbv zeta. intros [_ Hn].
  destruct (nonempty _); [by rewrite Hn | by subst n].
Qed.

(** X13.  What the Selector refuses before it queries.  In this order:
    a credential that is not set (the first of the three that is
    missing is named), an architecture other than amd64 and arm64, and
    an advisor binary that is no file end [main] with one error line and
    exit status 1; an advisor binary that cannot be executed and cannot
    be made executable ends it with an uncaught [OSError]; a CPU bound
    that is no integer literal ends it with an uncaught [ValueError];
    and, whatever the memory bounds are, a minimum CPU count above the
    maximum ends it with exit status 1 after the line that names both.
    No command is run in any of these cases, and nothing is left behind
    but, where the advisor binary had to be made executable, that
    change. *)
Theorem settings_refused mc w :
  (environ mc !! "ALIYUN_ACCESS_KEY_ID" = None ->
   main mc w = ([Stderr "Error: ALIYUN_ACCESS_KEY_ID is required"], Exit 1, w))
  /\ (is_Some (environ mc !! "ALIYUN_ACCESS_KEY_ID") ->
      environ mc !! "ALIYUN_ACCESS_KEY_SECRET" = None ->
      main mc w
      = ([Stderr "Error: ALIYUN_ACCESS_KEY_SECRET is required"], Exit 1, w))
  /\ (is_Some (environ mc !! "ALIYUN_ACCESS_KEY_ID") ->
      is_Some (environ mc !! "ALIYUN_ACCESS_KEY_SECRET") ->
      environ mc !! "ALIYUN_REGION_ID" = None ->
      main mc w = ([Stderr "Error: ALIYUN_REGION_ID is required"], Exit 1, w))
  /\ (credentials mc ->
      env_get mc "ARCH" "amd64" <> "amd64" ->
      env_get mc "ARCH" "amd64" <> "arm64" ->
      main mc w
      = ([Stderr ("Error: ARCH must be either 'amd64' or 'arm64', got: "
                  +:+ env_get mc "ARCH" "amd64")], Exit 1, w))
  /\ (credentials mc ->
      env_get mc "ARCH" "amd64" = "amd64" \/ env_get mc "ARCH" "amd64" = "arm64" ->
      isfile mc (advisor_of mc) = false ->
      main mc w
      = ([Stderr ("Error: spot-instance-advisor binary not found: "
                  +:+ advisor_of mc)],
         Exit 1, w))
  /\ (credentials mc ->
      env_get mc "ARCH" "amd64" = "amd64" \/ env_get mc "ARCH" "amd64" = "arm64" ->
      isfile mc (advisor_of mc) = true ->
      executable mc (advisor_of mc) = false ->
      chmod_ok mc (advisor_of mc) = false ->
      main mc w = ([], Uncaught UncaughtOSError, w))
  /\ (credentials mc -> advisor_ready mc ->
      nonempty (strip (env_get mc "MIN_CPU" "")) = true ->
      Py.int (strip (env_get mc "MIN_CPU" "")) = None ->
      main mc w = (chmod_events mc, Uncaught ValueError, w))
  /\ (forall lo,
      credentials mc -> advisor_ready mc ->
      bound mc "MIN_CPU" 8 lo ->
      nonempty (strip (env_get mc "MAX_CPU" "")) = true ->
      Py.int (strip (env_get mc "MAX_CPU" "")) = None ->
      main mc w = (chmod_events mc, Uncaught ValueError, w))
  /\ (forall lo hi mlo mhi,
      credentials mc -> advisor_ready mc ->
      bound mc "MIN_CPU" 8 lo ->
      bound mc "MAX_CPU" 64 hi ->
      bound mc "MIN_MEM"
        (if String.eqb (env_get mc "ARCH" "amd64") "amd64" then lo else lo * 2)
        mlo ->
      bound mc "MAX_MEM"
        (if String.eqb (env_get mc "ARCH" "amd64") "amd64" then 64 else 128)
        mhi ->
      hi < lo ->
      exists info,
        main mc w
        = (chmod_events mc
           ++ [Stderr info;
               Stderr ("Error: MIN_CPU (" +:+ str_of_int lo
                       +:+ ") must be less than or equal to MAX_CPU ("
                       +:+ str_of_int hi +:+ ")")], Exit 1, w)).
Proof.
  assert (forall name v, environ mc !! name = Some v ->
            get_env_var mc name w = ([], Ret v, w)) as Hget.
  { intros name v E. unfold get_env_var. by rewrite E. }
  assert (forall name, environ mc !! name = None ->
            get_env_var mc name w
            = ([Stderr ("Error: " +:+ name +:+ " is required")], Exit 1, w))
    as Hmiss.
  { intros name E. unfold get_env_var. by rewrite E. }
  assert (forall ev n, read_settings mc w = (ev, Exit n, w) ->
            main mc w = (ev, Exit n, w)) as Hexit.
  { intros ev n E. unfold main. by rewrite (bind_exit _ _ _ _ _ _ E). }
  assert (forall ev e, read_settings mc w = (ev, Uncaught e, w) ->
            main mc w = (ev, Uncaught e, w)) as Hraise.
  { intros ev e E. unfold main. by rewrite (bind_uncaught _ _ _ _ _ _ E). }
  assert (forall B (k : unit -> M B),
            executable mc (advisor_of mc) = true
            \/ chmod_ok mc (advisor_of mc) = true ->
            bind (if executable mc (advisor_of mc) then ret tt
                  else if chmod_ok mc (advisor_of mc)
                       then emit (Chmod (advisor_of mc))
                       else raise UncaughtOSError) k w
            = after (chmod_events mc) (k tt w)) as Hchmod.
  { intros B k Hx. unfold chmod_events.
    destruct (executable mc (advisor_of mc)).
    - rewrite bind_ret_l. by destruct (k tt w) as [[? ?] ?].
    - destruct Hx as [?| ->]; [done|]. by rewrite bind_emit. }
  split; [|split; [|split; [|split; [|split; [|split; [|split; [|split]]]]]]].
  - intros E. apply Hexit. unfold read_settings.
    by rewrite (bind_exit _ _ _ _ _ _ (Hmiss _ E)).
  - intros [a Ea] E. apply Hexit. unfold read_settings.
    rewrite (bind_ret _ _ _ _ _ _ (Hget _ _ Ea)).
    by rewrite (bind_exit _ _ _ _ _ _ (Hmiss _ E)).
  - intros [a Ea] [b Eb] E. apply Hexit. unfold read_settings.
    rewrite (bind_ret _ _ _ _ _ _ (Hget _ _ Ea)).
    rewrite (bind_ret _ _ _ _ _ _ (Hget _ _ Eb)).
    by rewrite (bind_exit _ _ _ _ _ _ (Hmiss _ E)).
  - intros ([a Ea] & [b Eb] & [c Ec]) N1 N2. apply Hexit. unfold read_settings.
    rewrite (bind_ret _ _ _ _ _ _ (Hget _ _ Ea)).
    rewrite (bind_ret _ _ _ _ _ _ (Hget _ _ Eb)).
    rewrite (bind_ret _ _ _ _ _ _ (Hget _ _ Ec)).
    cbv zeta. apply String.eqb_neq in N1, N2. rewrite N1, N2. cbn [orb after].
    by rewrite (bind_exit _ _ _ _ _ _ (error_exit_run _ _)).
  - intros ([a Ea] & [b Eb] & [c Ec]) Harch Hf. apply Hexit.
    unfold read_settings.
    rewrite (bind_ret _ _ _ _ _ _ (Hget _ _ Ea)).
    rewrite (bind_ret _ _ _ _ _ _ (Hget _ _ Eb)).
    rewrite (bind_ret _ _ _ _ _ _ (Hget _ _ Ec)).
    cbv zeta.
    assert (String.eqb (env_get mc "ARCH" "amd64") "amd64"
            || String.eqb (env_get mc "ARCH" "amd64") "arm64" = true) as ->.
    { destruct Harch as [-> | ->]; done. }
    fold (advisor_of mc). rewrite bind_ret_l, Hf. cbn [after].
    by rewrite (bind_exit _ _ _ _ _ _ (error_exit_run _ _)).
  - intros ([a Ea] & [b Eb] & [c Ec]) Harch Hf Hx Hc. apply Hraise.
    unfold read_settings.
    rewrite (bind_ret _ _ _ _ _ _ (Hget _ _ Ea)).
    rewrite (bind_ret _ _ _ _ _ _ (Hget _ _ Eb)).
    rewrite (bind_ret _ _ _ _ _ _ (Hget _ _ Ec)).
    cbv zeta.
    assert (String.eqb (env_get mc "ARCH" "amd64") "amd64"
            || String.eqb (env_get mc "ARCH" "amd64") "arm64" = true) as ->.
    { destruct Harch as [-> | ->]; done. }
    fold (advisor_of mc). by rewrite bind_ret_l, Hf, bind_ret_l, Hx, Hc.
  - intros ([a Ea] & [b Eb] & [c Ec]) (Harch & Hf & Hx) Hn Hi. apply Hraise.
    unfold read_settings.
    rewrite (bind_ret _ _ _ _ _ _ (Hget _ _ Ea)).
    rewrite (bind_ret _ _ _ _ _ _ (Hget _ _ Eb)).
    rewrite (bind_ret _ _ _ _ _ _ (Hget _ _ Ec)).
    cbv zeta.
    assert (String.eqb (env_get mc "ARCH" "amd64") "amd64"
            || String.eqb (env_get mc "ARCH" "amd64") "arm64" = true) as ->.
    { destruct Harch as [-> | ->]; done. }
    fold (advisor_of mc). rewrite bind_ret_l, Hf, bind_ret_l. cbn [after].
    rewrite (Hchmod _ _ Hx). unfold int_or at 1. rewrite Hn, Hi.
    rewrite (bind_uncaught _ _ _ _ _ _
               (eq_refl : raise ValueError w = ([], Uncaught ValueError, w))).
    rewrite !after_nil. cbn [after]. by rewrite app_nil_r.
  - intros lo ([a Ea] & [b Eb] & [c Ec]) (Harch & Hf & Hx) Hlo Hn Hi.
    apply Hraise. unfold read_settings.
    rewrite (bind_ret _ _ _ _ _ _ (Hget _ _ Ea)).
    rewrite (bind_ret _ _ _ _ _ _ (Hget _ _ Eb)).
    rewrite (bind_ret _ _ _ _ _ _ (Hget _ _ Ec)).
    cbv zeta.
    assert (String.eqb (env_get mc "ARCH" "amd64") "amd64"
            || String.eqb (env_get mc "ARCH" "amd64") "arm64" = true) as ->.
    { destruct Harch as [-> | ->]; done. }
    fold (advisor_of mc). rewrite bind_ret_l, Hf, bind_ret_l. cbn [after].
    rewrite (Hchmod _ _ Hx).
    rewrite (bind_ret _ _ _ _ _ _ (int_or_bound _ _ _ _ w Hlo)).
    unfold int_or at 1. rewrite Hn, Hi.
    rewrite (bind_uncaught _ _ _ _ _ _
               (eq_refl : raise ValueError w = ([], Uncaught ValueError, w))).
    rewrite !after_nil. cbn [after]. by rewrite app_nil_r.
  - intros lo hi mlo mhi ([a Ea] & [b Eb] & [c Ec]) (Harch & Hf & Hx)
      Hlo Hhi Hmlo Hmhi Hlt.
    eexists. apply Hexit. unfold read_settings.
    rewrite (bind_ret _ _ _ _ _ _ (Hget _ _ Ea)).
    rewrite (bind_ret _ _ _ _ _ _ (Hget _ _ Eb)).
    rewrite (bind_ret _ _ _ _ _ _ (Hget _ _ Ec)).
    cbv zeta.
    assert (String.eqb (env_get mc "ARCH" "amd64") "amd64"
            || String.eqb (env_get mc "ARCH" "amd64") "arm64" = true) as ->.
    { destruct Harch as [-> | ->]; done. }
    fold (advisor_of mc). rewrite bind_ret_l, Hf, bind_ret_l. cbn [after].
    rewrite (Hchmod _ _ Hx).
    rewrite (bind_ret _ _ _ _ _ _ (int_or_bound _ _ _ _ w Hlo)).
    rewrite (bind_ret _ _ _ _ _ _ (int_or_bound _ _ _ _ w Hhi)).
    rewrite (bind_ret _ _ _ _ _ _ (int_or_bound _ _ _ _ w Hmlo)).
    rewrite (bind_ret _ _ _ _ _ _ (int_or_bound _ _ _ _ w Hmhi)).
    rewrite bind_eprint.
    apply Z.ltb_lt in Hlt. rewrite Hlt.
    rewrite (bind_exit _ _ _ _ _ _ (error_exit_run _ _)).
    rewrite !after_nil. cbn [after app]. reflexivity.
Qed.

End WithRuntime.

(** *** Closed examples *)

(** A machine set up for the Selector, and one offer of the advisor. *)
Definition example_machine : machine :=
  Fixture.machine_of
    (list_to_map [("ALIYUN_ACCESS_KEY_ID", "id"); ("ALIYUN_ACCESS_KEY_SECRET", "secret");
                  ("ALIYUN_REGION_ID", "cn-hangzhou"); ("MIN_CPU", "2");
                  ("ALIYUN_VSWITCH_ID_K", "vsw-k")])
    {[ "./spot-instance-advisor" := "" ]} ["select_instance.py"] "".




(** X11 at the example machine. *)
Lemma validated_settings_witness :
  exists ev st,
    read_settings (H:=Fixture.scripted) example_machine [] = (ev, Ret st, [])
    /\ min_cpu st = 2 /\ max_cpu st = 64 /\ min_mem st = 2 /\ max_mem st = 64
    /\ min_cpu st <= max_cpu st /\ min_mem st <= max_mem st.
Proof.
  eexists _, _. split; [vm_compute; reflexivity|].
  split; [reflexivity|]. split; [reflexivity|]. split; [reflexivity|].
  split; [reflexivity|].
  match goal with
  | |- min_cpu ?st <= _ /\ _ =>
      pose proof (validated_settings (H:=Fixture.scripted) example_machine []
                    _ st [] ltac:(vm_compute; reflexivity)) as Hv
  end.
  exact (conj (proj1 (proj2 (proj2 (proj2 (proj2 (proj2 (proj2 (proj2 (proj2 (proj2 Hv))))))))))
              (proj1 (proj2 (proj2 (proj2 (proj2 (proj2 (proj2 (proj2 (proj2 (proj2 (proj2 Hv)))))))))))).
Defined.

End SelectMore.

(** ** More about the Provisioner *)
Module CreateMore.
Import Py PyFacts Create CreateFacts.

(** The candidates that have a VSwitch. *)
Definition with_vswitch (cands : list entry) : list entry :=
  List.filter (fun c => nonempty (e_vswitch_id c)) cands.

(** Multi-attempt mode is taken: the candidates file is named and
    exists. *)
Definition multi_mode (mc : machine) (p : params) : bool :=
  match candidates_file p with
  | Some path => nonempty path && isfile mc path
  | None => false
  end.

Section WithRuntime.
Context `{runtime}.

(** The commands of a run are all [ok], there are at most [bound] of
    them, and the run has not ended with an exception or a status other
    than 0. *)
Definition calls (ok : list string -> Prop) (bound : nat) {A}
    (x : list event * outcome A * world) : Prop :=
  match x with
  | (ev, o, _) =>
      Forall ok (runs_of ev) /\ (length (runs_of ev) <= bound)%nat
      /\ match o with
         | Ret _ => True
         | Exit n => n = 0
         | Uncaught _ => False
         end
  end.

Lemma calls_after {A} ok bound n ev (x : list event * outcome A * world) :
  Forall ok (runs_of ev) -> length (runs_of ev) = n ->
  calls ok bound x -> calls ok (n + bound) (after ev x).
Proof.
  destruct x as [[ev2 o] w]. cbn [after calls]. intros Hev Hn (Hok & Hb & Ho).
  rewrite runs_of_app, length_app. split; [by apply Forall_app|].
  split; [lia|done].
Qed.

Lemma calls_mono {A} (ok ok' : list string -> Prop) bound bound'
    (x : list event * outcome A * world) :
  (forall cmd, ok cmd -> ok' cmd) -> (bound <= bound')%nat ->
  calls ok bound x -> calls ok' bound' x.
Proof.
  destruct x as [[ev o] w]. cbn [calls]. intros Hok Hb (H1 & H2 & H3).
  split; [by eapply Forall_impl|]. split; [lia|done].
Qed.

Lemma runs_of_start l cmd tail :
  runs_of ([Stderr l; Run cmd] ++ tail) = cmd :: runs_of tail.
Proof. reflexivity. Qed.

Lemma disk_loop_multi_calls p attempt cand ds last w :
  calls (fun cmd => exists d, d ∈ ds /\ cmd = candidate_cmd p cand d) (length ds)
    (disk_loop_multi p attempt cand (user_data_b64_of p)
       (spot_strategy_of (Some (e_spot_price_limit cand))) ds last w).
Proof.
  revert last w. induction ds as [|d ds IH]; intros last w.
  { cbn. repeat split; [constructor|lia]. }
  destruct (subprocess_run (candidate_cmd p cand d) w) as [r w1] eqn:Hrun.
  destruct (response_of r) as [code resp] eqn:Hresp.
  rewrite (disk_loop_multi_step _ _ _ _ _ _ _ _ _ _ _ Hrun Hresp). cbv zeta.
  set (ok := fun cmd => exists d0, d0 ∈ d :: ds /\ cmd = candidate_cmd p cand d0).
  assert (ok (candidate_cmd p cand d)) as Hd.
  { exists d. split; [left|done]. }
  assert (forall last,
            calls ok (length ds)
              (disk_loop_multi p attempt cand (user_data_b64_of p)
                 (spot_strategy_of (Some (e_spot_price_limit cand))) ds last w1))
    as Hrest.
  { intros l. eapply calls_mono; [| |apply IH]; [|lia].
    intros cmd (d0 & Hd0 & ->). exists d0. split; [by right|done]. }
  destruct (_ && _); [destruct (usable _)|destruct (unsupported _)].
  - cbn [calls]. rewrite runs_of_start. cbn [runs_of omap list_omap length].
    split; [by constructor|]. split; [lia|done].
  - apply (calls_after ok (length ds) 1); [| |apply Hrest];
      rewrite runs_of_start; [by constructor|done].
  - apply (calls_after ok (length ds) 1); [| |apply Hrest];
      rewrite runs_of_start; [by constructor|done].
  - cbn [calls]. split; [by constructor|]. split; [|done]. cbn. lia.
Qed.

Lemma disk_loop_single_calls p it vs ds last w :
  calls (fun cmd => exists d, d ∈ ds /\ cmd = single_cmd p it vs d) (length ds)
    (disk_loop_single p it vs (user_data_b64_of p)
       (spot_strategy_of (spot_price_limit p)) ds last w).
Proof.
  revert last w. induction ds as [|d ds IH]; intros last w.
  { cbn. repeat split; [constructor|lia]. }
  destruct (subprocess_run (single_cmd p it vs d) w) as [r w1] eqn:Hrun.
  destruct (response_of r) as [code resp] eqn:Hresp.
  rewrite (disk_loop_single_step _ _ _ _ _ _ _ _ _ _ _ Hrun Hresp). cbv zeta.
  set (ok := fun cmd => exists d0, d0 ∈ d :: ds /\ cmd = single_cmd p it vs d0).
  assert (ok (single_cmd p it vs d)) as Hd.
  { exists d. split; [left|done]. }
  assert (forall last,
            calls ok (length ds)
              (disk_loop_single p it vs (user_data_b64_of p)
                 (spot_strategy_of (spot_price_limit p)) ds last w1))
    as Hrest.
  { intros l. eapply calls_mono; [| |apply IH]; [|lia].
    intros cmd (d0 & Hd0 & ->). exists d0. split; [by right|done]. }
  destruct (_ && _); [destruct (usable _)|destruct (unsupported _)].
  - cbn [calls]. rewrite runs_of_start. cbn [runs_of omap list_omap length].
    split; [by constructor|]. split; [lia|done].
  - apply (calls_after ok (length ds) 1); [| |apply Hrest];
      rewrite runs_of_start; [by constructor|done].
  - apply (calls_after ok (length ds) 1); [| |apply Hrest];
      rewrite runs_of_start; [by constructor|done].
  - cbn [calls]. split; [by constructor|]. split; [|done]. cbn. lia.
Qed.

(** A creation call of multi-attempt mode: for a candidate of [cands]
    that has a VSwitch and one of the three disk categories. *)
Definition candidate_call (p : params) (cands : list entry)
    (cmd : list string) : Prop :=
  exists cand d,
    cand ∈ cands /\ nonempty (e_vswitch_id cand) = true
    /\ d ∈ disk_categories /\ cmd = candidate_cmd p cand d.

(** A creation call of single-attempt mode. *)
Definition single_call (p : params) (cmd : list string) : Prop :=
  exists it vs d,
    instance_type p = Some it /\ vswitch_id p = Some vs
    /\ d ∈ disk_categories /\ cmd = single_cmd p it vs d.

Lemma candidate_loop_calls p n cands : forall attempt w,
  calls (candidate_call p cands) (3 * length (with_vswitch cands))
    (candidate_loop p n attempt cands w).
Proof.
  induction cands as [|cand rest IH]; intros attempt w.
  { cbn. repeat split; [constructor|lia]. }
  assert (forall attempt w,
            calls (candidate_call p (cand :: rest)) (3 * length (with_vswitch rest))
              (candidate_loop p n attempt rest w)) as Hrest.
  { intros a w'. eapply calls_mono; [| |apply IH]; [|lia].
    intros cmd (c & d & Hc & Hv & Hd & ->). exists c, d.
    split; [by right|done]. }
  unfold with_vswitch. cbn [List.filter]. fold (with_vswitch rest).
  destruct (nonempty (e_vswitch_id cand)) eqn:Hv.
  - pose proof (disk_loop_multi_calls p attempt cand disk_categories "" w) as Hloop.
    destruct (disk_loop_multi _ _ _ _ _ _ _ _) as [[ev [response|k|e]] w1] eqn:El;
      cbn [calls] in Hloop; destruct Hloop as (Hok & Hlen & Ho); [| |done];
      change (length disk_categories) with 3%nat in Hlen.
    + rewrite (candidate_loop_next _ _ _ _ _ _ _ _ _ Hv El).
      assert (runs_of (attempt_line n attempt cand :: ev
                       ++ failed_lines attempt response) = runs_of ev) as Hr.
      { unfold attempt_line, failed_lines. read_events.
        destruct (nonempty response); cbn; by rewrite app_nil_r. }
      assert (Forall (candidate_call p (cand :: rest)) (runs_of ev)) as Hok'.
      { eapply Forall_impl; [exact Hok|]. intros cmd (d & Hd & ->).
        exists cand, d. split; [left|done]. }
      pose proof (calls_after (candidate_call p (cand :: rest))
                    (3 * length (with_vswitch rest)) (length (runs_of ev))
                    (attempt_line n attempt cand :: ev
                     ++ failed_lines attempt response)
                    (candidate_loop p n (attempt + 1) rest w1)) as Hc.
      rewrite Hr in Hc. specialize (Hc Hok' eq_refl (Hrest _ _)).
      eapply calls_mono; [| |exact Hc]; [done|]. cbn [length] in *. lia.
    + rewrite (candidate_loop_exit _ _ _ _ _ _ _ _ _ Hv El). cbn [calls].
      change (runs_of (attempt_line n attempt cand :: ev)) with (runs_of ev).
      split; [|split; [cbn [length] in *; lia|done]].
      eapply Forall_impl; [exact Hok|]. intros cmd (d & Hd & ->).
      exists cand, d. split; [left|done].
  - rewrite (candidate_loop_skip _ _ _ _ _ _ Hv).
    apply (calls_after _ _ 0); [constructor|done|apply Hrest].
Qed.


(** X15.  Which mode the Provisioner takes, and what single-attempt
    mode needs.  Without a candidates file that is named and exists
    (also when one is named and is missing) the retry mechanism is
    single-attempt mode; there a missing or empty INSTANCE_TYPE, and
    after it a missing or empty ALIYUN_VSWITCH_ID, ends the run with one
    error line and exit status 1, before any call.  With a candidates
    file that gives no record the run ends with exit status 1 after zero
    attempts, again without a call. *)
Theorem mode_and_required_inputs mc p w :
  (multi_mode mc p = false -> provision mc p w = single_attempt p w)
  /\ (multi_mode mc p = false -> given (instance_type p) = false ->
      provision mc p w
      = ([Stderr "Error: INSTANCE_TYPE is required"], Exit 1, w))
  /\ (multi_mode mc p = false -> given (instance_type p) = true ->
      given (vswitch_id p) = false ->
      provision mc p w
      = ([Stderr "Error: ALIYUN_VSWITCH_ID is required"], Exit 1, w))
  /\ (forall path,
      multi_mode mc p = true -> candidates_file p = Some path ->
      parse_candidates_file mc path w = ([], Ret [], w) ->
      provision mc p w
      = ([Stderr "Found 0 candidate instances for retry";
          Stderr "Error: Failed to create Spot instance after 0 attempts"],
         Exit 1, w)).
Proof.
  assert (multi_mode mc p = false -> provision mc p w = single_attempt p w)
    as Hmode.
  { unfold multi_mode, provision. destruct (candidates_file p); [|done].
    by intros ->. }
  split; [exact Hmode|]. split; [|split].
  - intros Hm Hi. rewrite (Hmode Hm). unfold single_attempt, given in *.
    destruct (instance_type p) as [it|]; [|done]. by rewrite Hi.
  - intros Hm Hi Hv. rewrite (Hmode Hm). unfold single_attempt, given in *.
    destruct (instance_type p) as [it|]; [|done]. rewrite Hi.
    destruct (vswitch_id p) as [vs|]; [|done]. by rewrite Hv.
  - intros path Hm Hp Hparse. unfold multi_mode, provision in *.
    rewrite Hp in *. rewrite Hm. unfold multi_attempt.
    by rewrite (bind_ret _ _ _ _ _ _ Hparse).
Qed.

(** X16.  The textual fallback of [extract_instance_id].  For a
    response that is no JSON document and holds, after a part without
    any double quote, the key InstanceId in double quotes, a colon with
    white space around it as may be, and a value in double quotes that
    is not empty and holds no double quote, the identifier extracted is
    exactly that value; it counts as an instance identifier unless it
    is the text null. *)
Theorem instance_id_from_text pre sp1 sp2 g post :
  Py.all (fun c => negb (Ascii.eqb c quote)) pre = true ->
  Py.all isspace sp1 = true -> Py.all isspace sp2 = true ->
  nonempty g = true ->
  Py.all (fun c => negb (Ascii.eqb c quote)) g = true ->
  json_loads (pre +:+ instance_id_key +:+ sp1 +:+ ":" +:+ sp2
              +:+ String quote (g +:+ String quote post)) = None ->
  extract_instance_id (pre +:+ instance_id_key +:+ sp1 +:+ ":" +:+ sp2
                       +:+ String quote (g +:+ String quote post)) = JStr g
  /\ (g <> "null" -> usable (JStr g) = true).
Proof.
  intros Hpre Hs1 Hs2 Hg Hq Hjson. split.
  2:{ intros Hn. unfold usable. cbn [truthy]. rewrite Hg.
      apply String.eqb_neq in Hn. by rewrite Hn. }
  unfold extract_instance_id. rewrite Hjson.
  rewrite (re_search_app match_instance_id pre _ g); [done| |].
  - unfold match_instance_id.
    assert (startswith instance_id_key
              (instance_id_key +:+ sp1 +:+ ":" +:+ sp2
               +:+ String quote (g +:+ String quote post)) = true) as ->.
    { apply SelectFacts.startswith_spec. by eexists. }
    change 12%nat with (String.length instance_id_key).
    rewrite SelectFacts.drop_app.
    change (":" +:+ sp2 +:+ String quote (g +:+ String quote post))
      with (String ":" (sp2 +:+ String quote (g +:+ String quote post))).
    rewrite (lstrip_spaces sp1 ":" _ Hs1 eq_refl).
    change (Ascii.eqb ":" ":") with true. cbv iota.
    rewrite (lstrip_spaces sp2 quote _ Hs2 eq_refl).
    change (Ascii.eqb quote quote) with true. cbv iota.
    rewrite (SelectFacts.span_app _ g (String quote post) Hq eq_refl).
    by rewrite Hg.
  - intros q c u ->. unfold match_instance_id.
    assert (Ascii.eqb c quote = false) as Hc.
    { clear -Hpre. induction q as [|x q IH]; cbn [String.append Py.all] in Hpre.
      - apply andb_true_iff in Hpre as [Hc _]. by apply negb_true_iff in Hc.
      - apply andb_true_iff in Hpre as [_ Hpre]. by apply IH. }
    assert (startswith instance_id_key
              (String c u +:+ instance_id_key +:+ sp1 +:+ ":" +:+ sp2
               +:+ String quote (g +:+ String quote post)) = false) as ->; [|done].
    unfold instance_id_key. cbn [String.append startswith].
    rewrite Ascii.eqb_sym. by rewrite Hc.
Qed.

End WithRuntime.

(** *** Closed examples *)

(** X16 at a response of the command line tool that is no JSON. *)
Lemma instance_id_from_text_witness :
  extract_instance_id (H:=Fixture.scripted)
    ("Created: " +:+ instance_id_key +:+ " " +:+ ":" +:+ " "
     +:+ String quote ("i-bp1abc" +:+ String quote " done"))
  = JStr "i-bp1abc".
Proof.
  exact (proj1 (instance_id_from_text (H:=Fixture.scripted)
                  "Created: " " " " " "i-bp1abc" " done"
                  eq_refl eq_refl eq_refl eq_refl eq_refl eq_refl)).
Defined.

End CreateMore.

(** ** From the Selector to the Provisioner: the candidates file *)
Module Handover.
Import Py PyFacts Base64Facts.

(** A character that is neither white space nor the bar, and is ASCII. *)
Definition tame (c : ascii) : bool := plain c && negb (Ascii.eqb c "|").

Lemma all_app p a b : Py.all p (a +:+ b) = Py.all p a && Py.all p b.
Proof.
  induction a as [|c a IH]; cbn [String.append Py.all]; [done|].
  by rewrite IH, andb_assoc.
Qed.

Lemma all_take p n s : Py.all p s = true -> Py.all p (take n s) = true.
Proof.
  revert s. induction n as [|n IH]; intros [|c s]; cbn [take Py.all]; try done.
  intros [-> Hs]%andb_true_iff. by apply IH.
Qed.

Lemma all_drop p n s : Py.all p s = true -> Py.all p (drop n s) = true.
Proof.
  revert s. induction n as [|n IH]; intros [|c s]; cbn [drop Py.all]; try done.
  intros [_ Hs]%andb_true_iff. by apply IH.
Qed.

Lemma digit_char_spec d :
  0 <= d < 10 ->
  isdigit (digit_char d) = true /\ digit_value (digit_char d) = d
  /\ tame (digit_char d) = true.
Proof.
  intros Hd.
  assert (d = 0 \/ d = 1 \/ d = 2 \/ d = 3 \/ d = 4 \/ d = 5 \/ d = 6 \/ d = 7
          \/ d = 8 \/ d = 9) as Hcases by lia.
  repeat destruct Hcases as [->|Hcases]; try subst d; by vm_compute.
Qed.

Lemma mod10 n : 0 <= n mod 10 < 10.
Proof. apply Z.mod_pos_bound. lia. Qed.

Lemma digits_of_tame f : forall n acc,
  Py.all tame acc = true -> Py.all tame (digits_of f n acc) = true.
Proof.
  induction f as [|f IH]; intros n acc Hacc; cbn [digits_of]; [done|].
  destruct (digit_char_spec (n mod 10) (mod10 n)) as (_ & _ & Ht).
  cbv zeta. destruct (n <? 10); [cbn [Py.all]; by rewrite Ht|].
  apply IH. cbn [Py.all]. by rewrite Ht.
Qed.

Lemma digits_of_nonempty f n acc : nonempty (digits_of (S f) n acc) = true.
Proof.
  revert n acc. induction f as [|f IH]; intros n acc.
  - cbn. by destruct (n <? 10).
  - change (digits_of (S (S f)) n acc)
      with (let acc' := String (digit_char (n mod 10)) acc in
            if n <? 10 then acc' else digits_of (S f) (n / 10) acc').
    cbv zeta. destruct (n <? 10); [done|apply IH].
Qed.

(** The head of a text is a digit. *)
Definition digit_first (s : string) : bool :=
  match s with String c _ => isdigit c | EmptyString => false end.

Lemma digits_of_digit_first f : forall n acc,
  digit_first acc = true -> digit_first (digits_of f n acc) = true.
Proof.
  induction f as [|f IH]; intros n acc Hacc; cbn [digits_of]; [done|].
  destruct (digit_char_spec (n mod 10) (mod10 n)) as (Hd & _ & _).
  cbv zeta. destruct (n <? 10); [done|]. by apply IH.
Qed.

Lemma digits_of_S_digit_first f n acc :
  digit_first (digits_of (S f) n acc) = true.
Proof.
  cbn [digits_of]. cbv zeta.
  destruct (digit_char_spec (n mod 10) (mod10 n)) as (Hd & _ & _).
  destruct (n <? 10); [done|]. by apply digits_of_digit_first.
Qed.

(** Reading back the digits of a number. *)
Lemma int_body_digits_of f : forall n acc,
  0 <= n < 2 ^ Z.of_nat (S f) ->
  int_body false 0 (digits_of (S f) n acc) = int_body true n acc.
Proof.
  induction f as [|f IH]; intros n acc Hn.
  - assert (n < 10) as Hlt by (change (2 ^ Z.of_nat 1) with 2 in Hn; lia).
    cbn [digits_of]. cbv zeta. apply Z.ltb_lt in Hlt as Hb. rewrite Hb.
    destruct (digit_char_spec (n mod 10) (mod10 n)) as (Hd & Hv & _).
    cbn [int_body]. rewrite Hd, Hv. f_equal. rewrite Z.mod_small; lia.
  - change (digits_of (S (S f)) n acc)
      with (let acc' := String (digit_char (n mod 10)) acc in
            if n <? 10 then acc' else digits_of (S f) (n / 10) acc').
    cbv zeta.
    destruct (digit_char_spec (n mod 10) (mod10 n)) as (Hd & Hv & _).
    destruct (n <? 10) eqn:Hb.
    + apply Z.ltb_lt in Hb. cbn [int_body]. rewrite Hd, Hv. f_equal.
      rewrite Z.mod_small; lia.
    + apply Z.ltb_ge in Hb. rewrite IH.
      * cbn [int_body]. rewrite Hd, Hv. f_equal.
        pose proof (Z.div_mod n 10 ltac:(lia)). lia.
      * split; [apply Z.div_pos; lia|].
        rewrite Nat2Z.inj_succ, Z.pow_succ_r in Hn by lia.
        apply Z.div_lt_upper_bound; lia.
Qed.

Lemma int_digit_first s c r :
  Py.all (fun c => negb (isspace c)) s = true ->
  s = String c r -> isdigit c = true ->
  Py.int s = int_body false 0 (String c r).
Proof.
  intros Hs -> Hc. rewrite (int_of_literal _ Hs).
  destruct c as [[] [] [] [] [] [] [] []];
    try (cbv in Hc; discriminate Hc); reflexivity.
Qed.

Lemma log2_bound m : 0 <= m -> m < 2 ^ Z.of_nat (S (Z.to_nat (Z.log2 m))).
Proof.
  intros Hm. rewrite Nat2Z.inj_succ, Z2Nat.id by apply Z.log2_nonneg.
  destruct (Z.eq_dec m 0) as [->|Hne]; [done|].
  apply Z.log2_spec. lia.
Qed.

Lemma str_of_int_tame n : Py.all tame (str_of_int n) = true.
Proof.
  unfold str_of_int. cbv zeta.
  destruct (n <? 0); [cbn [Py.all]; rewrite digits_of_tame; done|].
  by apply digits_of_tame.
Qed.

Lemma tame_plain s : Py.all tame s = true -> Py.all plain s = true.
Proof. apply all_impl. intros c. unfold tame. by intros [? _]%andb_true_iff. Qed.

Lemma str_of_int_nonempty n : nonempty (str_of_int n) = true.
Proof.
  unfold str_of_int. cbv zeta. destruct (n <? 0); [done|].
  apply digits_of_nonempty.
Qed.

Lemma tame_no_space s :
  Py.all tame s = true -> Py.all (fun c => negb (isspace c)) s = true.
Proof.
  apply all_impl. intros c. unfold tame, plain.
  by intros [[_ ?]%andb_true_iff _]%andb_true_iff.
Qed.

(** [int(str(n))] is [n]. *)
Lemma int_str_of_int n : Py.int (str_of_int n) = Some n.
Proof.
  pose proof (tame_no_space _ (str_of_int_tame n)) as Hs.
  unfold str_of_int in *. cbv zeta in *.
  destruct (n <? 0) eqn:Hn.
  - apply Z.ltb_lt in Hn. rewrite (int_of_literal _ Hs).
    rewrite int_body_digits_of by (split; [lia|apply log2_bound; lia]).
    cbn [int_body fmap option_fmap option_map]. f_equal. lia.
  - apply Z.ltb_ge in Hn.
    pose proof (digits_of_S_digit_first (Z.to_nat (Z.log2 (Z.abs n))) (Z.abs n) "")
      as Hd.
    destruct (digits_of _ _ _) as [|c r] eqn:E; [done|].
    rewrite (int_digit_first _ c r Hs eq_refl Hd), <- E.
    rewrite int_body_digits_of by (split; [lia|apply log2_bound; lia]).
    cbn [int_body]. f_equal. lia.
Qed.

Lemma zero_pad_tame d n : Py.all tame (zero_pad d n) = true.
Proof.
  unfold zero_pad. cbv zeta. rewrite all_app, str_of_int_tame, andb_true_r.
  by apply all_drop, all_take.
Qed.

(** A formatted float holds no white space and no bar. *)
Lemma format_f_tame d x : Py.all tame (format_f d x) = true.
Proof.
  unfold format_f. cbv zeta. destruct (Prim2SF x) as [sg|sg| |sg m e].
  - rewrite all_app, zero_pad_tame. by destruct sg.
  - by destruct sg.
  - done.
  - rewrite !all_app, str_of_int_tame, zero_pad_tame. by destruct sg.
Qed.

(** No character of [s] is the bar, a carriage return or a line feed. *)
Definition clean (s : string) : bool :=
  Py.all (fun c => negb (Ascii.eqb c "|") && negb (Ascii.eqb c Create.CR)
                   && negb (Ascii.eqb c LF)) s.

Lemma tame_clean s : Py.all tame s = true -> clean s = true.
Proof.
  apply all_impl. intros c. unfold tame, plain.
  intros [[_ Hs]%andb_true_iff Hb]%andb_true_iff. rewrite Hb. cbn [andb].
  apply negb_true_iff in Hs.
  destruct (Ascii.eqb_spec c Create.CR) as [->|_]; [done|].
  destruct (Ascii.eqb_spec c LF) as [->|_]; done.
Qed.

(** The first character of [s], if there is one, is no white space. *)
Definition no_leading_space (s : string) : bool :=
  match s with String c _ => negb (isspace c) | EmptyString => true end.

Lemma split_field a r :
  Py.all (fun c => negb (Ascii.eqb c "|")) a = true ->
  split "|" (a +:+ String "|" r) = a :: split "|" r.
Proof.
  induction a as [|c a IH]; cbn [String.append split Py.all]; [done|].
  intros [Hc Ha]%andb_true_iff. apply negb_true_iff in Hc. rewrite Hc.
  by rewrite (IH Ha).
Qed.

Lemma split_last a :
  Py.all (fun c => negb (Ascii.eqb c "|")) a = true -> split "|" a = [a].
Proof.
  induction a as [|c a IH]; cbn [split Py.all]; [done|].
  intros [Hc Ha]%andb_true_iff. apply negb_true_iff in Hc. rewrite Hc.
  by rewrite (IH Ha).
Qed.

Lemma rstrip_app x y :
  nonempty (rstrip y) = true -> rstrip (x +:+ y) = x +:+ rstrip y.
Proof.
  intros Hy. induction x as [|c x IH]; cbn [String.append rstrip]; [done|].
  rewrite IH. destruct (x +:+ rstrip y) eqn:E; [|done].
  destruct x; cbn in E; [by rewrite E in Hy|done].
Qed.

Lemma rstrip_plain_lf s :
  Py.all plain s = true -> nonempty s = true -> rstrip (s +:+ lf) = s.
Proof.
  induction s as [|c s IH]; [done|]. cbn [Py.all String.append rstrip].
  intros [Hc Hs]%andb_true_iff _. destruct s as [|d s].
  - cbn. unfold plain in Hc. apply andb_true_iff in Hc as [_ Hc].
    apply negb_true_iff in Hc. by rewrite Hc.
  - by rewrite (IH Hs eq_refl).
Qed.

Lemma split_lines_line body rest :
  Py.all (fun c => negb (Ascii.eqb c LF)) body = true ->
  Create.split_lines (body +:+ lf +:+ rest)
  = (body +:+ lf) :: Create.split_lines rest.
Proof.
  induction body as [|c body IH]; cbn [String.append Create.split_lines Py.all].
  - intros _. unfold lf. cbn [String.append Create.split_lines].
    by rewrite Ascii.eqb_refl.
  - intros [Hc Hb]%andb_true_iff. apply negb_true_iff in Hc. rewrite Hc.
    by rewrite (IH Hb).
Qed.

(** A line of the candidates file: a candidate, its VSwitch and its
    price limit. *)
Definition line : Type := Select.candidate * string * float.

(** The text of the file after the lines have been written. *)
Definition text_of (ls : list line) : string :=
  fold_right (fun '(c, v, l) t => Select.candidate_line c v l +:+ t) "" ls.

(** The record the Provisioner should find for a line. *)
Definition entry_of (x : line) : Create.entry :=
  let '(c, v, l) := x in
  {| Create.e_instance_type := Select.cand_instance_type c;
     Create.e_zone_id := Select.cand_zone_id c;
     Create.e_vswitch_id := v;
     Create.e_spot_price_limit := format_4f l;
     Create.e_cpu_cores := Some (Select.cand_cpu_cores c) |}.

(** The texts of a line hold no bar, carriage return or line feed, and
    the instance type does not start with white space. *)
Definition readable (x : line) : bool :=
  let '(c, v, _) := x in
  clean (Select.cand_instance_type c)
  && no_leading_space (Select.cand_instance_type c)
  && clean (Select.cand_zone_id c) && clean v.

(** The fields of a line, joined by bars. *)
Definition body_of (x : line) : string :=
  let '(c, v, l) := x in
  Select.cand_instance_type c +:+ "|" +:+ Select.cand_zone_id c +:+ "|" +:+ v
  +:+ "|" +:+ format_4f l +:+ "|" +:+ str_of_int (Select.cand_cpu_cores c).

Lemma candidate_line_body c v l rest :
  Select.candidate_line c v l +:+ rest = body_of (c, v, l) +:+ lf +:+ rest.
Proof.
  unfold Select.candidate_line, body_of. apply chars_inj.
  rewrite !chars_app. by rewrite <- !app_assoc.
Qed.

Lemma clean_parts s :
  clean s = true ->
  Py.all (fun c => negb (Ascii.eqb c "|")) s = true
  /\ Py.all (fun c => negb (Ascii.eqb c LF)) s = true
  /\ UserDataFacts.no_cr s = true.
Proof.
  intros Hs. repeat split; revert Hs; apply all_impl; intros c;
    intros [[? ?]%andb_true_iff ?]%andb_true_iff; done.
Qed.

Lemma clean_app a b : clean (a +:+ b) = clean a && clean b.
Proof. apply all_app. Qed.

Lemma body_clean_but_bars x :
  readable x = true ->
  Py.all (fun c => negb (Ascii.eqb c LF)) (body_of x) = true
  /\ UserDataFacts.no_cr (body_of x) = true.
Proof.
  destruct x as [[c v] l]. unfold readable, body_of.
  intros [[[Ht _]%andb_true_iff Hz]%andb_true_iff Hv]%andb_true_iff.
  pose proof (tame_clean _ (format_f_tame 4 l)) as Hl.
  pose proof (tame_clean _ (str_of_int_tame (Select.cand_cpu_cores c))) as Hc.
  fold format_4f in Hl.
  apply clean_parts in Ht as (_ & Ht1 & Ht2), Hz as (_ & Hz1 & Hz2),
    Hv as (_ & Hv1 & Hv2), Hl as (_ & Hl1 & Hl2), Hc as (_ & Hc1 & Hc2).
  unfold UserDataFacts.no_cr in *.
  split; rewrite !all_app; cbn [Py.all];
    repeat (apply andb_true_iff; split); done.
Qed.

Lemma text_of_no_cr ls :
  forallb readable ls = true -> UserDataFacts.no_cr (text_of ls) = true.
Proof.
  induction ls as [|[[c v] l] ls IH]; [done|]. cbn [forallb text_of fold_right].
  intros [Hx Hls]%andb_true_iff. fold (text_of ls).
  rewrite candidate_line_body. unfold UserDataFacts.no_cr in *.
  rewrite !all_app. destruct (body_clean_but_bars _ Hx) as [_ Hb].
  unfold UserDataFacts.no_cr in Hb. rewrite Hb, (IH Hls). done.
Qed.

Lemma lstrip_no_leading s : no_leading_space s = true -> lstrip s = s.
Proof.
  destruct s as [|c s]; [done|]. cbn. intros Hc%negb_true_iff. by rewrite Hc.
Qed.

Lemma strip_body x :
  readable x = true -> strip (body_of x +:+ lf) = body_of x.
Proof.
  destruct x as [[c v] l]. intros Hx. unfold strip.
  assert (no_leading_space (body_of (c, v, l) +:+ lf) = true) as Hl.
  { unfold readable in Hx.
    apply andb_true_iff in Hx as [[[_ Hn]%andb_true_iff _]%andb_true_iff _].
    unfold body_of. by destruct (Select.cand_instance_type c). }
  rewrite (lstrip_no_leading _ Hl). unfold body_of.
  pose proof (rstrip_plain_lf _ (tame_plain _ (str_of_int_tame
                (Select.cand_cpu_cores c))) (str_of_int_nonempty _)) as Hr.
  assert (forall a b, (a +:+ b) +:+ lf = a +:+ b +:+ lf) as Hassoc.
  { intros a b. apply append_assoc. }
  set (pre := Select.cand_instance_type c +:+ "|" +:+ Select.cand_zone_id c
              +:+ "|" +:+ v +:+ "|" +:+ format_4f l +:+ "|").
  assert (Select.cand_instance_type c +:+ "|" +:+ Select.cand_zone_id c +:+ "|"
          +:+ v +:+ "|" +:+ format_4f l +:+ "|"
          +:+ str_of_int (Select.cand_cpu_cores c)
          = pre +:+ str_of_int (Select.cand_cpu_cores c)) as ->.
  { unfold pre. apply chars_inj. rewrite !chars_app. by rewrite <- !app_assoc. }
  rewrite append_assoc, rstrip_app; rewrite Hr; [done|].
  apply str_of_int_nonempty.
Qed.

Lemma split_body c v l :
  readable (c, v, l) = true ->
  split "|" (body_of (c, v, l))
  = [Select.cand_instance_type c; Select.cand_zone_id c; v; format_4f l;
     str_of_int (Select.cand_cpu_cores c)].
Proof.
  unfold readable, body_of.
  intros [[[Ht _]%andb_true_iff Hz]%andb_true_iff Hv]%andb_true_iff.
  pose proof (tame_clean _ (format_f_tame 4 l)) as Hl.
  pose proof (tame_clean _ (str_of_int_tame (Select.cand_cpu_cores c))) as Hc.
  fold format_4f in Hl.
  apply clean_parts in Ht as (Ht & _), Hz as (Hz & _), Hv as (Hv & _),
    Hl as (Hl & _), Hc as (Hc & _).
  change ("|" +:+ ?x) with (String "|" x).
  rewrite (split_field _ _ Ht). f_equal.
  change ("|" +:+ ?x) with (String "|" x).
  rewrite (split_field _ _ Hz). f_equal.
  change ("|" +:+ ?x) with (String "|" x).
  rewrite (split_field _ _ Hv). f_equal.
  change ("|" +:+ ?x) with (String "|" x).
  rewrite (split_field _ _ Hl). f_equal.
  by apply split_last.
Qed.

Section WithRuntime.
Context `{runtime}.

Lemma parse_lines_text ls : forall acc w,
  forallb readable ls = true ->
  Create.parse_lines (Create.split_lines (text_of ls)) acc w
  = ([], Ret (acc ++ map entry_of ls), w).
Proof.
  induction ls as [|[[c v] l] ls IH]; intros acc w.
  - intros _. cbn. by rewrite app_nil_r.
  - cbn [forallb text_of fold_right]. intros [Hx Hls]%andb_true_iff.
    fold (text_of ls). rewrite candidate_line_body.
    destruct (body_clean_but_bars _ Hx) as [Hlf _].
    rewrite (split_lines_line _ _ Hlf). cbn [Create.parse_lines]. cbv zeta.
    rewrite (strip_body _ Hx).
    assert (nonempty (body_of (c, v, l)) = true) as ->.
    { unfold body_of. by destruct (Select.cand_instance_type c). }
    cbn [negb]. rewrite (split_body _ _ _ Hx).
    rewrite str_of_int_nonempty, int_str_of_int, bind_ret_l.
    rewrite (IH _ _ Hls). cbn [map entry_of]. by rewrite <- app_assoc.
Qed.

(** X17.  The Provisioner reads back what the Selector wrote.  For
    every list of candidates, each with a VSwitch and a price limit,
    whose instance types, zones and VSwitches hold no bar, carriage
    return or line feed, and whose instance types do not start with
    white space: when the candidates file holds the lines the Selector
    writes for them, [parse_candidates_file] returns one record for each
    line, in order, with the same instance type, zone and VSwitch, the
    price limit as its four-decimal text, and the same number of cores;
    it raises nothing and prints nothing. *)
Theorem candidates_file_read_back (ls : list line) mc path w :
  forallb readable ls = true ->
  files mc !! path = Some (text_of ls) ->
  Create.parse_candidates_file mc path w = ([], Ret (map entry_of ls), w).
Proof.
  intros Hls Hfile. unfold Create.parse_candidates_file. rewrite Hfile.
  rewrite <- UserDataFacts.normalized_universal_newlines,
    (UserDataFacts.normalized_id _ (text_of_no_cr _ Hls)).
  by rewrite parse_lines_text.
Qed.

(** What a file holds after the writes [ws], all to that file. *)
Definition written_text (ws : list (string * string)) : string :=
  fold_right (fun '(_, t) acc => t +:+ acc) "" ws.

Lemma main_returns mc w ev u w1 :
  Select.main mc w = (ev, Ret u, w1) ->
  exists st data w0 ev2,
    Select.report mc st data w0 = (ev2, Ret u, w1)
    /\ writes_of ev = writes_of ev2.
Proof.
  unfold Select.main. intros E.
  apply bind_ret_inv in E as (ev0 & st & w0 & ev' & E0 & E & ->).
  rewrite bind_now in E.
  apply bind_ret_inv in E as (ev1 & res & w2 & ev'' & E1 & E & ->).
  destruct res as [[|x data]|]; try discriminate E.
  rewrite bind_now, bind_eprint in E.
  destruct (Select.report mc st (x :: data) w2) as [[ev2 o2] w3] eqn:E2.
  injection E as <- <- <-. exists st, (x :: data), w2, ev2. split; [done|].
  destruct (FileClaims.read_settings_silent _ _ _ _ _ E0) as [W0 _].
  destruct (FileClaims.strategy_loop_silent _ _ _ _ _ _ _ E1) as [W1 _].
  read_events. by rewrite W0, W1.
Qed.

Lemma lines_of_writes mc path written ws :
  Forall2 (FileClaims.line_of mc path) written ws ->
  exists ls : list line,
    written_text ws = text_of ls
    /\ length ls = length ws
    /\ Forall (fun '(c, v, _) =>
                 nonempty v = true
                 /\ Select.get_vswitch_id (environ mc) (Select.cand_zone_id c)
                    = Some v) ls
    /\ map (fun x : line => x.1.1) ls = written.
Proof.
  induction 1 as [|c [p t] written ws Hl _ IH].
  - by exists [].
  - destruct IH as (ls & Ht & Hlen & Hall & Hmap).
    destruct Hl as (_ & v & total & Hv & Hn & _ & Htext). cbn [snd] in Htext.
    exists ((c, v, PrimFloat.mul total lit_1_2) :: ls).
    cbn [written_text text_of fold_right length map fst].
    fold (written_text ws). fold (text_of ls).
    rewrite Ht, Hlen, Hmap, Htext. split; [|split; [done|split; [|done]]].
    + unfold Select.candidate_line. apply chars_inj.
      rewrite !chars_app. by rewrite <- !app_assoc.
    + by constructor.
Qed.

(** X18.  From the Selector's run to the Provisioner's candidates.  When
    [main] of the Selector returns, what it wrote to the candidates file
    is the text of between one and five lines, each for a candidate
    whose zone resolves to the non-empty VSwitch of the line.  If the
    instance types, zones and VSwitches of these lines hold no bar,
    carriage return or line feed and no instance type starts with white
    space, then on any machine where the file holds this text the
    Provisioner parses exactly one record for each line, in order, and
    every record has a VSwitch, so that no candidate is passed over. *)
Theorem selector_file_feeds_provisioner mc w ev w1 :
  Select.main mc w = (ev, Ret tt, w1) ->
  exists ls : list line,
    written_text (writes_of ev) = text_of ls
    /\ (1 <= length ls <= 5)%nat
    /\ Forall (fun wr => wr.1 = tmp_name mc) (writes_of ev)
    /\ Forall (fun '(c, v, _) =>
                 nonempty v = true
                 /\ Select.get_vswitch_id (environ mc) (Select.cand_zone_id c)
                    = Some v) ls
    /\ (forallb readable ls = true ->
        forall mc' w',
          files mc' !! tmp_name mc = Some (written_text (writes_of ev)) ->
          Create.parse_candidates_file mc' (tmp_name mc) w'
          = ([], Ret (map entry_of ls), w')
          /\ Forall (fun e => nonempty (Create.e_vswitch_id e) = true)
               (map entry_of ls)
          /\ CreateMore.with_vswitch (map entry_of ls) = map entry_of ls).
Proof.
  intros E. destruct (main_returns _ _ _ _ _ E) as (st & data & w0 & ev2 & Er & ->).
  destruct (FileClaims.report_lines _ _ _ _ _ _ _ Er)
    as (picked & written & _ & _ & Hlen & Hlines).
  destruct (lines_of_writes _ _ _ _ Hlines) as (ls & Ht & Hl & Hall & Hmap).
  exists ls. split; [done|].
  pose proof (SelectMore.report_announced _ _ _ _ _ _ _ Er) as Ha.
  cbn [SelectMore.announced] in Ha. destruct Ha as (c & v & l & more & Hw & _).
  split.
  { rewrite Hl, Hw. cbn [length]. split; [lia|].
    apply Forall2_length in Hlines. rewrite Hw in Hlines. cbn [length] in *. lia. }
  split.
  { clear -Hlines. induction Hlines as [|c0 [p t] ? ? Hc _ IH]; constructor;
      [apply Hc|exact IH]. }
  split; [done|].
  intros Hr mc' w' Hfile. rewrite Ht in Hfile.
  assert (Forall (fun e => nonempty (Create.e_vswitch_id e) = true)
            (map entry_of ls)) as Hv.
  { clear -Hall. induction Hall as [|[[c0 v0] l0] ls [Hn _] _ IH];
      constructor; [exact Hn|exact IH]. }
  split; [|split; [done|]].
  { unfold Create.parse_candidates_file. rewrite Hfile.
    rewrite <- UserDataFacts.normalized_universal_newlines,
      (UserDataFacts.normalized_id _ (text_of_no_cr _ Hr)).
    by rewrite parse_lines_text. }
  clear -Hv. unfold CreateMore.with_vswitch.
  induction Hv as [|e es He _ IH]; [done|]. cbn [List.filter].
  by rewrite He, IH.
Qed.

End WithRuntime.

(** X17 at two candidates. *)
Lemma candidates_file_read_back_witness :
  let c1 := {| Select.cand_instance_type := "ecs.c7.large";
               Select.cand_zone_id := "cn-hangzhou-k";
               Select.cand_price_per_core := 0.5%float;
               Select.cand_cpu_cores := 2 |} in
  let c2 := {| Select.cand_instance_type := "ecs.g7.2xlarge";
               Select.cand_zone_id := "cn-hangzhou-j";
               Select.cand_price_per_core := 0.5%float;
               Select.cand_cpu_cores := 8 |} in
  let text := "ecs.c7.large|cn-hangzhou-k|vsw-k|1.2000|2" +:+ lf
              +:+ "ecs.g7.2xlarge|cn-hangzhou-j|vsw-j|4.8000|8" +:+ lf in
  text_of [(c1, "vsw-k", 0x1.3333333333333p+0%float);
           (c2, "vsw-j", 0x1.3333333333333p+2%float)] = text
  /\ Create.parse_candidates_file (H:=Fixture.scripted)
       (Fixture.machine_of ∅ {[ "/tmp/c.txt" := text ]} [] "") "/tmp/c.txt" []
     = ([], Ret [ {| Create.e_instance_type := "ecs.c7.large";
                    Create.e_zone_id := "cn-hangzhou-k";
                    Create.e_vswitch_id := "vsw-k";
                    Create.e_spot_price_limit := "1.2000";
                    Create.e_cpu_cores := Some 2 |};
                 {| Create.e_instance_type := "ecs.g7.2xlarge";
                    Create.e_zone_id := "cn-hangzhou-j";
                    Create.e_vswitch_id := "vsw-j";
                    Create.e_spot_price_limit := "4.8000";
                    Create.e_cpu_cores := Some 8 |} ], []).
Proof.
  intros c1 c2 text. split; [by vm_compute|].
  exact (candidates_file_read_back (H:=Fixture.scripted)
           [(c1, "vsw-k", 0x1.3333333333333p+0%float);
            (c2, "vsw-j", 0x1.3333333333333p+2%float)]
           (Fixture.machine_of ∅ {[ "/tmp/c.txt" := text ]} [] "")
           "/tmp/c.txt" [] eq_refl eq_refl).
Defined.

(** X18 at the example machine of the Selector, with an advisor that
    answers the first query with one offer. *)
Lemma selector_file_feeds_provisioner_witness :
  exists ev (ls : list line),
    Select.main (H:=Fixture.scripted) SelectMore.example_machine
      [Completed 0 Fixture.offers_doc ""] = (ev, Ret tt, [])
    /\ written_text (writes_of ev) = text_of ls
    /\ (1 <= length ls <= 5)%nat.
Proof.
  pose (r := Select.main (H:=Fixture.scripted) SelectMore.example_machine
               [Completed 0 Fixture.offers_doc ""]).
  assert (Select.main (H:=Fixture.scripted) SelectMore.example_machine
            [Completed 0 Fixture.offers_doc ""] = (r.1.1, Ret tt, [])) as E
    by (vm_compute; reflexivity).
  destruct (selector_file_feeds_provisioner (H:=Fixture.scripted) _ _ _ _ E)
    as (ls & H1 & H2 & _).
  exists r.1.1, ls. split; [exact E|]. split; [exact H1|exact H2].
Defined.

End Handover.

(** ** [create_spot_instance.py]: the image *)
Module Image.
Import Py.

(** How a step ends in which an [AttributeError] may reach the top: with
    a value, or with that exception, for which [exn] has no name.  Like
    the exceptions of [exn] it ends the script with a traceback and exit
    status 1. *)
Inductive attr (A : Type) : Type :=
| Got (a : A)
| AttributeError.
Arguments Got {A} a.
Arguments AttributeError {A}.

(** The command line of [get_image_from_family]. *)
Definition image_family_cmd (region_id image_family : string) : list string :=
  ["aliyun"; "ecs"; "DescribeImageFromFamily";
   "--RegionId"; region_id; "--ImageFamily"; image_family].

Section WithRuntime.
Context `{runtime}.

(** [get_image_from_family].  The result [{"ImageId": image_id}] is
    given as [Some image_id]. *)
Definition get_image_from_family (region_id image_family : string)
  : M (attr (option json)) :=
  let cmd := image_family_cmd region_id image_family in
  let* result := run cmd in
  match result with
  | Completed returncode stdout stderr =>
      if negb (returncode =? 0) then
        eprint ("Warning: Failed to query image from family " +:+ image_family
                +:+ " (exit code: " +:+ str_of_int returncode +:+ ")") ;;
        (if nonempty stderr
         then eprint ("Error output: " +:+ take 200 stderr)
         else ret tt) ;;
        ret (Got None)
      else if nonempty stdout then
        match json_loads stdout with
        | None =>
            eprint ("Warning: Failed to parse JSON response: "
                    +:+ json_error stdout) ;;
            ret (Got None)
        | Some data =>
            (* Image information is in the Image field *)
            let* present := Select.has_key data "Image" in
            if present then
              let* image := Select.getitem data "Image" in
              if truthy image then
                match image with
                | JObj items =>
                    let image_id := default (JStr "") (assoc "ImageId" items) in
                    if truthy image_id then
                      eprint ("Found latest image from family " +:+ image_family
                              +:+ ": " +:+ str_of image_id) ;;
                      ret (Got (Some image_id))
                    else ret (Got None)
                | _ => ret AttributeError
                end
              else ret (Got None)
            else ret (Got None)
        end
      else ret (Got None)
  | SubprocessError msg | OSError msg =>
      eprint ("Warning: Failed to query image from family " +:+ image_family
              +:+ ": " +:+ msg) ;;
      ret (Got None)
  end.

(** The second method of [get_image_id]: the environment variable. *)
Definition image_id_from_environment (mc : machine) : M (attr json) :=
  match environ mc !! "ALIYUN_IMAGE_ID" with
  | Some image_id =>
      if nonempty image_id then ret (Got (JStr image_id))
      else error_exit ("Either ALIYUN_IMAGE_FAMILY or ALIYUN_IMAGE_ID must be set. "
                       +:+ "If using ALIYUN_IMAGE_ID, it must be provided.")
  | None =>
      error_exit ("Either ALIYUN_IMAGE_FAMILY or ALIYUN_IMAGE_ID must be set. "
                  +:+ "If using ALIYUN_IMAGE_ID, it must be provided.")
  end.

(** [get_image_id]. *)
Definition get_image_id (mc : machine) (region_id : string) : M (attr json) :=
  (* Method 1: Priority - get from image family *)
  match environ mc !! "ALIYUN_IMAGE_FAMILY" with
  | Some image_family =>
      if nonempty image_family then
        eprint ("Getting latest image from family: " +:+ image_family) ;;
        let* image_info := get_image_from_family region_id image_family in
        match image_info with
        | Got (Some image_id) => ret (Got image_id)
        | Got None =>
            eprint ("Warning: Failed to get image from family " +:+ image_family
                    +:+ ", falling back to ALIYUN_IMAGE_ID") ;;
            (* Method 2: Get image ID directly from environment variable *)
            image_id_from_environment mc
        | AttributeError => ret AttributeError
        end
      else image_id_from_environment mc
  | None => image_id_from_environment mc
  end.

End WithRuntime.
End Image.

(** ** Facts about the image *)
Module ImageFacts.
Import Py PyFacts Image.

Section WithRuntime.
Context `{runtime}.

(** The image family is configured. *)
Definition family_of (mc : machine) : option string :=
  match environ mc !! "ALIYUN_IMAGE_FAMILY" with
  | Some family => if nonempty family then Some family else None
  | None => None
  end.

(** How a step of resolving the image can end. *)
Definition ends {A} (ok : A -> Prop) (o : outcome (attr A)) : Prop :=
  match o with
  | Ret (Got a) => ok a
  | Ret AttributeError => True
  | Exit n => n = 1
  | Uncaught e => e = TypeError
  end.

(** What a step of resolving the image leaves behind: nothing on
    standard output, no file written, the commands [cmds] run. *)
Definition resolved {A} (ok : A -> Prop) (cmds : list (list string))
    (x : list event * outcome (attr A) * world) : Prop :=
  match x with
  | (ev, o, _) =>
      stdout_of ev = [] /\ writes_of ev = [] /\ runs_of ev = cmds /\ ends ok o
  end.

Lemma image_id_from_environment_resolved mc w :
  resolved (fun id => truthy id = true) [] (image_id_from_environment mc w).
Proof.
  unfold image_id_from_environment.
  destruct (environ mc !! "ALIYUN_IMAGE_ID") as [id|];
    [destruct (nonempty id) eqn:Hn|]; cbn; repeat split; auto.
Qed.

Lemma get_image_from_family_resolved region_id family w :
  resolved (fun r => match r with Some id => truthy id = true | None => True end)
    [image_family_cmd region_id family]
    (get_image_from_family region_id family w).
Proof.
  unfold get_image_from_family. cbv zeta.
  destruct (subprocess_run (image_family_cmd region_id family) w) as [r w1] eqn:Er.
  rewrite (bind_run _ _ _ _ _ Er).
  destruct r as [code out err|msg|msg]; [|by cbn; auto..].
  destruct (negb (code =? 0)).
  { rewrite bind_eprint. destruct (nonempty err); cbn; auto. }
  destruct (nonempty out); [|by cbn; auto].
  destruct (json_loads out) as [data|]; [|by cbn; auto].
  unfold Select.has_key, Select.getitem.
  destruct data as [| | | |s|l|items]; try (by cbn; auto).
  - rewrite bind_ret_l. destruct (contains "Image" s); by cbn; auto.
  - rewrite bind_ret_l. destruct (existsb _ l); by cbn; auto.
  - rewrite bind_ret_l. destruct (assoc "Image" items) as [image|]; [|by cbn; auto].
    rewrite bind_ret_l. destruct (truthy image); [|by cbn; auto].
    destruct image as [| | | | | |image]; try (by cbn; auto).
    destruct (truthy (default (JStr "") (assoc "ImageId" image))) eqn:Ht;
      by cbn; auto.
Qed.

(** The commands [get_image_id] runs: the query of the configured
    family, or none. *)
Lemma get_image_id_resolved mc region_id w :
  exists cmds,
    (cmds = []
     \/ exists family,
          family_of mc = Some family
          /\ cmds = [image_family_cmd region_id family])
    /\ resolved (fun id => truthy id = true) cmds (get_image_id mc region_id w).
Proof.
  unfold get_image_id, family_of.
  destruct (environ mc !! "ALIYUN_IMAGE_FAMILY") as [family|] eqn:Hf.
  2:{ exists []. split; [by left|]. apply image_id_from_environment_resolved. }
  destruct (nonempty family) eqn:Hn.
  2:{ exists []. split; [by left|]. apply image_id_from_environment_resolved. }
  exists [image_family_cmd region_id family]. split; [right; by exists family|].
  rewrite bind_eprint.
  pose proof (get_image_from_family_resolved region_id family w) as Hr.
  destruct (get_image_from_family region_id family w) as [[ev [r|n|e]] w1] eqn:E;
    cbn [resolved] in Hr; destruct Hr as (Hs & Hw & Hruns & Ho).
  - rewrite (bind_ret _ _ _ _ _ _ E). destruct r as [[id|]|].
    + unfold ret. cbn [after resolved]. read_events. by rewrite Hs, Hw, Hruns.
    + rewrite bind_eprint.
      pose proof (image_id_from_environment_resolved mc w1) as Hr2.
      destruct (image_id_from_environment mc w1) as [[ev2 o2] w2].
      destruct Hr2 as (Hs2 & Hw2 & Hruns2 & Ho2). cbn [after resolved]. read_events.
      by rewrite Hs, Hs2, Hw, Hw2, Hruns, Hruns2.
    + unfold ret. cbn [after resolved]. read_events. by rewrite Hs, Hw, Hruns.
  - rewrite (bind_exit _ _ _ _ _ _ E). cbn [after resolved]. read_events.
    by rewrite Hs, Hw, Hruns.
  - rewrite (bind_uncaught _ _ _ _ _ _ E). cbn [after resolved]. read_events.
    by rewrite Hs, Hw, Hruns.
Qed.


(** A query of the family that gives no image in one of the ways the
    function handles: the process fails or cannot be run, or its output
    is empty or no JSON. *)
Definition query_fails (r : proc_result) : Prop :=
  match r with
  | Completed returncode stdout _ =>
      returncode <> 0 \/ stdout = "" \/ json_loads stdout = None
  | _ => True
  end.

(** X20.  Where the image identifier comes from.  Without a configured
    family no command is run and the identifier is ALIYUN_IMAGE_ID, or
    the run ends with exit status 1 when that is unset or empty.  With a
    family, an answer of the query that holds a non-empty ImageId under
    Image gives that identifier, whatever ALIYUN_IMAGE_ID holds; a query
    that fails is followed, after a warning, by the resolution from
    ALIYUN_IMAGE_ID. *)
Theorem image_id_sources mc region_id w :
  (family_of mc = None ->
   get_image_id mc region_id w = image_id_from_environment mc w)
  /\ (forall image_id,
      environ mc !! "ALIYUN_IMAGE_ID" = Some image_id ->
      nonempty image_id = true ->
      image_id_from_environment mc w = ([], Ret (Got (JStr image_id)), w))
  /\ (Create.given (environ mc !! "ALIYUN_IMAGE_ID") = false ->
      image_id_from_environment mc w
      = ([Stderr ("Error: Either ALIYUN_IMAGE_FAMILY or ALIYUN_IMAGE_ID must be set. "
                  +:+ "If using ALIYUN_IMAGE_ID, it must be provided.")],
         Exit 1, w))
  /\ (forall family out err w1 items image image_id,
      family_of mc = Some family ->
      subprocess_run (image_family_cmd region_id family) w
      = (Completed 0 out err, w1) ->
      json_loads out = Some (JObj items) ->
      assoc "Image" items = Some (JObj image) ->
      assoc "ImageId" image = Some image_id ->
      truthy image_id = true ->
      get_image_id mc region_id w
      = ([Stderr ("Getting latest image from family: " +:+ family);
          Run (image_family_cmd region_id family);
          Stderr ("Found latest image from family " +:+ family +:+ ": "
                  +:+ str_of image_id)],
         Ret (Got image_id), w1))
  /\ (forall family r w1,
      family_of mc = Some family ->
      subprocess_run (image_family_cmd region_id family) w = (r, w1) ->
      query_fails r ->
      exists ev,
        get_image_id mc region_id w
        = after (Stderr ("Getting latest image from family: " +:+ family)
                 :: Run (image_family_cmd region_id family) :: ev
                 ++ [Stderr ("Warning: Failed to get image from family "
                             +:+ family +:+ ", falling back to ALIYUN_IMAGE_ID")])
            (image_id_from_environment mc w1)
        /\ runs_of ev = [] /\ stdout_of ev = []).
Proof.
  split; [|split; [|split; [|split]]].
  - unfold family_of, get_image_id.
    destruct (environ mc !! "ALIYUN_IMAGE_FAMILY") as [f|]; [|done].
    by destruct (nonempty f).
  - intros id E Hn. unfold image_id_from_environment. by rewrite E, Hn.
  - unfold image_id_from_environment, Create.given.
    destruct (environ mc !! "ALIYUN_IMAGE_ID") as [id|]; [|done].
    by intros ->.
  - intros family out err w1 items image image_id Hf Hrun Hj Hi Hid Ht.
    unfold family_of in Hf. unfold get_image_id.
    destruct (environ mc !! "ALIYUN_IMAGE_FAMILY") as [f|]; [|done].
    destruct (nonempty f) eqn:Hn; [|done]. injection Hf as ->.
    rewrite bind_eprint.
    assert (get_image_from_family region_id family w
            = ([Run (image_family_cmd region_id family);
                Stderr ("Found latest image from family " +:+ family +:+ ": "
                        +:+ str_of image_id)], Ret (Got (Some image_id)), w1))
      as E.
    { unfold get_image_from_family. cbv zeta. rewrite (bind_run _ _ _ _ _ Hrun).
      cbn [Z.eqb negb].
      assert (nonempty out = true) as ->.
      { destruct out; [|done]. by rewrite json_loads_blank in Hj. }
      rewrite Hj. unfold Select.has_key, Select.getitem. rewrite Hi.
      rewrite !bind_ret_l.
      assert (truthy (JObj image) = true) as ->.
      { destruct image; [discriminate Hid|done]. }
      rewrite Hid. cbn [default from_option id]. by rewrite Ht. }
    by rewrite (bind_ret _ _ _ _ _ _ E).
  - intros family r w1 Hf Hrun Hq.
    unfold family_of in Hf. unfold get_image_id.
    destruct (environ mc !! "ALIYUN_IMAGE_FAMILY") as [f|]; [|done].
    destruct (nonempty f) eqn:Hn; [|done]. injection Hf as ->.
    rewrite bind_eprint.
    assert (exists ev,
              get_image_from_family region_id family w
              = (Run (image_family_cmd region_id family) :: ev, Ret (Got None), w1)
              /\ runs_of ev = [] /\ stdout_of ev = []) as (ev & E & Hr & Hs).
    { unfold get_image_from_family. cbv zeta. rewrite (bind_run _ _ _ _ _ Hrun).
      destruct r as [code out err|msg|msg].
      - destruct (code =? 0) eqn:Hc; cbn [negb].
        + apply Z.eqb_eq in Hc. destruct Hq as [Hq|[->|Hq]]; [done| |].
          * by eexists.
          * destruct (nonempty out); [|by eexists]. rewrite Hq. by eexists.
        + rewrite bind_eprint. destruct (nonempty err); by eexists.
      - by eexists.
      - by eexists. }
    exists ev. split; [|done]. rewrite (bind_ret _ _ _ _ _ _ E), bind_eprint.
    destruct (image_id_from_environment mc w1) as [[ev2 o2] w2].
    cbn [after app]. by rewrite <- !app_assoc.
Qed.

End WithRuntime.
End ImageFacts.

(** ** [create_spot_instance.py]: [main] up to the retry loops *)
Module Prepare.
Import Py Image.

(** An [OSError] is a [FileNotFoundError] when its error number is 2
    (ENOENT); its text then starts with that number in brackets. *)
Definition file_not_found (msg : string) : bool :=
  startswith "[Errno 2] " msg.

(** What [main] holds when it reaches the retry loops: the environment
    as it has set it, the image identifier, and the parameters of the
    loops.  The image identifier of the parameters is the text of
    [pr_image_id], which is the identifier itself when that is a text. *)
Record prepared : Type := {
  pr_environ : gmap string string;
  pr_image_id : json;
  pr_vpc_id : string;
  pr_arch : string;
  pr_params : Create.params;
}.

Section WithRuntime.
Context `{runtime}.

(** [subprocess.run(["aliyun", "--version"], capture_output=True,
    check=True)] in its [try]. *)
Definition verify_installed : M unit :=
  let failed : M unit :=
    error_exit ("Aliyun CLI is not installed or not in PATH. "
                +:+ "Please ensure aliyun-cli-setup-action is used in the workflow") in
  let* result := run ["aliyun"; "--version"] in
  match result with
  | Completed returncode _ _ => if returncode =? 0 then ret tt else failed
  | SubprocessError _ => failed
  | OSError msg => if file_not_found msg then failed else raise UncaughtOSError
  end.

(** [subprocess.run(["aliyun", "configure", "get"], capture_output=True,
    check=False)] in its [try]. *)
Definition verify_configuration : M unit :=
  let warn : M unit :=
    eprint "Warning: Aliyun CLI configuration check failed, but continuing..." in
  let* result := run ["aliyun"; "configure"; "get"] in
  match result with
  | Completed _ _ _ => ret tt
  | SubprocessError _ => warn
  | OSError msg => if file_not_found msg then warn else raise UncaughtOSError
  end.

(** [main] from its first line to the line before the retry
    mechanism. *)
Definition prepare (mc : machine) : M (attr prepared) :=
  (* Get parameters from environment variables *)
  let* access_key_id := get_env_var mc "ALIYUN_ACCESS_KEY_ID" in
  let* access_key_secret := get_env_var mc "ALIYUN_ACCESS_KEY_SECRET" in
  let* region_id := get_env_var mc "ALIYUN_REGION_ID" in
  let* vpc_id := get_env_var mc "ALIYUN_VPC_ID" in
  let* security_group_id := get_env_var mc "ALIYUN_SECURITY_GROUP_ID" in
  let vswitch_id := environ mc !! "ALIYUN_VSWITCH_ID" in
  let key_pair_name := environ mc !! "ALIYUN_KEY_PAIR_NAME" in
  let ram_role_name := environ mc !! "ALIYUN_ECS_SELF_DESTRUCT_ROLE_NAME" in
  let instance_type := environ mc !! "INSTANCE_TYPE" in
  let* instance_name := get_env_var mc "INSTANCE_NAME" in
  let arch := env_get mc "ARCH" "amd64" in
  let spot_price_limit := environ mc !! "SPOT_PRICE_LIMIT" in
  let candidates_file := environ mc !! "CANDIDATES_FILE" in
  (* Use unified function to get image ID (supports image family) *)
  let* image := get_image_id mc region_id in
  match image with
  | AttributeError => ret AttributeError
  | Got image_id =>
      (* Configure Aliyun CLI environment variables *)
      let environ' :=
        <["ALIBABA_CLOUD_ACCESS_KEY_SECRET" := access_key_secret]>
          (<["ALIBABA_CLOUD_ACCESS_KEY_ID" := access_key_id]> (environ mc)) in
      (* Verify Aliyun CLI is installed *)
      verify_installed ;;
      (* Verify Aliyun CLI configuration *)
      eprint "Verifying Aliyun CLI configuration..." ;;
      verify_configuration ;;
      (* Read User Data *)
      let* user_data_content := UserData.user_data_content_of mc in
      eprint "=== Creating Spot Instance ===" ;;
      eprint ("Instance Name: " +:+ instance_name) ;;
      eprint ("Instance Type: " +:+ Create.show_opt instance_type) ;;
      eprint ("Region: " +:+ region_id) ;;
      eprint ("Architecture: " +:+ arch) ;;
      eprint ("VPC ID: " +:+ vpc_id) ;;
      eprint ("VSwitch ID: " +:+ Create.show_opt vswitch_id) ;;
      eprint ("Security Group ID: " +:+ security_group_id) ;;
      eprint ("Image ID: " +:+ str_of image_id) ;;
      (if Create.given key_pair_name
       then eprint ("Key Pair Name: " +:+ default "" key_pair_name)
       else ret tt) ;;
      (if Create.given spot_price_limit
       then eprint ("Spot Price Limit: " +:+ default "" spot_price_limit)
       else ret tt) ;;
      ret (Got {| pr_environ := environ';
                  pr_image_id := image_id;
                  pr_vpc_id := vpc_id;
                  pr_arch := arch;
                  pr_params :=
                    {| Create.region_id := region_id;
                       Create.image_id := str_of image_id;
                       Create.security_group_id := security_group_id;
                       Create.instance_name := instance_name;
                       Create.vswitch_id := vswitch_id;
                       Create.key_pair_name := key_pair_name;
                       Create.ram_role_name := ram_role_name;
                       Create.instance_type := instance_type;
                       Create.spot_price_limit := spot_price_limit;
                       Create.candidates_file := candidates_file;
                       Create.user_data_content := user_data_content |} |})
  end.

End WithRuntime.
End Prepare.

(** ** Facts about [main] up to the retry loops *)
Module PrepareFacts.
Import Py PyFacts Image ImageFacts Prepare.

(** The variables [main] must find, in the order it asks for them. *)
Definition required : list string :=
  ["ALIYUN_ACCESS_KEY_ID"; "ALIYUN_ACCESS_KEY_SECRET"; "ALIYUN_REGION_ID";
   "ALIYUN_VPC_ID"; "ALIYUN_SECURITY_GROUP_ID"; "INSTANCE_NAME"].

Definition missing (mc : machine) (name : string) : bool :=
  match environ mc !! name with None => true | Some _ => false end.

(** The first of them that is not set. *)
Definition first_missing (mc : machine) : option string :=
  List.find (missing mc) required.

(** The two checks of the command line tool. *)
Definition version_cmd : list string := ["aliyun"; "--version"].
Definition configure_cmd : list string := ["aliyun"; "configure"; "get"].

(** How a check went: it passed, it failed in a way its handler
    catches, or it raised an [OSError] the handler does not catch. *)
Inductive verdict : Type := Passed | Failed | Crashed.

Definition installed (r : proc_result) : verdict :=
  match r with
  | Completed returncode _ _ => if returncode =? 0 then Passed else Failed
  | SubprocessError _ => Failed
  | OSError msg => if file_not_found msg then Failed else Crashed
  end.

Definition configured (r : proc_result) : verdict :=
  match r with
  | Completed _ _ _ => Passed
  | SubprocessError _ => Failed
  | OSError msg => if file_not_found msg then Failed else Crashed
  end.

Section WithRuntime.
Context `{runtime}.

(** What [main] holds at the retry loops on the machine [mc], for the
    image identifier [image_id] and the user data [content]. *)
Definition record_of (mc : machine) (image_id : json) (content : option string)
  : prepared :=
  {| pr_environ :=
       <["ALIBABA_CLOUD_ACCESS_KEY_SECRET" := env_get mc "ALIYUN_ACCESS_KEY_SECRET" ""]>
         (<["ALIBABA_CLOUD_ACCESS_KEY_ID" := env_get mc "ALIYUN_ACCESS_KEY_ID" ""]>
            (environ mc));
     pr_image_id := image_id;
     pr_vpc_id := env_get mc "ALIYUN_VPC_ID" "";
     pr_arch := env_get mc "ARCH" "amd64";
     pr_params :=
       {| Create.region_id := env_get mc "ALIYUN_REGION_ID" "";
          Create.image_id := str_of image_id;
          Create.security_group_id := env_get mc "ALIYUN_SECURITY_GROUP_ID" "";
          Create.instance_name := env_get mc "INSTANCE_NAME" "";
          Create.vswitch_id := environ mc !! "ALIYUN_VSWITCH_ID";
          Create.key_pair_name := environ mc !! "ALIYUN_KEY_PAIR_NAME";
          Create.ram_role_name := environ mc !! "ALIYUN_ECS_SELF_DESTRUCT_ROLE_NAME";
          Create.instance_type := environ mc !! "INSTANCE_TYPE";
          Create.spot_price_limit := environ mc !! "SPOT_PRICE_LIMIT";
          Create.candidates_file := environ mc !! "CANDIDATES_FILE";
          Create.user_data_content := content |} |}.

(** The lines that announce the creation. *)
Definition announced (pr : prepared) : list string :=
  let p := pr_params pr in
  ["=== Creating Spot Instance ===";
   "Instance Name: " +:+ Create.instance_name p;
   "Instance Type: " +:+ Create.show_opt (Create.instance_type p);
   "Region: " +:+ Create.region_id p;
   "Architecture: " +:+ pr_arch pr;
   "VPC ID: " +:+ pr_vpc_id pr;
   "VSwitch ID: " +:+ Create.show_opt (Create.vswitch_id p);
   "Security Group ID: " +:+ Create.security_group_id p;
   "Image ID: " +:+ Create.image_id p]
  ++ (if Create.given (Create.key_pair_name p)
      then ["Key Pair Name: " +:+ default "" (Create.key_pair_name p)] else [])
  ++ (if Create.given (Create.spot_price_limit p)
      then ["Spot Price Limit: " +:+ default "" (Create.spot_price_limit p)]
      else []).

(** [main] from the check of the installation on. *)
Definition go_on (mc : machine) (image : attr json) : M (attr prepared) :=
  match image with
  | AttributeError => ret AttributeError
  | Got image_id =>
      verify_installed ;;
      eprint "Verifying Aliyun CLI configuration..." ;;
      verify_configuration ;;
      let* content := UserData.user_data_content_of mc in
      fun w => (Stderr <$> announced (record_of mc image_id content),
                Ret (Got (record_of mc image_id content)), w)
  end.

Lemma bind_ext {A B} (m : M A) (k1 k2 : A -> M B) w :
  (forall a w', k1 a w' = k2 a w') -> bind m k1 w = bind m k2 w.
Proof.
  intros Hk. unfold bind. destruct (m w) as [[ev [a|n|e]] w1]; [|done..].
  by rewrite Hk.
Qed.

Lemma get_env_var_set mc name w :
  missing mc name = false ->
  exists v, environ mc !! name = Some v
            /\ get_env_var mc name w = ([], Ret v, w).
Proof.
  unfold missing, get_env_var. destruct (environ mc !! name) as [v|]; [|done].
  intros _. by exists v.
Qed.

Lemma get_env_var_missing mc name w :
  missing mc name = true ->
  get_env_var mc name w
  = ([Stderr ("Error: " +:+ name +:+ " is required")], Exit 1, w).
Proof.
  unfold missing, get_env_var. by destruct (environ mc !! name) as [v|].
Qed.

(** [main] when one of the required variables is missing, and when none
    is. *)
Lemma prepare_required mc w :
  match first_missing mc with
  | Some name =>
      prepare mc w
      = ([Stderr ("Error: " +:+ name +:+ " is required")], Exit 1, w)
  | None =>
      Forall (fun name => is_Some (environ mc !! name)) required
      /\ prepare mc w
         = bind (get_image_id mc (env_get mc "ALIYUN_REGION_ID" "")) (go_on mc) w
  end.
Proof.
  unfold first_missing, required. cbn [List.find].
  unfold prepare.
  destruct (missing mc "ALIYUN_ACCESS_KEY_ID") eqn:M1.
  { by rewrite (bind_exit _ _ _ _ _ _ (get_env_var_missing _ _ w M1)). }
  destruct (get_env_var_set _ _ w M1) as (v1 & S1 & E1).
  rewrite (bind_ret _ _ _ _ _ _ E1), after_nil.
  destruct (missing mc "ALIYUN_ACCESS_KEY_SECRET") eqn:M2.
  { by rewrite (bind_exit _ _ _ _ _ _ (get_env_var_missing _ _ w M2)). }
  destruct (get_env_var_set _ _ w M2) as (v2 & S2 & E2).
  rewrite (bind_ret _ _ _ _ _ _ E2), after_nil.
  destruct (missing mc "ALIYUN_REGION_ID") eqn:M3.
  { by rewrite (bind_exit _ _ _ _ _ _ (get_env_var_missing _ _ w M3)). }
  destruct (get_env_var_set _ _ w M3) as (v3 & S3 & E3).
  rewrite (bind_ret _ _ _ _ _ _ E3), after_nil.
  destruct (missing mc "ALIYUN_VPC_ID") eqn:M4.
  { by rewrite (bind_exit _ _ _ _ _ _ (get_env_var_missing _ _ w M4)). }
  destruct (get_env_var_set _ _ w M4) as (v4 & S4 & E4).
  rewrite (bind_ret _ _ _ _ _ _ E4), after_nil.
  destruct (missing mc "ALIYUN_SECURITY_GROUP_ID") eqn:M5.
  { by rewrite (bind_exit _ _ _ _ _ _ (get_env_var_missing _ _ w M5)). }
  destruct (get_env_var_set _ _ w M5) as (v5 & S5 & E5).
  rewrite (bind_ret _ _ _ _ _ _ E5), after_nil. cbv zeta.
  destruct (missing mc "INSTANCE_NAME") eqn:M6.
  { by rewrite (bind_exit _ _ _ _ _ _ (get_env_var_missing _ _ w M6)). }
  destruct (get_env_var_set _ _ w M6) as (v6 & S6 & E6).
  rewrite (bind_ret _ _ _ _ _ _ E6), after_nil.
  split; [repeat constructor; by eexists|].
  unfold env_get. rewrite S3. apply bind_ext. intros [image_id|] w0; [|done].
  unfold go_on. apply bind_ext. intros _ w1. apply bind_ext. intros _ w1'.
  apply bind_ext. intros _ w2. apply bind_ext. intros content w3.
  unfold record_of, announced, env_get. cbn [pr_params pr_arch pr_vpc_id
    Create.instance_name Create.instance_type Create.region_id Create.vswitch_id
    Create.security_group_id Create.image_id Create.key_pair_name
    Create.spot_price_limit].
  rewrite S1, S2, S3, S4, S5, S6.
  destruct (Create.given (environ mc !! "ALIYUN_KEY_PAIR_NAME"));
    destruct (Create.given (environ mc !! "SPOT_PRICE_LIMIT")); reflexivity.
Qed.

(** X21.  The variables the Provisioner requires.  When one of
    ALIYUN_ACCESS_KEY_ID, ALIYUN_ACCESS_KEY_SECRET, ALIYUN_REGION_ID,
    ALIYUN_VPC_ID, ALIYUN_SECURITY_GROUP_ID and INSTANCE_NAME is not set,
    [main] ends with exit status 1 and the one line that names the first
    of them, in this order, that is missing; it has run no command.  A
    variable set to the empty text is not missing. *)
Theorem required_variables mc w :
  match first_missing mc with
  | Some name =>
      prepare mc w
      = ([Stderr ("Error: " +:+ name +:+ " is required")], Exit 1, w)
  | None => Forall (fun name => is_Some (environ mc !! name)) required
  end.
Proof.
  pose proof (prepare_required mc w) as Hp.
  destruct (first_missing mc); [exact Hp|exact (proj1 Hp)].
Qed.

(** The line of a failed check of the installation, and the warning of
    a failed check of the configuration. *)
Definition not_installed_line : string :=
  "Error: Aliyun CLI is not installed or not in PATH. "
  +:+ "Please ensure aliyun-cli-setup-action is used in the workflow".

Definition warning (v : verdict) : list event :=
  match v with
  | Failed =>
      [Stderr "Warning: Aliyun CLI configuration check failed, but continuing..."]
  | _ => []
  end.

(** The events of the two checks when the first passes. *)
Definition checked (v : verdict) : list event :=
  [Run version_cmd; Stderr "Verifying Aliyun CLI configuration...";
   Run configure_cmd] ++ warning v.

Lemma verify_installed_run w r w1 :
  subprocess_run version_cmd w = (r, w1) ->
  verify_installed w
  = match installed r with
    | Passed => ([Run version_cmd], Ret tt, w1)
    | Failed => ([Run version_cmd; Stderr not_installed_line], Exit 1, w1)
    | Crashed => ([Run version_cmd], Uncaught UncaughtOSError, w1)
    end.
Proof.
  intros E. unfold verify_installed. cbv zeta.
  change ["aliyun"; "--version"] with version_cmd. rewrite (bind_run _ _ _ _ _ E).
  destruct r as [code out err|msg|msg]; cbn [installed].
  - by destruct (code =? 0).
  - reflexivity.
  - by destruct (file_not_found msg).
Qed.

Lemma verify_configuration_run w r w1 :
  subprocess_run configure_cmd w = (r, w1) ->
  verify_configuration w
  = match configured r with
    | Crashed => ([Run configure_cmd], Uncaught UncaughtOSError, w1)
    | v => (Run configure_cmd :: warning v, Ret tt, w1)
    end.
Proof.
  intros E. unfold verify_configuration. cbv zeta.
  change ["aliyun"; "configure"; "get"] with configure_cmd.
  rewrite (bind_run _ _ _ _ _ E).
  destruct r as [code out err|msg|msg]; cbn [configured]; [done..|].
  by destruct (file_not_found msg).
Qed.

(** [main] from the check of the installation on, by how the two checks
    go. *)
Lemma go_on_run mc image_id w0 r1 w1 r2 w2 :
  subprocess_run version_cmd w0 = (r1, w1) ->
  subprocess_run configure_cmd w1 = (r2, w2) ->
  match installed r1 with
  | Failed =>
      go_on mc (Got image_id) w0
      = ([Run version_cmd; Stderr not_installed_line], Exit 1, w1)
  | Crashed =>
      go_on mc (Got image_id) w0
      = ([Run version_cmd], Uncaught UncaughtOSError, w1)
  | Passed =>
      match configured r2 with
      | Crashed =>
          go_on mc (Got image_id) w0
          = (checked Crashed, Uncaught UncaughtOSError, w2)
      | v =>
          exists ev3 content,
            UserData.user_data_content_of mc w2 = (ev3, Ret content, w2)
            /\ (runs_of ev3 = [] /\ stdout_of ev3 = [] /\ writes_of ev3 = [])
            /\ go_on mc (Got image_id) w0
               = (checked v ++ ev3
                  ++ (Stderr <$> announced (record_of mc image_id content)),
                  Ret (Got (record_of mc image_id content)), w2)
      end
  end.
Proof.
  intros E1 E2. unfold go_on.
  pose proof (verify_installed_run _ _ _ E1) as V1.
  destruct (installed r1).
  2:{ by rewrite (bind_exit _ _ _ _ _ _ V1). }
  2:{ by rewrite (bind_uncaught _ _ _ _ _ _ V1). }
  rewrite (bind_ret _ _ _ _ _ _ V1), bind_eprint.
  pose proof (verify_configuration_run _ _ _ E2) as V2.
  destruct (UserDataFacts.user_data_content_of_returns mc w2)
    as (ev3 & content & E3 & Hfoot).
  destruct (configured r2).
  3:{ by rewrite (bind_uncaught _ _ _ _ _ _ V2). }
  - exists ev3, content. split; [done|]. split; [done|].
    rewrite (bind_ret _ _ _ _ _ _ V2), (bind_ret _ _ _ _ _ _ E3).
    cbn [after app checked warning]. reflexivity.
  - exists ev3, content. split; [done|]. split; [done|].
    rewrite (bind_ret _ _ _ _ _ _ V2), (bind_ret _ _ _ _ _ _ E3).
    cbn [after app checked warning]. reflexivity.
Qed.

(** X22.  The two checks of the command line tool.  With the required
    variables set and the image resolved, [main] runs [aliyun --version]:
    an exit status other than 0, a [SubprocessError] or a missing
    executable ends the run with exit status 1 after one error line.
    After the line that announces it, it runs [aliyun configure get],
    whose exit status is not looked at: a [SubprocessError] or a missing
    executable only adds a warning, and the run goes on to the user data,
    the lines that announce the creation, and the retry loops.  Any other
    [OSError] of either call is not caught. *)
Theorem cli_checks mc w ev0 image_id w0 r1 w1 r2 w2 :
  first_missing mc = None ->
  get_image_id mc (env_get mc "ALIYUN_REGION_ID" "") w
  = (ev0, Ret (Got image_id), w0) ->
  subprocess_run version_cmd w0 = (r1, w1) ->
  subprocess_run configure_cmd w1 = (r2, w2) ->
  match installed r1 with
  | Failed =>
      prepare mc w
      = (ev0 ++ [Run version_cmd; Stderr not_installed_line], Exit 1, w1)
  | Crashed =>
      prepare mc w = (ev0 ++ [Run version_cmd], Uncaught UncaughtOSError, w1)
  | Passed =>
      match configured r2 with
      | Crashed =>
          prepare mc w
          = (ev0 ++ checked Crashed, Uncaught UncaughtOSError, w2)
      | v =>
          exists ev3 content,
            UserData.user_data_content_of mc w2 = (ev3, Ret content, w2)
            /\ prepare mc w
               = (ev0 ++ checked v ++ ev3
                  ++ (Stderr <$> announced (record_of mc image_id content)),
                  Ret (Got (record_of mc image_id content)), w2)
      end
  end.
Proof.
  intros Hm E0 E1 E2. pose proof (prepare_required mc w) as Hp.
  rewrite Hm in Hp. destruct Hp as [_ ->]. rewrite (bind_ret _ _ _ _ _ _ E0).
  pose proof (go_on_run mc image_id _ _ _ _ _ E1 E2) as Hg.
  destruct (installed r1); [|by rewrite Hg..].
  destruct (configured r2); [| |by rewrite Hg].
  - destruct Hg as (ev3 & content & E3 & _ & ->). by exists ev3, content.
  - destruct Hg as (ev3 & content & E3 & _ & ->). by exists ev3, content.
Qed.

Lemma stderr_lines_footprint (ls : list string) :
  runs_of (Stderr <$> ls) = [] /\ stdout_of (Stderr <$> ls) = []
  /\ writes_of (Stderr <$> ls) = [].
Proof.
  induction ls as [|l ls (IH1 & IH2 & IH3)]; [done|].
  cbn [fmap list_fmap]. by read_events.
Qed.

(** The commands [main] runs before the retry loops: the query of the
    image family, if it is configured and run, then the two checks. *)
Definition checks : list (list string) := [version_cmd; configure_cmd].

(** X23.  What [main] does before the retry loops, however it ends.  It
    prints nothing on standard output and writes no file.  The commands
    it runs are an initial part of: the query of the configured image
    family (or no query), [aliyun --version], [aliyun configure get].
    It reaches the retry loops only when all of these have been run, and
    then holds a non-empty image identifier, the environment with
    ALIBABA_CLOUD_ACCESS_KEY_ID and ALIBABA_CLOUD_ACCESS_KEY_SECRET set
    to the two credentials, the parameters as the environment gives them
    and the prepared user data.  When it ends by [sys.exit], the exit
    status is 1.  (It can end with an exception too: this says nothing
    about which.) *)
Theorem prepare_footprint mc w :
  match prepare mc w with
  | (ev, o, w1) =>
      stdout_of ev = [] /\ writes_of ev = []
      /\ exists query,
           (query = []
            \/ exists family,
                 family_of mc = Some family
                 /\ query = [image_family_cmd (env_get mc "ALIYUN_REGION_ID" "")
                               family])
           /\ runs_of ev `prefix_of` query ++ checks
           /\ match o with
              | Ret (Got pr) =>
                  runs_of ev = query ++ checks
                  /\ first_missing mc = None
                  /\ truthy (pr_image_id pr) = true
                  /\ exists ev3 content,
                       UserData.user_data_content_of mc w1
                       = (ev3, Ret content, w1)
                       /\ pr = record_of mc (pr_image_id pr) content
              | Ret AttributeError => True
              | Exit n => n = 1
              | Uncaught _ => True
              end
  end.
Proof.
  pose proof (prepare_required mc w) as Hp.
  destruct (first_missing mc) as [name|] eqn:Hm.
  { rewrite Hp. split; [done|]. split; [done|]. exists []. split; [by left|].
    split; [apply prefix_nil|done]. }
  destruct Hp as [_ ->].
  destruct (get_image_id_resolved mc (env_get mc "ALIYUN_REGION_ID" "") w)
    as (query & Hq & Hr).
  destruct (get_image_id mc (env_get mc "ALIYUN_REGION_ID" "") w)
    as [[ev0 [image|n|e]] w0] eqn:E0; destruct Hr as (Hs0 & Hw0 & Hr0 & Ho).
  2:{ rewrite (bind_exit _ _ _ _ _ _ E0). split; [done|]. split; [done|].
      exists query. split; [done|]. rewrite Hr0. split; [by apply prefix_app_r|done]. }
  2:{ rewrite (bind_uncaught _ _ _ _ _ _ E0). split; [done|]. split; [done|].
      exists query. split; [done|]. rewrite Hr0.
      split; [by apply prefix_app_r|done]. }
  rewrite (bind_ret _ _ _ _ _ _ E0). destruct image as [image_id|].
  2:{ cbn [go_on]. unfold ret. cbn [after]. rewrite app_nil_r.
      split; [done|]. split; [done|].
      exists query. split; [done|]. rewrite Hr0. split; [by apply prefix_app_r|done]. }
  cbn [ends] in Ho.
  destruct (subprocess_run version_cmd w0) as [r1 w1] eqn:E1.
  destruct (subprocess_run configure_cmd w1) as [r2 w2] eqn:E2.
  pose proof (go_on_run mc image_id _ _ _ _ _ E1 E2) as Hg.
  destruct (installed r1).
  - destruct (configured r2).
    + destruct Hg as (ev3 & content & E3 & (R3 & S3 & W3) & ->).
      destruct (stderr_lines_footprint (announced (record_of mc image_id content)))
        as (Ra & Sa & Wa).
      cbn [after checked warning]. read_events.
      rewrite Hs0, Hw0, Hr0, R3, S3, W3, Ra, Sa, Wa.
      split; [done|]. split; [done|]. exists query. split; [done|].
      split; [done|]. split; [done|]. split; [done|]. split; [exact Ho|].
      by exists ev3, content.
    + destruct Hg as (ev3 & content & E3 & (R3 & S3 & W3) & ->).
      destruct (stderr_lines_footprint (announced (record_of mc image_id content)))
        as (Ra & Sa & Wa).
      cbn [after checked warning]. read_events.
      rewrite Hs0, Hw0, Hr0, R3, S3, W3, Ra, Sa, Wa.
      split; [done|]. split; [done|]. exists query. split; [done|].
      split; [done|]. split; [done|]. split; [done|]. split; [exact Ho|].
      by exists ev3, content.
    + rewrite Hg. cbn [after checked warning]. read_events.
      rewrite Hs0, Hw0, Hr0. split; [done|]. split; [done|].
      exists query. split; [done|]. split; [done|]. done.
  - rewrite Hg. cbn [after]. read_events. rewrite Hs0, Hw0, Hr0.
    split; [done|]. split; [done|]. exists query. split; [done|].
    split; [|done]. apply prefix_app, prefix_cons, prefix_nil.
  - rewrite Hg. cbn [after]. read_events. rewrite Hs0, Hw0, Hr0.
    split; [done|]. split; [done|]. exists query. split; [done|].
    split; [|done]. apply prefix_app, prefix_cons, prefix_nil.
Qed.

End WithRuntime.

(** A machine with the required variables and an image identifier, and
    a world in which the tool answers the check of its version while the
    check of its configuration finds no executable. *)
Definition ready_machine : machine :=
  Fixture.machine_of
    {[ "ALIYUN_ACCESS_KEY_ID" := "key";
       "ALIYUN_ACCESS_KEY_SECRET" := "secret";
       "ALIYUN_REGION_ID" := "cn-hangzhou";
       "ALIYUN_VPC_ID" := "vpc-1";
       "ALIYUN_SECURITY_GROUP_ID" := "sg-1";
       "INSTANCE_NAME" := "runner-1";
       "ALIYUN_IMAGE_ID" := "ubuntu_24_04_x64" ]} ∅ [] "".

Definition ready_world : list proc_result :=
  [Completed 0 "3.0.200" "";
   OSError "[Errno 2] No such file or directory: 'aliyun'"].

Lemma cli_checks_witness :
  first_missing ready_machine = None
  /\ exists ev3 content,
       UserData.user_data_content_of (H:=Fixture.scripted) ready_machine []
       = (ev3, Ret content, [])
       /\ prepare (H:=Fixture.scripted) ready_machine ready_world
          = ([] ++ checked Failed ++ ev3
             ++ (Stderr <$> announced
                   (record_of (H:=Fixture.scripted) ready_machine
                      (JStr "ubuntu_24_04_x64") content)),
             Ret (Got (record_of (H:=Fixture.scripted) ready_machine
                         (JStr "ubuntu_24_04_x64") content)), []).
Proof.
  split; [reflexivity|].
  exact (cli_checks (H:=Fixture.scripted) ready_machine ready_world []
           (JStr "ubuntu_24_04_x64") ready_world
           (Completed 0 "3.0.200" "")
           [OSError "[Errno 2] No such file or directory: 'aliyun'"]
           (OSError "[Errno 2] No such file or directory: 'aliyun'") []
           eq_refl eq_refl eq_refl eq_refl).
Defined.

End PrepareFacts.
(** ** [create_spot_instance.py]: the detection of a disk category *)
Module Disk.
Import Py.

(** The exceptions the lookups in the answer can raise.  A [KeyError]
    carries its text, which the handler prints. *)
Inductive error : Type :=
| Key_error (text : string)
| Type_error
| Attribute_error
| Index_error.

(** A lookup: its value, or the exception it raises. *)
Definition E (A : Type) : Type := (error + A)%type.

Definition and_then {A B} (m : E A) (k : A -> E B) : E B :=
  match m with
  | inl e => inl e
  | inr a => k a
  end.

Notation "'get*' x ':=' m 'in' k" := (and_then m (fun x => k))
  (at level 10, x name, m at level 100, k at level 200,
   format "'[v' 'get*'  x  ':='  m  'in' '/' k ']'").

(** [key in v]. *)
Definition is_in (key : string) (v : json) : E bool :=
  match v with
  | JObj items => inr (match assoc key items with Some _ => true | None => false end)
  | JStr s => inr (contains key s)
  | JList l =>
      inr (existsb (fun x => match x with
                             | JStr s => String.eqb s key
                             | _ => false
                             end) l)
  | _ => inl Type_error
  end.

(** [v[key]] for one of the keys of the function, which are plain
    words: the text of the [KeyError] is the word in single quotes. *)
Definition item (v : json) (key : string) : E json :=
  match v with
  | JObj items =>
      match assoc key items with
      | Some x => inr x
      | None => inl (Key_error ("'" +:+ key +:+ "'"))
      end
  | _ => inl Type_error
  end.

(** [len(v) > 0]. *)
Definition has_items (v : json) : E bool :=
  match v with
  | JList l => inr (match l with [] => false | _ => true end)
  | JObj items => inr (match items with [] => false | _ => true end)
  | JStr s => inr (nonempty s)
  | _ => inl Type_error
  end.

(** [v[0]].  A dict read from JSON has texts as keys, so never the key
    [0]. *)
Definition item0 (v : json) : E json :=
  match v with
  | JList (x :: _) => inr x
  | JList [] => inl Index_error
  | JStr (String c _) => inr (JStr (String c EmptyString))
  | JStr EmptyString => inl Index_error
  | JObj _ => inl (Key_error "0")
  | _ => inl Type_error
  end.

(** [outer in v and inner in v[outer]]. *)
Definition both_in (v : json) (outer inner : string) : E bool :=
  get* found := is_in outer v in
  if found then
    get* x := item v outer in
    is_in inner x
  else inr false.

(** [outer in v and inner in v[outer] and len(v[outer][inner]) > 0]. *)
Definition filled (v : json) (outer inner : string) : E bool :=
  get* found := both_in v outer inner in
  if found then
    get* x := item v outer in
    get* y := item x inner in
    has_items y
  else inr false.

(** [v[outer][inner][0]]. *)
Definition first_of (v : json) (outer inner : string) : E json :=
  get* x := item v outer in
  get* y := item x inner in
  item0 y.

(** [[r.get("Value", "") for r in supported if r.get("Value", "")]] over
    the elements of a list. *)
Fixpoint values_of (supported : list json) : E (list json) :=
  match supported with
  | [] => inr []
  | JObj r :: rest =>
      let value := default (JStr "") (assoc "Value" r) in
      get* more := values_of rest in
      inr (if truthy value then value :: more else more)
  | _ :: _ => inl Attribute_error
  end.

(** The same over whatever [supported] is: the elements of a dict are
    its keys and those of a text its characters, all of them texts, which
    have no [get]. *)
Definition supported_categories_of (supported : json) : E (list json) :=
  match supported with
  | JList l => values_of l
  | JObj items => match items with [] => inr [] | _ => inl Attribute_error end
  | JStr s => if nonempty s then inl Attribute_error else inr []
  | _ => inl Type_error
  end.

(** [category in supported_categories]. *)
Definition listed (category : string) (supported_categories : list json) : bool :=
  existsb (fun v => match v with
                    | JStr s => String.eqb category s
                    | _ => false
                    end) supported_categories.

(** The loop over [disk_categories]: the first that is listed. *)
Definition first_supported (supported_categories : list json) : option string :=
  List.find (fun category => listed category supported_categories)
    Create.disk_categories.

(** The lookups between [json.loads] and the [print]: the category the
    function returns from inside its [try], if it does. *)
Definition detect (data : json) : E (option string) :=
  (* Parse supported disk categories *)
  get* zones := filled data "AvailableZones" "AvailableZone" in
  if zones then
    get* zone := first_of data "AvailableZones" "AvailableZone" in
    get* resources := filled zone "AvailableResources" "AvailableResource" in
    if resources then
      get* resource := first_of zone "AvailableResources" "AvailableResource" in
      get* has_supported := both_in resource "SupportedResources" "SupportedResource" in
      if has_supported then
        get* x := item resource "SupportedResources" in
        get* supported := item x "SupportedResource" in
        get* supported_categories := supported_categories_of supported in
        (* Select first supported disk category by priority *)
        inr (first_supported supported_categories)
      else inr None
    else inr None
  else inr None.

(** The command line of the query. *)
Definition describe_cmd (region_id instance_type : string) : list string :=
  ["aliyun"; "ecs"; "DescribeAvailableResource";
   "--RegionId"; region_id; "--InstanceType"; instance_type;
   "--DestinationResource"; "SystemDisk"].

Section WithRuntime.
Context `{runtime}.

(** The text of the [CalledProcessError] that [subprocess.run] raises
    with [check=True] for a command and its exit status. *)
Variable called_process_error : list string -> Z -> string.

(** [get_supported_disk_category].  An exception of the lookups that the
    handler does not catch is returned as [inl]. *)
Definition get_supported_disk_category (region_id instance_type : string)
    (zone_id : option string) : M (E string) :=
  let failed (e : string) : M (E string) :=
    eprint ("Warning: Failed to query supported disk categories: " +:+ e) ;;
    ret (inr "cloud_essd") in
  (* If zone is not specified, try to query (optional) *)
  if negb (Create.given zone_id) then
    let cmd := describe_cmd region_id instance_type in
    let* result := run cmd in
    match result with
    | Completed returncode stdout _ =>
        if returncode =? 0 then
          match json_loads stdout with
          | Some data =>
              match detect data with
              | inr (Some category) =>
                  eprint ("Instance type " +:+ instance_type
                          +:+ " supports disk category: " +:+ category) ;;
                  ret (inr category)
              | inr None => ret (inr "cloud_essd")
              | inl (Key_error text) => failed text
              | inl e => ret (inl e)
              end
          | None => failed (json_error stdout)
          end
        else failed (called_process_error cmd returncode)
    | SubprocessError msg => failed msg
    | OSError _ => raise UncaughtOSError
    end
  else ret (inr "cloud_essd").

(** [create_instance] for a call with or without a disk category. *)
Definition create_instance (region_id image_id instance_type
    security_group_id vswitch_id instance_name : string)
    (key_pair_name ram_role_name : option string) (spot_strategy : string)
    (spot_price_limit user_data_b64 : option string)
    (system_disk_category : option string) : M (E (Z * string)) :=
  (* If disk category is not specified, auto-detect *)
  let* category :=
    if negb (Create.given system_disk_category)
    then get_supported_disk_category region_id instance_type None
    else ret (inr (default "" system_disk_category)) in
  match category with
  | inl e => ret (inl e)
  | inr system_disk_category =>
      let* response :=
        Create.create_instance region_id image_id instance_type
          security_group_id vswitch_id instance_name key_pair_name
          ram_role_name spot_strategy spot_price_limit user_data_b64
          system_disk_category in
      ret (inr response)
  end.

End WithRuntime.
End Disk.

(** ** Facts about the detection of a disk category *)
Module DiskFacts.
Import Py PyFacts Disk.

(** A lookup that raises neither an [IndexError] nor a [KeyError] other
    than the one for the key [0]. *)
Definition mild {A} (m : E A) : Prop :=
  match m with
  | inl (Key_error text) => text = "0"
  | inl Index_error => False
  | _ => True
  end.

(** A lookup that raises at most a [TypeError]. *)
Definition typed {A} (m : E A) : Prop :=
  match m with
  | inl e => e = Type_error
  | inr _ => True
  end.

Lemma typed_mild {A} (m : E A) : typed m -> mild m.
Proof. destruct m as [e|a]; [|done]. by intros ->. Qed.

Lemma mild_and_then {A B} (m : E A) (k : A -> E B) :
  mild m -> (forall a, m = inr a -> mild (k a)) -> mild (and_then m k).
Proof. destruct m as [e|a]; [done|]. intros _ Hk. by apply Hk. Qed.













Section WithRuntime.
Context `{runtime}.
Variable called_process_error : list string -> Z -> string.

Notation detected := (get_supported_disk_category called_process_error).

(** The line of a query that failed in a way the handler catches. *)
Definition failed_line (e : string) : event :=
  Stderr ("Warning: Failed to query supported disk categories: " +:+ e).

(** The run that finds [category], and the run that finds none. *)
Definition found (region_id instance_type category : string) (w1 : world)
  : list event * outcome (E string) * world :=
  ([Run (describe_cmd region_id instance_type);
    Stderr ("Instance type " +:+ instance_type
            +:+ " supports disk category: " +:+ category)],
   Ret (inr category), w1).



(** The [Value] of an element of the answer's list. *)
Definition value_of (r v : json) : Prop :=
  exists items, r = JObj items /\ v = default (JStr "") (assoc "Value" items).

Lemma values_of_listed rs vals category :
  Forall2 value_of rs vals -> nonempty category = true ->
  exists vs, values_of rs = inr vs /\ listed category vs = listed category vals.
Proof.
  intros Hrs Hc. induction Hrs as [|r v rs vals (items & -> & ->) _ (vs & E & Hl)].
  - by exists [].
  - cbn [values_of]. rewrite E. cbn [and_then].
    set (v := default (JStr "") (assoc "Value" items)).
    destruct (truthy v) eqn:Ht.
    + eexists. split; [done|]. unfold listed in *. cbn [existsb]. by rewrite Hl.
    + exists vs. split; [done|]. unfold listed in *. cbn [existsb]. rewrite Hl.
      destruct v as [| | | |s|l|o]; try done.
      cbn [truthy] in Ht. destruct (String.eqb_spec category s) as [<-|]; [|done].
      by rewrite Ht in Hc.
Qed.

(** X25.  The category chosen from a well-formed answer.  When no zone
    is given and the query answers with exit status 0 and a JSON document
    whose first zone under AvailableZones.AvailableZone has a first
    resource under AvailableResources.AvailableResource with a list of
    dicts under SupportedResources.SupportedResource, the result is the
    first of cloud_essd, cloud_ssd, cloud_efficiency that is the Value of
    one of these dicts, whatever their order, and one line on standard
    error names it.  When none of the three is among the Values, the
    result is cloud_essd all the same, without any line. *)
Theorem disk_category_by_priority region_id instance_type zone_id w out err w1
    d az zone zones ar resource resources sr rs vals :
  Create.given zone_id = false ->
  subprocess_run (describe_cmd region_id instance_type) w
  = (Completed 0 out err, w1) ->
  json_loads out = Some (JObj d) ->
  assoc "AvailableZones" d = Some (JObj az) ->
  assoc "AvailableZone" az = Some (JList (JObj zone :: zones)) ->
  assoc "AvailableResources" zone = Some (JObj ar) ->
  assoc "AvailableResource" ar = Some (JList (JObj resource :: resources)) ->
  assoc "SupportedResources" resource = Some (JObj sr) ->
  assoc "SupportedResource" sr = Some (JList rs) ->
  Forall2 value_of rs vals ->
  detected region_id instance_type zone_id w
  = if listed "cloud_essd" vals then found region_id instance_type "cloud_essd" w1
    else if listed "cloud_ssd" vals then found region_id instance_type "cloud_ssd" w1
    else if listed "cloud_efficiency" vals
         then found region_id instance_type "cloud_efficiency" w1
    else ([Run (describe_cmd region_id instance_type)], Ret (inr "cloud_essd"), w1).
Proof.
  intros Hz Er Hj H1 H2 H3 H4 H5 H6 Hrs.
  unfold get_supported_disk_category. cbv zeta. rewrite Hz. cbn [negb].
  rewrite (bind_run _ _ _ _ _ Er). cbn [Z.eqb]. rewrite Hj.
  destruct (values_of_listed _ _ "cloud_essd" Hrs eq_refl) as (vs & Ev & L1).
  destruct (values_of_listed _ _ "cloud_ssd" Hrs eq_refl) as (vs2 & Ev2 & L2).
  destruct (values_of_listed _ _ "cloud_efficiency" Hrs eq_refl) as (vs3 & Ev3 & L3).
  rewrite Ev in Ev2, Ev3. injection Ev2 as <-. injection Ev3 as <-.
  assert (detect (JObj d) = inr (first_supported vs)) as ->.
  { unfold detect, filled, first_of, both_in. cbn [is_in item].
    rewrite H1. cbn [and_then is_in item]. rewrite H2.
    cbn [and_then has_items item0 is_in item]. rewrite H3.
    cbn [and_then is_in item]. rewrite H4.
    cbn [and_then has_items item0 is_in item]. rewrite H5.
    cbn [and_then is_in item]. rewrite H6.
    cbn [and_then supported_categories_of]. by rewrite Ev. }
  unfold first_supported, Create.disk_categories. cbn [List.find].
  rewrite L1, L2, L3.
  destruct (listed "cloud_essd" vals); [done|].
  destruct (listed "cloud_ssd" vals); [done|].
  by destruct (listed "cloud_efficiency" vals).
Qed.

(** X26.  When the detection falls back to cloud_essd.  With a zone
    given it returns cloud_essd without running anything.  Without one,
    it returns cloud_essd after one warning when the query ends with an
    exit status other than 0, raises a [SubprocessError], prints what is
    no JSON, or prints a document in which AvailableZone is a dict that
    is not empty (the warning is then the text 0, the key that is
    missing); and without any line when the document is a dict without
    AvailableZones.  An [OSError] of the query is not caught. *)
Theorem disk_category_fallbacks region_id instance_type zone_id w :
  let cmd := describe_cmd region_id instance_type in
  (Create.given zone_id = true ->
   detected region_id instance_type zone_id w = ([], Ret (inr "cloud_essd"), w))
  /\ (Create.given zone_id = false ->
      forall r w1, subprocess_run cmd w = (r, w1) ->
      match r with
      | Completed returncode out _ =>
          (returncode <> 0 ->
           detected region_id instance_type zone_id w
           = ([Run cmd; failed_line (called_process_error cmd returncode)],
              Ret (inr "cloud_essd"), w1))
          /\ (returncode = 0 -> json_loads out = None ->
              detected region_id instance_type zone_id w
              = ([Run cmd; failed_line (json_error out)],
                 Ret (inr "cloud_essd"), w1))
          /\ (forall d az x items,
              returncode = 0 -> json_loads out = Some (JObj d) ->
              assoc "AvailableZones" d = Some (JObj az) ->
              assoc "AvailableZone" az = Some (JObj (x :: items)) ->
              detected region_id instance_type zone_id w
              = ([Run cmd; failed_line "0"], Ret (inr "cloud_essd"), w1))
          /\ (forall d,
              returncode = 0 -> json_loads out = Some (JObj d) ->
              assoc "AvailableZones" d = None ->
              detected region_id instance_type zone_id w
              = ([Run cmd], Ret (inr "cloud_essd"), w1))
      | SubprocessError msg =>
          detected region_id instance_type zone_id w
          = ([Run cmd; failed_line msg], Ret (inr "cloud_essd"), w1)
      | OSError _ =>
          detected region_id instance_type zone_id w
          = ([Run cmd], Uncaught UncaughtOSError, w1)
      end).
Proof.
  cbv zeta. split.
  { intros Hz. unfold get_supported_disk_category. by rewrite Hz. }
  intros Hz r w1 Er. unfold get_supported_disk_category. cbv zeta.
  rewrite Hz. cbn [negb]. rewrite (bind_run _ _ _ _ _ Er).
  destruct r as [code out err|msg|msg]; [|done..].
  split; [|split; [|split]].
  - intros Hc. apply Z.eqb_neq in Hc. by rewrite Hc.
  - intros -> Hj. cbn [Z.eqb]. by rewrite Hj.
  - intros d az x items -> Hj H1 H2. cbn [Z.eqb]. rewrite Hj.
    assert (detect (JObj d) = inl (Key_error "0")) as ->; [|done].
    unfold detect, filled, first_of, both_in. cbn [is_in item].
    rewrite H1. cbn [and_then is_in item]. rewrite H2. done.
  - intros d -> Hj H1. cbn [Z.eqb]. rewrite Hj.
    assert (detect (JObj d) = inr None) as ->; [|done].
    unfold detect, filled, first_of, both_in. cbn [is_in item]. by rewrite H1.
Qed.


End WithRuntime.

(** An answer of the query in which the first resource of the first
    zone supports cloud_efficiency and cloud_ssd, in this order:
    [{"AvailableZones": {"AvailableZone": [{"AvailableResources":
      {"AvailableResource": [{"SupportedResources": {"SupportedResource":
        [{"Value": "cloud_efficiency"}, {"Value": "cloud_ssd"}]}}]}}]}}]. *)
Definition supported_items : list json :=
  [JObj [("Value", JStr "cloud_efficiency")]; JObj [("Value", JStr "cloud_ssd")]].
Definition supported_resources : list (string * json) :=
  [("SupportedResource", JList supported_items)].
Definition resource_items : list (string * json) :=
  [("SupportedResources", JObj supported_resources)].
Definition available_resources : list (string * json) :=
  [("AvailableResource", JList [JObj resource_items])].
Definition zone_items : list (string * json) :=
  [("AvailableResources", JObj available_resources)].
Definition available_zones : list (string * json) :=
  [("AvailableZone", JList [JObj zone_items])].
Definition answer_items : list (string * json) :=
  [("AvailableZones", JObj available_zones)].

Definition answer_doc : string :=
  "{" +:+ Fixture.dq "AvailableZones" +:+ ": {" +:+ Fixture.dq "AvailableZone"
  +:+ ": [{" +:+ Fixture.dq "AvailableResources" +:+ ": {"
  +:+ Fixture.dq "AvailableResource" +:+ ": [{"
  +:+ Fixture.dq "SupportedResources" +:+ ": {"
  +:+ Fixture.dq "SupportedResource" +:+ ": [{"
  +:+ Fixture.dq "Value" +:+ ": " +:+ Fixture.dq "cloud_efficiency" +:+ "}, {"
  +:+ Fixture.dq "Value" +:+ ": " +:+ Fixture.dq "cloud_ssd" +:+ "}]}}]}}]}}".

(** [json.loads] on this answer; every other text of the example is not
    JSON. *)
Definition answer_loads (s : string) : option json :=
  if String.eqb s answer_doc then Some (JObj answer_items) else None.

Lemma answer_loads_blank s : nonempty (strip s) = false -> answer_loads s = None.
Proof.
  unfold answer_loads. intros Hs.
  destruct (String.eqb_spec s answer_doc) as [->|_]; [by vm_compute in Hs|].
  reflexivity.
Qed.

(** A runtime in which every command prints this answer. *)
Definition example_runtime : runtime :=
  {| world := unit;
     subprocess_run := fun _ w => (Completed 0 answer_doc "", w);
     time_time := fun _ => 0%float;
     json_loads := answer_loads;
     json_error := fun _ => "Expecting value: line 1 column 1 (char 0)";
     float_of_str := Fixture.to_float;
     repr := fun _ => "...";
     unicode_error := fun _ => "invalid start byte";
     os_error := fun _ => "Permission denied";
     write_failure := fun _ _ => None;
     json_loads_blank := answer_loads_blank |}.

Lemma disk_category_by_priority_witness :
  get_supported_disk_category (H:=example_runtime) (fun _ _ => "")
    "cn-hangzhou" "ecs.c7.large" None tt
  = found (H:=example_runtime) "cn-hangzhou" "ecs.c7.large" "cloud_ssd" tt.
Proof.
  refine (disk_category_by_priority (H:=example_runtime) (fun _ _ => "")
            "cn-hangzhou" "ecs.c7.large" None tt answer_doc "" tt
            answer_items available_zones zone_items [] available_resources
            resource_items [] supported_resources supported_items
            [JStr "cloud_efficiency"; JStr "cloud_ssd"]
            eq_refl eq_refl eq_refl eq_refl eq_refl eq_refl eq_refl eq_refl
            eq_refl _).
  repeat constructor; eexists; split; reflexivity.
Defined.

End DiskFacts.

(** ** The subnet of a zone, and who resolves it *)
Module ZoneClaims.
Import Py PyFacts SelectFacts CreateFacts CreateMore.

(** The VSwitch a RunInstances command line names: the word after
    [--VSwitchId]. *)
Definition vswitch_of (cmd : list string) : string := nth 12 cmd "".

Section WithRuntime.
Context `{runtime}.

(** The primary candidate is one whose zone resolves to a VSwitch. *)
Lemma select_primary_resolved mc cands c v :
  Select.select_primary mc cands = Some (c, v) ->
  c ∈ cands
  /\ Select.get_vswitch_id (environ mc) (Select.cand_zone_id c) = Some v
  /\ nonempty v = true.
Proof.
  induction cands as [|c0 cands IH]; [done|]. cbn [Select.select_primary].
  destruct (Select.get_vswitch_id (environ mc) (Select.cand_zone_id c0))
    as [v0|] eqn:Ev.
  2:{ intros (? & ? & ?)%IH. split; [by right|done]. }
  destruct (nonempty v0) eqn:En.
  2:{ intros (? & ? & ?)%IH. split; [by right|done]. }
  intros [= <- <-]. split; [left|done].
Qed.

(** The creation calls of multi-attempt mode are calls for candidates of
    the file. *)
Lemma multi_attempt_calls mc p path cands w :
  Create.parse_candidates_file mc path w = ([], Ret cands, w) ->
  Forall (candidate_call p cands) (runs_of (Create.multi_attempt mc p path w).1.1).
Proof.
  intros Hparse. unfold Create.multi_attempt.
  rewrite (bind_ret _ _ _ _ _ _ Hparse), bind_eprint.
  pose proof (candidate_loop_calls p (Z.of_nat (length cands)) cands 1 w) as Hloop.
  destruct (Create.candidate_loop _ _ _ _ _) as [[ev [[]|k|e]] w1] eqn:El;
    cbn [calls] in Hloop; destruct Hloop as (Hok & _ & Ho); [| |done].
  - rewrite (bind_ret _ _ _ _ _ _ El), error_exit_run. cbn [after app fst].
    read_events. cbn [app]. by rewrite app_nil_r.
  - rewrite (bind_exit _ _ _ _ _ _ El). cbn [after app fst]. by read_events.
Qed.

(** The creation calls of single-attempt mode are calls for the
    configured instance type and VSwitch. *)
Lemma single_attempt_calls p w :
  Forall (single_call p) (runs_of (Create.single_attempt p w).1.1).
Proof.
  unfold Create.single_attempt.
  destruct (Create.instance_type p) as [it|] eqn:Hit;
    [|rewrite error_exit_run; constructor].
  destruct (nonempty it); [|rewrite error_exit_run; constructor].
  destruct (Create.vswitch_id p) as [vs|] eqn:Hvs;
    [|rewrite error_exit_run; constructor].
  destruct (nonempty vs); [|rewrite error_exit_run; constructor].
  cbv zeta. rewrite !bind_eprint.
  pose proof (disk_loop_single_calls p it vs Create.disk_categories None w)
    as Hloop.
  destruct (Create.disk_loop_single _ _ _ _ _ _ _ _) as [[ev [last|k|e]] w1] eqn:El;
    cbn [calls] in Hloop; destruct Hloop as (Hok & _ & Ho); [| |done].
  - rewrite (bind_ret _ _ _ _ _ _ El), error_exit_run. cbn [after fst].
    read_events. cbn [app]. rewrite app_nil_r.
    eapply Forall_impl; [exact Hok|]. intros cmd (d & Hd & ->).
    by exists it, vs, d.
  - rewrite (bind_exit _ _ _ _ _ _ El). cbn [after fst]. read_events. cbn [app].
    eapply Forall_impl; [exact Hok|]. intros cmd (d & Hd & ->).
    by exists it, vs, d.
Qed.

(** C7, as amended.  For every zone identifier that does not end in a
    line feed: when it ends in [-<c>] for a lowercase letter [c], the
    subnet is the value of the environment variable named
    ALIYUN_VSWITCH_ID_ followed by that letter upper-cased; otherwise
    there is no subnet.  The Selector uses this resolution: its primary
    candidate is one whose zone resolves to a subnet that is not empty,
    and every line it writes holds the subnet its candidate's zone
    resolves to.  The Provisioner defines the same function and does not
    use it: its retry mechanism does not look at the environment; in
    multi-attempt mode every creation call names the subnet of a record
    of the candidates file, and in single-attempt mode the configured
    one. *)
Theorem zone_subnet :
  (forall (env : gmap string string) zone,
     endswith lf zone = false ->
     (forall p c,
        zone = p +:+ String "-" (String c "") -> islower_az c = true ->
        Select.get_vswitch_id env zone
        = env !! ("ALIYUN_VSWITCH_ID_" +:+ String (upper_az c) ""))
     /\ ((forall p c, islower_az c = true ->
                      zone <> p +:+ String "-" (String c "")) ->
         Select.get_vswitch_id env zone = None))
  /\ (forall env zone,
        Create.get_vswitch_id env zone = Select.get_vswitch_id env zone)
  /\ (forall mc cands c v,
        Select.select_primary mc cands = Some (c, v) ->
        c ∈ cands
        /\ Select.get_vswitch_id (environ mc) (Select.cand_zone_id c) = Some v
        /\ nonempty v = true)
  /\ (forall mc path cands w ev o w1,
        Select.write_candidates mc path cands w = (ev, o, w1) ->
        exists written,
          sublist written cands
          /\ Forall2 (fun c wr =>
                        exists v l,
                          Select.get_vswitch_id (environ mc) (Select.cand_zone_id c)
                          = Some v
                          /\ nonempty v = true
                          /\ wr = (path, Select.candidate_line c v l))
               written (writes_of ev))
  /\ (forall mc mc' p w,
        files mc' = files mc ->
        Create.provision mc' p w = Create.provision mc p w)
  /\ (forall mc p w path cands,
        multi_mode mc p = true -> Create.candidates_file p = Some path ->
        Create.parse_candidates_file mc path w = ([], Ret cands, w) ->
        Forall (fun cmd => exists cand,
                             cand ∈ cands
                             /\ vswitch_of cmd = Create.e_vswitch_id cand)
               (runs_of (Create.provision mc p w).1.1))
  /\ (forall mc p w,
        multi_mode mc p = false ->
        Forall (fun cmd => Create.vswitch_id p = Some (vswitch_of cmd))
               (runs_of (Create.provision mc p w).1.1)).
Proof.
  split; [|split; [|split; [|split; [|split; [|split]]]]].
  - intros env zone Hlf. split.
    + intros p c -> Hc. by apply get_vswitch_id_suffix.
    + intros Hz. by apply get_vswitch_id_other.
  - reflexivity.
  - exact select_primary_resolved.
  - intros mc path cands w ev o w1 E.
    destruct (FileClaims.write_candidates_lines _ _ _ _ _ _ _ E)
      as (_ & written & Hs & Hl).
    exists written. split; [done|].
    eapply Forall2_impl; [exact Hl|].
    intros c [pa t] (Hp & v & total & Hv & Hn & _ & Ht). cbn [fst snd] in *.
    exists v, (PrimFloat.mul total lit_1_2). subst pa.
    split; [done|]. split; [done|]. by rewrite Ht.
  - intros mc mc' p w Hf.
    unfold Create.provision, Create.multi_attempt, Create.parse_candidates_file,
      isfile.
    by rewrite Hf.
  - intros mc p w path cands Hm Hp Hparse.
    unfold multi_mode in Hm. unfold Create.provision. rewrite Hp in *. rewrite Hm.
    eapply Forall_impl; [exact (multi_attempt_calls _ _ _ _ _ Hparse)|].
    intros cmd (cand & d & Hc & _ & _ & ->). by exists cand.
  - intros mc p w Hm.
    assert (Create.provision mc p w = Create.single_attempt p w) as ->.
    { unfold multi_mode in Hm. unfold Create.provision.
      destruct (Create.candidates_file p); [|done]. by rewrite Hm. }
    eapply Forall_impl; [apply single_attempt_calls|].
    by intros cmd (it & vs & d & _ & -> & _ & ->).
Qed.

End WithRuntime.

(** A candidates file with one record, for zone K and the subnet
    [vsw-file]. *)
Definition one_entry : string :=
  "ecs.c7.large|cn-hangzhou-k|vsw-file|0.1500|2" +:+ lf.

(** A machine that holds that file, with another subnet configured for
    zone K. *)
Definition k_machine : machine :=
  Fixture.machine_of {[ "ALIYUN_VSWITCH_ID_K" := "vsw-env" ]}
    {[ Fixture.c_file := one_entry ]} [] "".

(** C7 fails for the Provisioner: with the subnet [vsw-env] configured
    for zone K, a record of the candidates file for a zone that ends in
    [-k] is created in the subnet [vsw-file] the record names; the
    resolution is not consulted. *)
Lemma provisioner_takes_file_subnet :
  let run := Create.provision (H:=Fixture.keyed) k_machine Fixture.c_params tt in
  Create.get_vswitch_id (environ k_machine) "cn-hangzhou-k" = Some "vsw-env"
  /\ Create.parse_candidates_file (H:=Fixture.keyed) k_machine Fixture.c_file tt
     = ([], Ret [{| Create.e_instance_type := "ecs.c7.large";
                    Create.e_zone_id := "cn-hangzhou-k";
                    Create.e_vswitch_id := "vsw-file";
                    Create.e_spot_price_limit := "0.1500";
                    Create.e_cpu_cores := Some 2 |}], tt)
  /\ run.1.2 = Exit 0
  /\ map vswitch_of (runs_of run.1.1) = ["vsw-file"; "vsw-file"].
Proof. by vm_compute. Qed.

(** C7 as amended, at [cn-hangzhou-k], and at the run above. *)
Lemma zone_subnet_witness :
  Select.get_vswitch_id {[ "ALIYUN_VSWITCH_ID_K" := "vsw-k" ]} "cn-hangzhou-k"
  = Some "vsw-k"
  /\ Forall (fun cmd => exists cand,
               cand ∈ [{| Create.e_instance_type := "ecs.c7.large";
                          Create.e_zone_id := "cn-hangzhou-k";
                          Create.e_vswitch_id := "vsw-file";
                          Create.e_spot_price_limit := "0.1500";
                          Create.e_cpu_cores := Some 2 |}]
               /\ vswitch_of cmd = Create.e_vswitch_id cand)
       (runs_of (Create.provision (H:=Fixture.keyed) k_machine
                   Fixture.c_params tt).1.1).
Proof.
  pose proof (zone_subnet (H:=Fixture.keyed)) as (Hzone & _ & _ & _ & _ & Hmulti & _).
  split.
  - exact (proj1 (Hzone {[ "ALIYUN_VSWITCH_ID_K" := "vsw-k" ]}
                    "cn-hangzhou-k" eq_refl)
             "cn-hangzhou" "k"%char eq_refl eq_refl).
  - apply (Hmulti k_machine Fixture.c_params tt Fixture.c_file).
    + vm_compute; reflexivity.
    + reflexivity.
    + vm_compute; reflexivity.
Defined.

End ZoneClaims.

(** ** The lines of the candidates file *)
Module CandidateLines.
Import Py PyFacts Select FileClaims Handover.

(** The VSwitch and the price limit of a record: the VSwitch is the one
    the zone of the candidate resolves to, and is not empty; the price
    limit is the price per core times the cores times 1.2. *)
Definition priced (mc : machine) (x : line) : Prop :=
  let '(c, v, l) := x in
  get_vswitch_id (environ mc) (cand_zone_id c) = Some v
  /\ nonempty v = true
  /\ exists total_price,
       float_mul_int (cand_price_per_core c) (cand_cpu_cores c) = Some total_price
       /\ l = PrimFloat.mul total_price lit_1_2.

(** What is written for a record: its five fields with bars between
    them and a line feed after them, to the file at [path]. *)
Definition record (path : string) (x : line) : string * string :=
  (path, body_of x +:+ lf).

(** The five fields of a record. *)
Definition fields (x : line) : list string :=
  let '(c, v, l) := x in
  [cand_instance_type c; cand_zone_id c; v; format_4f l;
   str_of_int (cand_cpu_cores c)].

(** The instance type, the zone and the VSwitch of a record hold no bar,
    carriage return or line feed. *)
Definition clean_fields (x : line) : bool :=
  let '(c, v, _) := x in
  clean (cand_instance_type c) && clean (cand_zone_id c) && clean v.

Lemma body_fields x :
  clean_fields x = true ->
  Lines.no_lf (body_of x) = true /\ split "|" (body_of x) = fields x.
Proof.
  destruct x as [[c v] l]. unfold clean_fields, body_of, fields.
  intros [[Ht Hz]%andb_true_iff Hv]%andb_true_iff.
  pose proof (tame_clean _ (format_f_tame 4 l)) as Hl.
  pose proof (tame_clean _ (str_of_int_tame (cand_cpu_cores c))) as Hc.
  fold format_4f in Hl.
  apply clean_parts in Ht as (Ht & Ht1 & _), Hz as (Hz & Hz1 & _),
    Hv as (Hv & Hv1 & _), Hl as (Hl & Hl1 & _), Hc as (Hc & Hc1 & _).
  split.
  - unfold Lines.no_lf. rewrite !all_app. cbn [Py.all].
    repeat (apply andb_true_iff; split); done.
  - change ("|" +:+ ?x) with (String "|" x).
    rewrite (split_field _ _ Ht). f_equal.
    change ("|" +:+ ?x) with (String "|" x).
    rewrite (split_field _ _ Hz). f_equal.
    change ("|" +:+ ?x) with (String "|" x).
    rewrite (split_field _ _ Hv). f_equal.
    change ("|" +:+ ?x) with (String "|" x).
    rewrite (split_field _ _ Hl). f_equal.
    by apply split_last.
Qed.

(** Records with clean fields are one line each. *)
Lemma lines_of_records path ls :
  forallb clean_fields ls = true ->
  Lines.lines (written_text (map (record path) ls)) = map body_of ls.
Proof.
  induction ls as [|x ls IH]; [done|]. cbn [forallb].
  intros [Hx Hls]%andb_true_iff.
  change (written_text (map (record path) (x :: ls)))
    with ((body_of x +:+ lf) +:+ written_text (map (record path) ls)).
  destruct (body_fields _ Hx) as [Hlf _].
  rewrite append_assoc, (Lines.lines_line _ _ Hlf). by rewrite (IH Hls).
Qed.

Section WithRuntime.
Context `{runtime}.

(** The records of a run: of at most five candidates that come from
    offers of [data], in the order of [data], each with its VSwitch and
    its price limit. *)
Definition records_of (mc : machine) (st : settings) (data : list json)
    (writes : list (string * string)) : Prop :=
  exists (picked : list json) (ls : list line),
    sublist picked data
    /\ Forall2 (fun i x => comes_from (min_cpu st) i x.1.1) picked ls
    /\ Forall (priced mc) ls
    /\ (length ls <= 5)%nat
    /\ writes = map (record (tmp_name mc)) ls.

Lemma records_of_lines mc path written ws :
  Forall2 (line_of mc path) written ws ->
  exists ls : list line,
    map (fun x : line => x.1.1) ls = written
    /\ Forall (priced mc) ls
    /\ ws = map (record path) ls.
Proof.
  induction 1 as [|c [p t] written ws Hl _ IH].
  - by exists [].
  - destruct IH as (ls & Hmap & Hall & Hws).
    destruct Hl as (Hp & v & total & Hv & Hn & Ht & Htext).
    cbn [fst snd] in Hp, Htext.
    exists ((c, v, PrimFloat.mul total lit_1_2) :: ls).
    cbn [map fst]. rewrite Hmap, <- Hws. split; [done|]. split.
    + constructor; [|done]. split; [done|]. split; [done|]. by exists total.
    + f_equal. unfold record, body_of. rewrite Hp, Htext. f_equal.
      apply chars_inj. rewrite !chars_app. by rewrite <- !app_assoc.
Qed.

Lemma file_of_records mc st data ws (w : world) :
  file_of mc st data ws -> records_of mc st data ws.
Proof.
  intros (picked & written & Hs & Hk & Hlen & Hl).
  destruct (records_of_lines _ _ _ _ Hl) as (ls & Hmap & Hp & ->).
  exists picked, ls. split; [done|]. split.
  - subst written. clear -Hk w. revert picked Hk.
    induction ls as [|x ls IH]; intros picked Hk.
    + apply Forall2_nil_inv_r in Hk as ->. constructor.
    + cbn [map] in Hk. apply Forall2_cons_inv_r in Hk as (i & picked' & Hi & Hk & ->).
      constructor; [by apply (keeps_comes_from _ _ _ _ _ w) in Hi|by apply IH].
  - split; [done|]. split; [|done]. subst written. by rewrite length_map in Hlen.
Qed.

(** C5, as amended.  Whatever [main] writes to a file is written to the
    temporary candidates file, and is either nothing or this: the
    advisor answered one of the strategies with the offers [data], and
    what is written is one record for each of at most five candidates
    that come from offers of [data], in the order of [data]; a record is
    INSTANCE_TYPE|ZONE_ID|VSWITCH_ID|SPOT_PRICE_LIMIT|CPU_CORES and a
    line feed, where the VSwitch is the one the zone resolves to and is
    not empty, and the price limit is the price per core times the cores
    times 1.2, to four decimals.  When the instance types, zones and
    VSwitches of the records hold no bar, carriage return or line feed,
    the lines of the file are these records, each of exactly five
    fields, and there are at most five lines. *)
Theorem candidates_file_lines mc w ev o w' :
  main mc w = (ev, o, w') ->
  writes_of ev = []
  \/ exists ev0 st w0 ev1 data w1 picked (ls : list line),
       read_settings mc w = (ev0, Ret st, w0)
       /\ strategy_loop st
            (query_strategies (arch st) (min_cpu st) (max_cpu st)) 0 w0
          = (ev1, Ret (Some data), w1)
       /\ sublist picked data
       /\ Forall2 (fun i x => comes_from (min_cpu st) i x.1.1) picked ls
       /\ Forall (priced mc) ls
       /\ (length ls <= 5)%nat
       /\ writes_of ev = map (record (tmp_name mc)) ls
       /\ (forallb clean_fields ls = true ->
           Lines.lines (written_text (writes_of ev)) = map body_of ls
           /\ Forall (fun x => split "|" (body_of x) = fields x) ls
           /\ (length (Lines.lines (written_text (writes_of ev))) <= 5)%nat).
Proof.
  intros E. destruct (main_writes _ _ _ _ _ E)
    as [Hnone | (ev0 & st & w0 & ev1 & data & w1 & E0 & E1 & Hfile)]; [by left|].
  right. apply (file_of_records _ _ _ _ w) in Hfile
    as (picked & ls & Hs & Hfrom & Hp & Hlen & Hw).
  exists ev0, st, w0, ev1, data, w1, picked, ls.
  repeat (split; [done|]). intros Hclean. rewrite Hw.
  rewrite (lines_of_records _ _ Hclean), length_map.
  split; [done|]. split; [|done].
  clear -Hclean. induction ls as [|x ls IH]; [constructor|].
  cbn [forallb] in Hclean. apply andb_true_iff in Hclean as [Hx Hls].
  constructor; [by apply body_fields|by apply IH].
Qed.

End WithRuntime.

(** An answer of the advisor with one offer whose instance type holds a
    line feed, written as JSON writes it:
    [[{"instanceTypeId": "ecs.c7\n.large", "zoneId": "cn-hangzhou-k",
       "pricePerCore": "0.5", "cpuCoreCount": 2}]]. *)
Definition broken_doc : string :=
  "[{" +:+ Fixture.dq "instanceTypeId" +:+ ": " +:+ Fixture.dq "ecs.c7\n.large"
  +:+ ", " +:+ Fixture.dq "zoneId" +:+ ": " +:+ Fixture.dq "cn-hangzhou-k"
  +:+ ", " +:+ Fixture.dq "pricePerCore" +:+ ": " +:+ Fixture.dq "0.5" +:+ ", "
  +:+ Fixture.dq "cpuCoreCount" +:+ ": 2}]".

Definition broken_json : json :=
  JList [JObj [("instanceTypeId", JStr ("ecs.c7" +:+ lf +:+ ".large"));
               ("zoneId", JStr "cn-hangzhou-k");
               ("pricePerCore", JStr "0.5");
               ("cpuCoreCount", JInt 2)]].

(** [json.loads] on this answer and on the answers of [Fixture]. *)
Definition broken_loads (s : string) : option json :=
  if String.eqb s broken_doc then Some broken_json else Fixture.loads s.

Lemma broken_loads_blank s :
  nonempty (strip s) = false -> broken_loads s = None.
Proof.
  unfold broken_loads. intros Hs.
  destruct (String.eqb_spec s broken_doc) as [->|_]; [by vm_compute in Hs|].
  by apply Fixture.loads_blank.
Qed.

(** A world that answers the calls with a prepared list of results, and
    decodes this answer too. *)
Definition broken_runtime : runtime :=
  {| world := list proc_result;
     subprocess_run := fun _ w => match w with
                                  | r :: rest => (r, rest)
                                  | [] => (OSError "no such file", [])
                                  end;
     time_time := fun _ => 0%float;
     json_loads := broken_loads;
     json_error := fun _ => "Expecting value: line 1 column 1 (char 0)";
     float_of_str := Fixture.to_float;
     repr := fun _ => "...";
     unicode_error := fun _ => "invalid start byte";
     os_error := fun _ => "Permission denied";
     write_failure := fun _ _ => None;
     json_loads_blank := broken_loads_blank |}.

(** C5 fails in its remark that the price limit is positive for positive
    inputs: an offer of two cores at the positive price 0.00001 per core
    is written with the price limit 0.0000, the text of zero.  And it
    fails for an offer whose instance type holds a line feed: what is
    written for it is two lines, neither of them of five fields. *)
Lemma price_zero_and_broken_line :
  let p := 0x1.4f8b588e368f1p-17%float in
  let priced_run :=
    main (H:=Fixture.scripted) selector_machine [Completed 0 Fixture.offers_doc ""] in
  let broken_run :=
    main (H:=broken_runtime) selector_machine [Completed 0 broken_doc ""] in
  float_of_str (runtime:=Fixture.scripted) "0.00001" = Some p
  /\ PrimFloat.ltb 0 p = true
  /\ writes_of priced_run.1.1
     = [("/tmp/tmpab12cd.txt",
         "ecs.c7.large|cn-hangzhou-k|vsw-k|0.0000|2" +:+ lf)]
  /\ format_4f 0 = "0.0000"
  /\ broken_run.1.2 = Ret tt
  /\ writes_of broken_run.1.1
     = [("/tmp/tmpab12cd.txt",
         "ecs.c7" +:+ lf +:+ ".large|cn-hangzhou-k|vsw-k|1.2000|2" +:+ lf)]
  /\ Lines.lines (written_text (writes_of broken_run.1.1))
     = ["ecs.c7"; ".large|cn-hangzhou-k|vsw-k|1.2000|2"]
  /\ split "|" "ecs.c7" = ["ecs.c7"]
  /\ split "|" ".large|cn-hangzhou-k|vsw-k|1.2000|2"
     = [".large"; "cn-hangzhou-k"; "vsw-k"; "1.2000"; "2"].
Proof. by vm_compute. Qed.

(** C5 as amended, on the machine of the Selector with an advisor that
    answers the first query with one offer. *)
Lemma candidates_file_lines_witness :
  let w : list proc_result := [Completed 0 Fixture.offers_doc ""] in
  let run := main (H:=Fixture.scripted) selector_machine w in
  run.1.2 = Ret tt
  /\ writes_of run.1.1
     = [("/tmp/tmpab12cd.txt",
         "ecs.c7.large|cn-hangzhou-k|vsw-k|0.0000|2" +:+ lf)]
  /\ (writes_of run.1.1 = []
      \/ exists ev0 st w0 ev1 data w1 picked (ls : list line),
           read_settings (H:=Fixture.scripted) selector_machine w
           = (ev0, Ret st, w0)
           /\ strategy_loop (H:=Fixture.scripted) st
                (query_strategies (arch st) (min_cpu st) (max_cpu st)) 0 w0
              = (ev1, Ret (Some data), w1)
           /\ sublist picked data
           /\ Forall2 (fun i x => comes_from (H:=Fixture.scripted)
                                    (min_cpu st) i x.1.1) picked ls
           /\ Forall (priced selector_machine) ls
           /\ (length ls <= 5)%nat
           /\ writes_of run.1.1 = map (record (tmp_name selector_machine)) ls
           /\ (forallb clean_fields ls = true ->
               Lines.lines (written_text (writes_of run.1.1)) = map body_of ls
               /\ Forall (fun x => split "|" (body_of x) = fields x) ls
               /\ (length (Lines.lines (written_text (writes_of run.1.1)))
                   <= 5)%nat)).
Proof.
  intros w run.
  assert (main (H:=Fixture.scripted) selector_machine w = (run.1.1, Ret tt, []))
    as E by (by vm_compute).
  split; [by vm_compute|]. split; [by vm_compute|].
  exact (candidates_file_lines (H:=Fixture.scripted) selector_machine w run.1.1
           (Ret tt) [] E).
Defined.

End CandidateLines.

(** ** What the Selector prints on standard output *)
Module Announce.
Import Py PyFacts Select SelectMore Handover.

(** None of the six texts printed for a candidate holds a line feed
    exactly when the instance type, the zone, the VSwitch and the path
    of the candidates file hold none. *)
Lemma output_lines_no_lf c v l path :
  forallb Lines.no_lf (output_lines c v l path)
  = Lines.no_lf (cand_instance_type c) && Lines.no_lf (cand_zone_id c)
    && Lines.no_lf v && Lines.no_lf path.
Proof.
  pose proof (tame_clean _ (format_f_tame 4 l)) as Hl.
  pose proof (tame_clean _ (str_of_int_tame (cand_cpu_cores c))) as Hc.
  fold format_4f in Hl.
  apply clean_parts in Hl as (_ & Hl & _), Hc as (_ & Hc & _).
  unfold output_lines, Lines.no_lf in *. cbn [forallb].
  rewrite !all_app, Hl, Hc. cbn [Py.all andb Ascii.eqb Bool.eqb negb LF].
  by rewrite !andb_true_r, !andb_assoc.
Qed.

Section WithRuntime.
Context `{runtime}.

(** X10.  The Selector announces what it wrote, or nothing.  A run of
    [main] that returns has printed six texts on standard output, each
    followed by a line feed: INSTANCE_TYPE, ZONE_ID, VSWITCH_ID,
    SPOT_PRICE_LIMIT, CPU_CORES and CANDIDATES_FILE, naming the
    candidate, the VSwitch and the price limit of the first line of the
    candidates file it wrote, and that file.  They are exactly six
    lines if and only if the instance type, the zone, the VSwitch and
    the path of the file hold no line feed; with a line feed in one of
    them there are more.  Every other run ends with exit status 1 and
    has printed nothing on standard output. *)
Theorem selector_announces_first_line mc w :
  match main mc w with
  | (ev, Ret _, _) =>
      exists c vswitch_id limit more,
        writes_of ev
        = (tmp_name mc, candidate_line c vswitch_id limit) :: more
        /\ stdout_of ev = output_lines c vswitch_id limit (tmp_name mc)
        /\ (6 <= length (Lines.lines (Lines.printed (stdout_of ev))))%nat
        /\ (length (Lines.lines (Lines.printed (stdout_of ev))) = 6%nat
            <-> Lines.no_lf (cand_instance_type c) && Lines.no_lf (cand_zone_id c)
                && Lines.no_lf vswitch_id && Lines.no_lf (tmp_name mc) = true)
        /\ (Lines.no_lf (cand_instance_type c) && Lines.no_lf (cand_zone_id c)
            && Lines.no_lf vswitch_id && Lines.no_lf (tmp_name mc) = true ->
            Lines.lines (Lines.printed (stdout_of ev))
            = output_lines c vswitch_id limit (tmp_name mc))
  | (ev, o, _) =>
      exit_status o = 1 /\ stdout_of ev = []
      /\ Lines.printed (stdout_of ev) = ""
  end.
Proof.
  pose proof (main_announced mc w) as Ha.
  destruct (main mc w) as [[ev [[]|n|e]] w1].
  - destruct Ha as (c & v & l & more & Hw & Hs). exists c, v, l, more.
    split; [done|]. split; [done|]. rewrite Hs.
    rewrite <- !(output_lines_no_lf c v l (tmp_name mc)). split; [|split].
    + rewrite Lines.length_lines_printed. cbn [output_lines length]. lia.
    + apply (Lines.length_lines_printed_iff (output_lines c v l (tmp_name mc))).
    + apply Lines.lines_printed.
  - destruct Ha as [? Hs]. by rewrite Hs.
  - destruct Ha as [? Hs]. by rewrite Hs.
Qed.

End WithRuntime.

End Announce.
